(** * Infinity Bank: ledger posting, loan amortization and card issuance

    A shallow embedding of the server-side logic of the banking demo:
    the Mongoose models (User, Transaction, Loan, Card) and the Express
    route handlers that sequence reads and writes on them.

    Conventions of the embedding.
    - A JavaScript [Number] that carries money or a rate is an exact
      rational ([Q]); comparisons are the decidable ones of [Q].  Division
      only occurs with a non-zero divisor on validated input.  The
      amortization code is given a second time over an arbitrary arithmetic
      ([Arith.t]), of which the engine's binary64 with its [Math.pow] is
      one and the exact rationals another; what is said of its formula is
      proved there.
    - The amount of a request body is a JSON number.  The validators also
      let a numeric string through, with which [+=] concatenates; such a
      body has no counterpart here.
    - A character of a string stands for one code unit below 256.
    - Document identifiers ([_id]) are natural numbers.  A collection that
      is looked up by user id is a [gmap]; the transaction, loan and card
      collections are lists whose index is the document's [_id].
    - A document obtained with [findById] is a private copy: it reaches the
      collection again only through [save].
    - A handler is a function of the store that either sends a response
      early ([return res.status(..).json(..)]) or continues; see [Handler].
    - [Date.now()], [new Date()] and the generated reference string are
      supplied by the environment of a request.
    - [save] first validates the document against its schema, then runs the
      schema's own pre-save hooks, then writes; when the validation fails
      it throws, nothing is written, and the [catch] of the route answers
      500.  This is followed for the loan and the card documents
      ([Loan.validate], [CardDoc.validate]).  The user and transaction
      documents of a store are taken to satisfy their schemas, which the
      writes of the transaction router preserve. *)

From Stdlib Require Import QArith Qround Qabs Qpower ZArith String Ascii Lia Lqa.
From stdpp Require Import gmap strings list.

Local Open Scope Q_scope.

(** ** JavaScript comparison on numbers *)

(** [a < b] *)
Definition js_lt (a b : Q) : bool := negb (Qle_bool b a).

(** [a >= b] *)
Definition js_ge (a b : Q) : bool := Qle_bool b a.

(** [a > b] *)
Definition js_gt (a b : Q) : bool := negb (Qle_bool a b).

Arguments js_lt : simpl never.
Arguments js_ge : simpl never.
Arguments js_gt : simpl never.

(** [Math.round(x)]: the nearest integer, halves rounded up. *)
Definition Math_round (x : Q) : Z := Qfloor (x + (1 # 2)).

(** [Math.round(x * 100) / 100] *)
Definition round2 (x : Q) : Q := inject_Z (Math_round (x * 100)) / 100.

(** [.isLength({ max: n })] on an optional field *)
Definition optional_isLength_max (n : nat) (s : option string) : bool :=
  match s with
  | None => true
  | Some s => Nat.leb (String.length s) n
  end.

(** [String.prototype.trim], which a schema path with [trim: true] applies
    to what is assigned to it: the white space and line terminators below
    256 are the codes 9 to 13, 32 and 160. *)
Definition is_white_space (c : ascii) : bool :=
  let n := nat_of_ascii c in
  (Nat.leb 9 n && Nat.leb n 13) || Nat.eqb n 32 || Nat.eqb n 160.

Fixpoint trim_start (s : string) : string :=
  match s with
  | String c rest => if is_white_space c then trim_start rest else s
  | EmptyString => EmptyString
  end.

Definition reverse (s : string) : string :=
  string_of_list_ascii (rev (list_ascii_of_string s)).

Definition js_trim (s : string) : string :=
  reverse (trim_start (reverse (trim_start s))).

(** ** The arithmetic of the amortization code *)

Module Arith.
(** The operations on numbers that the hook of the loan schema and the
    loan calculator use: the number [lit q] that the decimal literal [q]
    denotes, the operators [+], [-], [*] and [/], [Math.pow], the
    comparison [>], the bounds [min] and [max] and the integer test of the
    validators, and [Math.round]. *)
Record t : Type := mk {
  num : Type;
  lit : Q -> num;
  add : num -> num -> num;
  sub : num -> num -> num;
  mul : num -> num -> num;
  div : num -> num -> num;
  pow : num -> num -> num;
  gt : num -> num -> bool;
  ge : num -> num -> bool;
  le : num -> num -> bool;
  isInt : num -> bool;
  round : num -> num
}.

Definition Q_isInt (x : Q) : bool := Qeq_bool (inject_Z (Qfloor x)) x.

(** The exact rationals.  The exponent of [pow] is an integer wherever the
    code calls it on validated input. *)
Definition exact : t :=
  {| num := Q;
     lit := fun q => q;
     add := Qplus; sub := Qminus; mul := Qmult; div := Qdiv;
     pow := fun x n => Qpower x (Qfloor n);
     gt := js_gt; ge := js_ge; le := Qle_bool;
     isInt := Q_isInt;
     round := fun x => inject_Z (Math_round x) |}.
End Arith.

(** ** HTTP responses *)

Record Response (A : Type) : Type := mkResponse {
  code : nat;
  message : string;
  payload : option A
}.
Arguments mkResponse {A} _ _ _.
Arguments code {A} _.
Arguments message {A} _.
Arguments payload {A} _.

(** ** The User model ([userSchema]) *)

Module User.
Record t : Type := mk {
  isActive : bool;
  accountBalance : Q
}.

Definition set_accountBalance (u : t) (b : Q) : t :=
  {| isActive := isActive u; accountBalance := b |}.
End User.

(** ** The Transaction model ([transactionSchema]) *)

Module Transaction.
Inductive TxType : Type := transfer | deposit | withdrawal | payment.
Inductive Status : Type := pending | completed | failed | cancelled.

Record t : Type := mk {
  sender : nat;
  receiver : nat;
  amount : Q;
  type : TxType;
  status : Status;
  description : option string;
  reference : string;
  createdAt : nat;
  completedAt : option nat
}.

Definition Status_eqb (a b : Status) : bool :=
  match a, b with
  | pending, pending | completed, completed
  | failed, failed | cancelled, cancelled => true
  | _, _ => false
  end.

Definition TxType_eqb (a b : TxType) : bool :=
  match a, b with
  | transfer, transfer | deposit, deposit
  | withdrawal, withdrawal | payment, payment => true
  | _, _ => false
  end.

Definition set_status (x : t) (s : Status) : t :=
  {| sender := sender x; receiver := receiver x; amount := amount x;
     type := type x; status := s; description := description x;
     reference := reference x; createdAt := createdAt x;
     completedAt := completedAt x |}.

Definition set_completedAt (x : t) (d : nat) : t :=
  {| sender := sender x; receiver := receiver x; amount := amount x;
     type := type x; status := status x; description := description x;
     reference := reference x; createdAt := createdAt x;
     completedAt := Some d |}.
End Transaction.

(** ** The Loan model ([loanSchema]) *)

Module Loan.
Inductive LoanType : Type := personal | home | business | education | vehicle.

(** The five values of the schema's enum, and [cancelled], which the
    cancel route assigns although the enum does not list it. *)
Inductive Status : Type :=
  pending | approved | rejected | active | closed | cancelled.

(** [monthlyPayment] and [totalAmount] are [None] while undefined.  The
    documents array and the timestamps play no part in what follows and
    are left out. *)
Record t : Type := mk {
  user : nat;
  loanType : LoanType;
  amount : Q;
  interestRate : Q;
  term : Z;
  monthlyPayment : option Q;
  totalAmount : option Q;
  status : Status;
  purpose : option string;
  remainingBalance : Q
}.

(** Which of the paths read by the hook [isModified] reports as changed. *)
Record Modified : Type := mkModified {
  mod_amount : bool;
  mod_interestRate : bool;
  mod_term : bool
}.

Definition all_modified : Modified := mkModified true true true.
Definition none_modified : Modified := mkModified false false false.

(** [loanSchema.pre('save')]: calculate monthly payment and total amount. *)
Definition pre_save (m : Modified) (this : t) : t :=
  if mod_amount m || mod_interestRate m || mod_term m then
    let monthlyRate := interestRate this / 100 / 12 in
    let numberOfPayments := term this in
    let monthlyPayment :=
      if js_gt monthlyRate 0 then
        (amount this * monthlyRate * Qpower (1 + monthlyRate) numberOfPayments)
        / (Qpower (1 + monthlyRate) numberOfPayments - 1)
      else
        amount this / inject_Z numberOfPayments in
    {| user := user this; loanType := loanType this; amount := amount this;
       interestRate := interestRate this; term := term this;
       monthlyPayment := Some monthlyPayment;
       totalAmount := Some (monthlyPayment * inject_Z numberOfPayments);
       status := status this; purpose := purpose this;
       remainingBalance := amount this |}
  else this.

Definition set_status (x : t) (s : Status) : t :=
  {| user := user x; loanType := loanType x; amount := amount x;
     interestRate := interestRate x; term := term x;
     monthlyPayment := monthlyPayment x; totalAmount := totalAmount x;
     status := s; purpose := purpose x;
     remainingBalance := remainingBalance x |}.

(** [loan.purpose = p]; the path has [trim: true]. *)
Definition set_purpose (x : t) (p : string) : t :=
  {| user := user x; loanType := loanType x; amount := amount x;
     interestRate := interestRate x; term := term x;
     monthlyPayment := monthlyPayment x; totalAmount := totalAmount x;
     status := status x; purpose := Some (js_trim p);
     remainingBalance := remainingBalance x |}.

Definition Status_eqb (a b : Status) : bool :=
  match a, b with
  | pending, pending | approved, approved | rejected, rejected
  | active, active | closed, closed | cancelled, cancelled => true
  | _, _ => false
  end.

(** [status: { $in: ['pending', 'approved', 'active'] }] *)
Definition in_pending_approved_active (s : Status) : bool :=
  match s with
  | pending | approved | active => true
  | _ => false
  end.

(** [enum: ['pending', 'approved', 'rejected', 'active', 'closed']] *)
Definition status_in_enum (s : Status) : bool :=
  match s with
  | cancelled => false
  | _ => true
  end.

Definition is_defined {A} (x : option A) : bool :=
  match x with
  | Some _ => true
  | None => false
  end.

(** The validation of a loan document against [loanSchema]: [amount] at
    least 1000, [interestRate] between 0.1 and 25, [term] between 1 and
    360, [monthlyPayment] and [totalAmount] required, [status] in its
    enum, [purpose] of at most 200 characters.  The user and the loan type
    are always present here. *)
Definition validate (x : t) : bool :=
  js_ge (amount x) 1000
  && js_ge (interestRate x) (1 # 10) && Qle_bool (interestRate x) 25
  && Z.leb 1 (term x) && Z.leb (term x) 360
  && is_defined (monthlyPayment x)
  && is_defined (totalAmount x)
  && status_in_enum (status x)
  && optional_isLength_max 200 (purpose x).

Arguments validate : simpl never.
End Loan.

(** ** The Card model ([cardSchema]) *)

Module Card.
Inductive CardType : Type := credit | debit.
Inductive Network : Type := Visa | Mastercard | RuPay | AmericanExpress.
Inductive Category : Type := classic | gold | platinum | signature | infinite.
Inductive Rewards : Type := cashback | points | miles | none.

(** The string of a number between 0 and 9, as appended by [+=]. *)
Definition digit_string (d : nat) : string :=
  String (ascii_of_nat (48 + d)) EmptyString.

(** [parseInt] of one decimal character. *)
Definition parseInt (c : ascii) : nat := nat_of_ascii c - 48.

Definition prefix (cardNetwork : Network) : string :=
  match cardNetwork with
  | Visa => "4"
  | Mastercard => "5"
  | RuPay => "6"
  | AmericanExpress => "3"
  end.

(** [for (...; i < n; i++) cardNumber += Math.floor(Math.random() * 10)];
    [rnd k] stands for the [k]-th draw, reduced to a digit. *)
Fixpoint append_random (rnd : nat -> nat) (k n : nat) (cardNumber : string) : string :=
  match n with
  | O => cardNumber
  | S n' =>
      append_random rnd (S k) n'
        (String.append cardNumber (digit_string (rnd k mod 10)))
  end.

(** The body of the loop that runs from the last character to the first. *)
Fixpoint luhn_loop (chars_from_right : list ascii) (sum : nat) (isEven : bool) : nat :=
  match chars_from_right with
  | [] => sum
  | c :: rest =>
      let digit := parseInt c in
      let digit :=
        if isEven then
          let digit := (digit * 2)%nat in
          if Nat.ltb 9 digit then (digit - 9)%nat else digit
        else digit in
      luhn_loop rest (sum + digit)%nat (negb isEven)
  end.

(** The generator inside [cardSchema.pre('save')]. *)
Definition generateCardNumber (cardNetwork : Network) (rnd : nat -> nat) : string :=
  let cardNumber := append_random rnd 0 15 (prefix cardNetwork) in
  let sum := luhn_loop (rev (list_ascii_of_string cardNumber)) 0 false in
  let checkDigit := ((10 - sum mod 10) mod 10)%nat in
  String.append cardNumber (digit_string checkDigit).

(** [cardSchema.pre('save')]: generate the number if not provided. *)
Definition pre_save (cardNumber : option string) (cardNetwork : Network)
    (rnd : nat -> nat) : string :=
  match cardNumber with
  | Some s => if String.eqb s EmptyString then generateCardNumber cardNetwork rnd else s
  | None => generateCardNumber cardNetwork rnd
  end.
End Card.

(** ** The document store and request handlers *)

Record Store : Type := mkStore {
  users : gmap nat User.t;
  transactions : list Transaction.t;
  loans : list Loan.t
}.

Definition set_users (st : Store) (us : gmap nat User.t) : Store :=
  {| users := us; transactions := transactions st; loans := loans st |}.

Definition set_transactions (st : Store) (ts : list Transaction.t) : Store :=
  {| users := users st; transactions := ts; loans := loans st |}.

Definition set_loans (st : Store) (ls : list Loan.t) : Store :=
  {| users := users st; transactions := transactions st; loans := ls |}.

(** A handler step reads and writes the store and either has already sent
    the response (left) or goes on with a value (right). *)
Definition Handler (R A : Type) : Type := Store -> (Response R + A) * Store.

Definition ret {R A} (a : A) : Handler R A := fun st => (inr a, st).

Definition bind {R A B} (m : Handler R A) (f : A -> Handler R B) : Handler R B :=
  fun st =>
    match m st with
    | (inl r, st') => (inl r, st')
    | (inr a, st') => f a st'
    end.

(** [return res.status(code).json({ message, ... })] *)
Definition respond {R A} (c : nat) (msg : string) (p : option R) : Handler R A :=
  fun st => (inl (mkResponse c msg p), st).

Notation "'let!' x := m 'in' f" := (bind m (fun x => f))
  (at level 10, x name, m at level 200, f at level 200, only parsing).
Notation "'do!' m 'in' f" := (bind m (fun _ => f))
  (at level 10, m at level 200, f at level 200, only parsing).

(** Run a handler whose continuation ends in a response. *)
Definition run {R} (h : Handler R (Response R)) (st : Store) : Response R * Store :=
  match h st with
  | (inl r, st') => (r, st')
  | (inr r, st') => (r, st')
  end.

(** [User.findById(id)] *)
Definition User_findById {R} (id : nat) : Handler R (option User.t) :=
  fun st => (inr (users st !! id), st).

(** [user.save()] *)
Definition User_save {R} (id : nat) (u : User.t) : Handler R unit :=
  fun st => (inr tt, set_users st (<[id := u]> (users st))).

(** [Transaction.findById(id)] *)
Definition Transaction_findById {R} (id : nat) : Handler R (option Transaction.t) :=
  fun st => (inr (transactions st !! id), st).

(** First [transaction.save()] of a new document; yields its [_id]. *)
Definition Transaction_insert {R} (x : Transaction.t) : Handler R nat :=
  fun st => (inr (length (transactions st)),
             set_transactions st (transactions st ++ [x])).

(** [transaction.save()] of a document that is already stored. *)
Definition Transaction_save {R} (id : nat) (x : Transaction.t) : Handler R unit :=
  fun st => (inr tt, set_transactions st (<[id := x]> (transactions st))).

(** [Loan.findOne({ user, status: { $in: [...] } })] *)
Definition Loan_findOne_open {R} (userId : nat) : Handler R (option Loan.t) :=
  fun st =>
    (inr (List.find
            (fun l => Nat.eqb (Loan.user l) userId
                      && Loan.in_pending_approved_active (Loan.status l))
            (loans st)),
     st).

(** [Loan.findById(id)] *)
Definition Loan_findById {R} (id : nat) : Handler R (option Loan.t) :=
  fun st => (inr (loans st !! id), st).

(** [loan.save()] of a new document.  The document is validated as the
    constructor left it; if it passes, the pre-save hook runs, every path
    set by the constructor counting as modified, and the result is stored
    and yielded.  [None] stands for the error that [save] throws. *)
Definition Loan_insert {R} (x : Loan.t) : Handler R (option (nat * Loan.t)) :=
  fun st =>
    if Loan.validate x then
      let x' := Loan.pre_save Loan.all_modified x in
      (inr (Some (length (loans st), x')), set_loans st (loans st ++ [x']))
    else (inr None, st).

(** [loan.save()] of a stored document, with the paths modified since it
    was loaded; validated first, like a new one. *)
Definition Loan_save {R} (id : nat) (m : Loan.Modified) (x : Loan.t)
    : Handler R (option Loan.t) :=
  fun st =>
    if Loan.validate x then
      let x' := Loan.pre_save m x in
      (inr (Some x'), set_loans st (<[id := x']> (loans st)))
    else (inr None, st).

(** [try { ... await doc.save() ... } catch (error) { res.status(500) ... }]:
    the error thrown by [save] ends the handler with the 500 of its
    [catch]. *)
Definition or_500 {R A} (msg : string) (saved : option A) : Handler R A :=
  match saved with
  | Some a => ret a
  | None => respond 500 msg None
  end.

(** The [authenticateToken] middleware, from the user id the token decodes to. *)
Definition authenticateToken {R} (userId : nat) : Handler R User.t :=
  let! user := User_findById userId in
  match user with
  | None => respond 401 "Invalid or inactive user" None
  | Some user =>
      if negb (User.isActive user)
      then respond 401 "Invalid or inactive user" None
      else ret user
  end.

(** ** The transaction router (routes/transaction.js) *)

Module TransactionRoutes.
Import Transaction.

Record Body : Type := mkBody {
  receiverId : nat;
  b_amount : Q;
  b_type : TxType;
  b_description : option string
}.

(** What the environment supplies while one request is served. *)
Record Env : Type := mkEnv {
  fresh_reference : string;
  date_created : nat;
  date_completed : nat
}.

(** The [transaction] object of the 201 response. *)
Record View : Type := mkView {
  v_id : nat;
  v_reference : string;
  v_amount : Q;
  v_type : TxType;
  v_status : Status;
  v_createdAt : nat
}.

Definition view (id : nat) (x : Transaction.t) : View :=
  {| v_id := id; v_reference := reference x; v_amount := amount x;
     v_type := type x; v_status := status x; v_createdAt := createdAt x |}.

(** What a response of this router carries: the [transaction] object of
    [/create], or the one of [/:id/cancel], which shows the id and the
    status ([updatedAt] is not a path of the schema). *)
Inductive Payload : Type :=
| Created (v : View)
| Cancelled (id : nat) (status : Status).

(** The express-validator chain of [/create]. *)
Definition validationResult (body : Body) : bool :=
  js_ge (b_amount body) (1 # 100)
  && optional_isLength_max 200 (b_description body).

(** [router.post('/create')] *)
Definition create (userId : nat) (body : Body) (env : Env)
    : Handler Payload (Response Payload) :=
  let! req_user := authenticateToken userId in
  if negb (validationResult body) then
    respond 400 "Validation failed" None
  else
  let amount := b_amount body in
  let type := b_type body in
  let senderId := userId in
  if TxType_eqb type transfer && js_lt (User.accountBalance req_user) amount then
    respond 400 "Insufficient balance" None
  else
  let! receiver := User_findById (receiverId body) in
  match receiver with
  | None => respond 404 "Receiver not found" None
  | Some receiver =>
  if negb (User.isActive receiver) then
    respond 404 "Receiver not found" None
  else
  let transaction :=
    {| sender := senderId; receiver := receiverId body; amount := amount;
       type := type; status := pending;
       description := option_map js_trim (b_description body);
       reference := fresh_reference env; createdAt := date_created env;
       completedAt := None |} in
  let! id := Transaction_insert transaction in
  let! transaction :=
    match type with
    | transfer =>
        let req_user :=
          User.set_accountBalance req_user (User.accountBalance req_user - amount) in
        do! User_save userId req_user in
        let receiver :=
          User.set_accountBalance receiver (User.accountBalance receiver + amount) in
        do! User_save (receiverId body) receiver in
        let transaction := set_status transaction completed in
        let transaction := set_completedAt transaction (date_completed env) in
        do! Transaction_save id transaction in
        ret transaction
    | deposit =>
        let req_user :=
          User.set_accountBalance req_user (User.accountBalance req_user + amount) in
        do! User_save userId req_user in
        let transaction := set_status transaction completed in
        let transaction := set_completedAt transaction (date_completed env) in
        do! Transaction_save id transaction in
        ret transaction
    | withdrawal =>
        if js_lt (User.accountBalance req_user) amount then
          respond 400 "Insufficient balance for withdrawal" None
        else
        let req_user :=
          User.set_accountBalance req_user (User.accountBalance req_user - amount) in
        do! User_save userId req_user in
        let transaction := set_status transaction completed in
        let transaction := set_completedAt transaction (date_completed env) in
        do! Transaction_save id transaction in
        ret transaction
    | payment => ret transaction
    end in
  ret (mkResponse 201 "Transaction created successfully"
         (Some (Created (view id transaction))))
  end.

(** [router.patch('/:id/cancel')] *)
Definition cancel (userId : nat) (id : nat) : Handler Payload (Response Payload) :=
  let! req_user := authenticateToken userId in
  let! transaction := Transaction_findById id in
  match transaction with
  | None => respond 404 "Transaction not found" None
  | Some transaction =>
      if negb (Nat.eqb (sender transaction) userId) then
        respond 403 "Only sender can cancel transaction" None
      else if negb (Status_eqb (status transaction) pending) then
        respond 400 "Only pending transactions can be cancelled" None
      else
        let transaction := set_status transaction cancelled in
        do! Transaction_save id transaction in
        ret (mkResponse 200 "Transaction cancelled successfully"
               (Some (Cancelled id (status transaction))))
  end.

(** The requests of this router that write to the store. *)
Inductive Request : Type :=
| Create (userId : nat) (body : Body) (env : Env)
| Cancel (userId : nat) (id : nat).

Definition handle (rq : Request) (st : Store) : Response Payload * Store :=
  match rq with
  | Create userId body env => run (create userId body env) st
  | Cancel userId id => run (cancel userId id) st
  end.

(** Serve a sequence of requests, one after the other. *)
Fixpoint serve (rqs : list Request) (st : Store) : Store :=
  match rqs with
  | [] => st
  | rq :: rest => serve rest (snd (handle rq st))
  end.
End TransactionRoutes.

(** ** The loan router *)

Module LoanRoutes.
Import Loan.

Record Body : Type := mkBody {
  b_loanType : LoanType;
  b_amount : Q;
  b_term : Z;
  b_purpose : option string
}.

(** The [loan] object of the responses: each shows some paths of the
    stored document, which is kept whole here. *)
Record View : Type := mkView {
  v_id : nat;
  v_loan : Loan.t
}.

(** The express-validator chain of [/apply]. *)
Definition validationResult (body : Body) : bool :=
  js_ge (b_amount body) 1000
  && Z.leb 1 (b_term body) && Z.leb (b_term body) 360
  && optional_isLength_max 200 (b_purpose body).

(** The [switch (loanType)] of [/apply]; 10.5 is [21 # 2], and so on. *)
Definition interestRate_of (loanType : LoanType) (amount : Q) : Q :=
  match loanType with
  | personal => if js_ge amount 50000 then 21 # 2 else 25 # 2
  | home => if js_ge amount 1000000 then 17 # 2 else 19 # 2
  | business => if js_ge amount 200000 then 23 # 2 else 27 # 2
  | education => 19 # 2
  | vehicle => if js_ge amount 500000 then 9 else 21 # 2
  end.

(** [router.post('/apply')] *)
Definition apply (userId : nat) (body : Body) : Handler View (Response View) :=
  let! req_user := authenticateToken userId in
  if negb (validationResult body) then
    respond 400 "Validation failed" None
  else
  let interestRate := interestRate_of (b_loanType body) (b_amount body) in
  let! existingLoan := Loan_findOne_open userId in
  match existingLoan with
  | Some _ =>
      respond 400 "You already have an active loan application or loan" None
  | None =>
      let loan :=
        {| user := userId; loanType := b_loanType body; amount := b_amount body;
           interestRate := interestRate; term := b_term body;
           monthlyPayment := None; totalAmount := None;
           status := pending; purpose := option_map js_trim (b_purpose body);
           remainingBalance := 0 |} in
      let! saved := Loan_insert loan in
      let! saved :=
        or_500 "Internal server error while submitting loan application" saved in
      ret (mkResponse 201 "Loan application submitted successfully"
             (Some (mkView (fst saved) (snd saved))))
  end.

(** [router.patch('/:id')]: only the purpose is followed here. *)
Definition update (userId : nat) (id : nat) (new_purpose : option string)
    : Handler View (Response View) :=
  let! req_user := authenticateToken userId in
  if negb (optional_isLength_max 200 new_purpose) then
    respond 400 "Validation failed" None
  else
  let! loan := Loan_findById id in
  match loan with
  | None => respond 404 "Loan not found" None
  | Some loan =>
      if negb (Nat.eqb (user loan) userId) then
        respond 403 "Access denied to this loan" None
      else
      if negb (Status_eqb (status loan) pending) then
        respond 400 "Only pending loans can be updated" None
      else
      let loan :=
        match new_purpose with
        | Some p => if String.eqb p EmptyString then loan else set_purpose loan p
        | None => loan
        end in
      let! saved := Loan_save id none_modified loan in
      let! loan := or_500 "Internal server error while updating loan" saved in
      ret (mkResponse 200 "Loan updated successfully" (Some (mkView id loan)))
  end.

(** [router.patch('/:id/cancel')] *)
Definition cancel (userId : nat) (id : nat) : Handler View (Response View) :=
  let! req_user := authenticateToken userId in
  let! loan := Loan_findById id in
  match loan with
  | None => respond 404 "Loan not found" None
  | Some loan =>
      if negb (Nat.eqb (user loan) userId) then
        respond 403 "Access denied to this loan" None
      else
      if negb (Status_eqb (status loan) pending) then
        respond 400 "Only pending loans can be cancelled" None
      else
      let loan := set_status loan cancelled in
      let! saved := Loan_save id none_modified loan in
      let! loan := or_500 "Internal server error while cancelling loan" saved in
      ret (mkResponse 200 "Loan application cancelled successfully"
             (Some (mkView id loan)))
  end.

(** The three numbers of [/calculator] before they are rounded, in exact
    rationals; [Amortization.calculate] has them over any arithmetic. *)
Definition calculate (amount : Q) (term : Z) (interestRate : Q) : Q * Q * Q :=
  let monthlyRate := interestRate / 100 / 12 in
  let numberOfPayments := term in
  let monthlyPayment :=
    if js_gt monthlyRate 0 then
      (amount * monthlyRate * Qpower (1 + monthlyRate) numberOfPayments)
      / (Qpower (1 + monthlyRate) numberOfPayments - 1)
    else
      amount / inject_Z numberOfPayments in
  let totalAmount := monthlyPayment * inject_Z numberOfPayments in
  let totalInterest := totalAmount - amount in
  (monthlyPayment, totalAmount, totalInterest).

(** The requests of this router that write to the store. *)
Inductive Request : Type :=
| Apply (userId : nat) (body : Body)
| Update (userId : nat) (id : nat) (new_purpose : option string)
| Cancel (userId : nat) (id : nat).

Definition handle (rq : Request) (st : Store) : Response View * Store :=
  match rq with
  | Apply userId body => run (apply userId body) st
  | Update userId id p => run (update userId id p) st
  | Cancel userId id => run (cancel userId id) st
  end.

Fixpoint serve (rqs : list Request) (st : Store) : Store :=
  match rqs with
  | [] => st
  | rq :: rest => serve rest (snd (handle rq st))
  end.
End LoanRoutes.

(** ** The amortization code over any arithmetic *)

Module Amortization.
Section Over.
Variable A : Arith.t.

Local Abbreviation num := (Arith.num A).
Local Abbreviation lit := (Arith.lit A).
Local Abbreviation add := (Arith.add A).
Local Abbreviation sub := (Arith.sub A).
Local Abbreviation mul := (Arith.mul A).
Local Abbreviation div := (Arith.div A).
Local Abbreviation Math_pow := (Arith.pow A).
Local Abbreviation gt := (Arith.gt A).
Local Abbreviation ge := (Arith.ge A).
Local Abbreviation le := (Arith.le A).
Local Abbreviation isInt := (Arith.isInt A).
Local Abbreviation Math_round := (Arith.round A).

(** The numeric paths of a loan document that the hook reads or writes. *)
Record Paths : Type := mkPaths {
  amount : num;
  interestRate : num;
  term : num;
  monthlyPayment : option num;
  totalAmount : option num;
  remainingBalance : num
}.

(** [loanSchema.pre('save')]: calculate monthly payment and total amount;
    [modified] is [this.isModified('amount') || this.isModified('interestRate')
    || this.isModified('term')]. *)
Definition pre_save (modified : bool) (this : Paths) : Paths :=
  if modified then
    let monthlyRate := div (div (interestRate this) (lit 100)) (lit 12) in
    let numberOfPayments := term this in
    let monthlyPayment :=
      if gt monthlyRate (lit 0) then
        div (mul (mul (amount this) monthlyRate)
                 (Math_pow (add (lit 1) monthlyRate) numberOfPayments))
            (sub (Math_pow (add (lit 1) monthlyRate) numberOfPayments) (lit 1))
      else
        div (amount this) numberOfPayments in
    {| amount := amount this; interestRate := interestRate this;
       term := term this;
       monthlyPayment := Some monthlyPayment;
       totalAmount := Some (mul monthlyPayment numberOfPayments);
       remainingBalance := amount this |}
  else this.

Record CalculatorBody : Type := mkCalculatorBody {
  c_amount : num;
  c_term : num;
  c_interestRate : num
}.

(** The [calculation] object of the calculator's response. *)
Record Calculation : Type := mkCalculation {
  loanAmount : num;
  calc_term : num;
  calc_interestRate : num;
  calc_monthlyPayment : num;
  calc_totalAmount : num;
  calc_totalInterest : num
}.

(** The express-validator chain of [/calculator]. *)
Definition validationResult (body : CalculatorBody) : bool :=
  ge (c_amount body) (lit 1000)
  && isInt (c_term body) && ge (c_term body) (lit 1) && le (c_term body) (lit 360)
  && ge (c_interestRate body) (lit (1 # 10)) && le (c_interestRate body) (lit 25).

(** The three numbers of [/calculator] before they are rounded. *)
Definition calculate (amount term interestRate : num) : num * num * num :=
  let monthlyRate := div (div interestRate (lit 100)) (lit 12) in
  let numberOfPayments := term in
  let monthlyPayment :=
    if gt monthlyRate (lit 0) then
      div (mul (mul amount monthlyRate)
               (Math_pow (add (lit 1) monthlyRate) numberOfPayments))
          (sub (Math_pow (add (lit 1) monthlyRate) numberOfPayments) (lit 1))
    else
      div amount numberOfPayments in
  let totalAmount := mul monthlyPayment numberOfPayments in
  let totalInterest := sub totalAmount amount in
  (monthlyPayment, totalAmount, totalInterest).

(** [Math.round(x * 100) / 100] *)
Definition round2 (x : num) : num := div (Math_round (mul x (lit 100))) (lit 100).

(** [router.post('/calculator')]; it reads and writes no document. *)
Definition calculator (body : CalculatorBody) : Response Calculation :=
  if negb (validationResult body) then
    mkResponse 400 "Validation failed" None
  else
  let amount := c_amount body in
  let term := c_term body in
  let interestRate := c_interestRate body in
  let '(monthlyPayment, totalAmount, totalInterest) :=
    calculate amount term interestRate in
  mkResponse 200 EmptyString
    (Some {| loanAmount := amount; calc_term := term;
             calc_interestRate := interestRate;
             calc_monthlyPayment := round2 monthlyPayment;
             calc_totalAmount := round2 totalAmount;
             calc_totalInterest := round2 totalInterest |}).
End Over.

Arguments mkPaths {A} _ _ _ _ _ _.
Arguments amount {A} _.
Arguments interestRate {A} _.
Arguments term {A} _.
Arguments monthlyPayment {A} _.
Arguments totalAmount {A} _.
Arguments remainingBalance {A} _.
Arguments mkCalculatorBody {A} _ _ _.
Arguments c_amount {A} _.
Arguments c_term {A} _.
Arguments c_interestRate {A} _.
Arguments mkCalculation {A} _ _ _ _ _ _.
Arguments loanAmount {A} _.
Arguments calc_term {A} _.
Arguments calc_interestRate {A} _.
Arguments calc_monthlyPayment {A} _.
Arguments calc_totalAmount {A} _.
Arguments calc_totalInterest {A} _.

(** The numeric paths of a loan document of the store, whose numbers are
    exact rationals. *)
Definition paths_of (l : Loan.t) : Paths Arith.exact :=
  mkPaths (A := Arith.exact)
    (Loan.amount l) (Loan.interestRate l) (inject_Z (Loan.term l))
    (Loan.monthlyPayment l) (Loan.totalAmount l) (Loan.remainingBalance l).
End Amortization.

(** ** The card router (routes/card.js) *)

Module CardRoutes.
Import Card.

(** [switch (cardCategory)]: annual fee based on card category. *)
Definition annualFee (cardType : CardType) (cardCategory : Category) : Z :=
  match cardCategory with
  | classic => match cardType with credit => 500 | debit => 0 end
  | gold => match cardType with credit => 1000 | debit => 250 end
  | platinum => match cardType with credit => 2500 | debit => 500 end
  | signature => match cardType with credit => 5000 | debit => 1000 end
  | infinite => match cardType with credit => 10000 | debit => 2000 end
  end.

(** The rewards program: [none] unless a credit card's category says so. *)
Definition rewardsProgram (cardType : CardType) (cardCategory : Category) : Rewards :=
  match cardType with
  | credit =>
      match cardCategory with
      | gold => cashback
      | platinum => points
      | signature | infinite => miles
      | classic => none
      end
  | debit => none
  end.
End CardRoutes.

(** ** The specification's own formulations *)

Module Spec.
(** Section 4.2, operation [amortize]: the triple
    (monthlyPayment, totalAmount, totalInterest), over an arithmetic [A]:
    the monthly rate, the annuity formula when it is positive and the
    plain quotient otherwise, the total as payment times term, the
    interest as total minus principal. *)
Definition amortize (A : Arith.t)
    (principal annualRatePercent termMonths : Arith.num A)
    : Arith.num A * Arith.num A * Arith.num A :=
  let monthlyRate :=
    Arith.div A (Arith.div A annualRatePercent (Arith.lit A 100)) (Arith.lit A 12) in
  let growth := Arith.pow A (Arith.add A (Arith.lit A 1) monthlyRate) termMonths in
  let monthlyPayment :=
    if Arith.gt A monthlyRate (Arith.lit A 0)
    then Arith.div A (Arith.mul A (Arith.mul A principal monthlyRate) growth)
                     (Arith.sub A growth (Arith.lit A 1))
    else Arith.div A principal termMonths in
  let totalAmount := Arith.mul A monthlyPayment termMonths in
  (monthlyPayment, totalAmount, Arith.sub A totalAmount principal).

(** Section 4.3, the fee table: category, credit fee, debit fee, credit
    rewards. *)
Definition fee_table : list (Card.Category * (Z * Z * Card.Rewards)) :=
  [ (Card.classic, (500, 0, Card.none));
    (Card.gold, (1000, 250, Card.cashback));
    (Card.platinum, (2500, 500, Card.points));
    (Card.signature, (5000, 1000, Card.miles));
    (Card.infinite, (10000, 2000, Card.miles)) ]%Z.

Definition Category_eqb (a b : Card.Category) : bool :=
  match a, b with
  | Card.classic, Card.classic | Card.gold, Card.gold
  | Card.platinum, Card.platinum | Card.signature, Card.signature
  | Card.infinite, Card.infinite => true
  | _, _ => false
  end.

Definition feeSchedule (cardType : Card.CardType) (cardCategory : Card.Category)
    : option (Z * Card.Rewards) :=
  match List.find (fun row => Category_eqb (fst row) cardCategory) fee_table with
  | Some (_, (creditFee, debitFee, creditRewards)) =>
      Some match cardType with
           | Card.credit => (creditFee, creditRewards)
           | Card.debit => (debitFee, Card.none)
           end
  | None => None
  end.

(** Luhn: a doubled digit, 9 subtracted when it exceeds 9. *)
Definition luhn_double (d : nat) : nat :=
  if Nat.ltb 9 (2 * d) then (2 * d - 9)%nat else (2 * d)%nat.

(** Sum of the digits read from the right, every second one doubled;
    [double] says whether the first one read is. *)
Fixpoint luhn_sum (digits_from_right : list nat) (double : bool) : nat :=
  match digits_from_right with
  | [] => 0
  | d :: rest =>
      ((if double then luhn_double d else d) + luhn_sum rest (negb double))%nat
  end.

(** The check digit of a payload: its rightmost digit is doubled. *)
Definition luhn_check_digit (payload : list nat) : nat :=
  ((10 - luhn_sum (rev payload) true mod 10) mod 10)%nat.

(** Luhn validation of a whole number: the check digit is not doubled. *)
Definition luhn_valid (digits : list nat) : bool :=
  Nat.eqb (luhn_sum (rev digits) false mod 10) 0.

Definition is_digit (c : ascii) : bool :=
  Nat.leb 48 (nat_of_ascii c) && Nat.leb (nat_of_ascii c) 57.

Definition digits_of (s : string) : list nat :=
  List.map Card.parseInt (list_ascii_of_string s).

(** Section 4.3, what [generateCardNumber] promises of its result. *)
Definition card_number_ok (network : Card.Network) (s : string) : bool :=
  Nat.eqb (String.length s) 16
  && forallb is_digit (list_ascii_of_string s)
  && String.eqb (substring 0 1 s) (Card.prefix network)
  && luhn_valid (digits_of s)
  && Nat.eqb (List.last (digits_of s) 0%nat)
             (luhn_check_digit (firstn 15 (digits_of s))).

(** Section 7, the error kinds, as the responses that carry them. *)
Definition InsufficientBalance {A} (r : Response A) : Prop :=
  code r = 400%nat
  /\ (message r = "Insufficient balance"%string
      \/ message r = "Insufficient balance for withdrawal"%string).

Definition DuplicateActiveLoan {A} (r : Response A) : Prop :=
  code r = 400%nat
  /\ message r = "You already have an active loan application or loan"%string.

(** A request succeeded when it was answered with a 2xx status. *)
Definition succeeded {A} (r : Response A) : bool :=
  Nat.leb 200 (code r) && Nat.ltb (code r) 300.

(** Section 3: a user holds at most one loan that is pending, approved
    or active. *)
Definition at_most_one_open_loan (ls : list Loan.t) : Prop :=
  forall (i j : nat) (li lj : Loan.t),
    ls !! i = Some li -> ls !! j = Some lj ->
    Loan.user li = Loan.user lj ->
    Loan.in_pending_approved_active (Loan.status li) = true ->
    Loan.in_pending_approved_active (Loan.status lj) = true ->
    i = j.

(** Section 4.1, [payment] read as [transfer]: the same balances and,
    transaction by transaction, the same status and completion date. *)
Definition payment_as_transfer (st : Store) (userId receiverId : nat)
    (amount : Q) (description : option string)
    (env : TransactionRoutes.Env) : Prop :=
  let as_payment :=
    TransactionRoutes.mkBody receiverId amount Transaction.payment description in
  let as_transfer :=
    TransactionRoutes.mkBody receiverId amount Transaction.transfer description in
  let st_p := snd (run (TransactionRoutes.create userId as_payment env) st) in
  let st_t := snd (run (TransactionRoutes.create userId as_transfer env) st) in
  users st_p = users st_t
  /\ List.map (fun x => (Transaction.status x, Transaction.completedAt x))
              (transactions st_p)
     = List.map (fun x => (Transaction.status x, Transaction.completedAt x))
                (transactions st_t).
End Spec.

(** The transaction that [/create] stores first. *)
Definition pending_transaction (userId : nat) (body : TransactionRoutes.Body)
    (env : TransactionRoutes.Env) : Transaction.t :=
  {| Transaction.sender := userId;
     Transaction.receiver := TransactionRoutes.receiverId body;
     Transaction.amount := TransactionRoutes.b_amount body;
     Transaction.type := TransactionRoutes.b_type body;
     Transaction.status := Transaction.pending;
     Transaction.description :=
       option_map js_trim (TransactionRoutes.b_description body);
     Transaction.reference := TransactionRoutes.fresh_reference env;
     Transaction.createdAt := TransactionRoutes.date_created env;
     Transaction.completedAt := None |}.

(** ** Sample data *)

Module Samples.
Import TransactionRoutes.

Definition alice : User.t := User.mk true 100.
Definition bob : User.t := User.mk true 50.

(** Two active users, no transaction, no loan. *)
Definition store : Store :=
  mkStore (<[1%nat := alice]> (<[2%nat := bob]> ∅)) [] [].

Definition env : Env := mkEnv "TXN1A2B3C" 10 11.

(** Alice sends bob all she has. *)
Definition transfer_all : Body := mkBody 2 100 Transaction.transfer None.

(** Alice withdraws a cent more than she has. *)
Definition withdraw_too_much : Body :=
  mkBody 2 (10001 # 100) Transaction.withdrawal None.

Definition pay_30 : Body := mkBody 2 30 Transaction.payment None.

(** The store once alice's transfer is completed. *)
Definition store_after_transfer : Store :=
  snd (run (create 1 transfer_all env) store).

Definition personal_loan : LoanRoutes.Body :=
  LoanRoutes.mkBody Loan.personal 50000 12 None.

(** A store in which alice holds a pending loan of 50000 over 12 months at
    10.5 percent, with the payment and the total that the hook computes. *)
Definition store_with_loan : Store :=
  mkStore (users store) []
    [Loan.pre_save Loan.all_modified
       (Loan.mk 1 Loan.personal 50000 (21 # 2) 12 None None Loan.pending None 0)].
End Samples.

(** 1000 over 3 months at 12 percent, in exact rationals. *)
Definition sample_calculation : Amortization.CalculatorBody Arith.exact :=
  Amortization.mkCalculatorBody (A := Arith.exact) 1000 3 12.

(** ** Pages of a listing (history, my-loans, my-cards) *)

Module Paging.
(** The [pagination] object of a listing. *)
Record Pagination : Type := mk {
  currentPage : nat;
  totalPages : nat;
  totalItems : nat;
  hasNextPage : bool;
  hasPrevPage : bool
}.

(** [const skip = (page - 1) * limit], for a page number from 1 on. *)
Definition skip (page limit : nat) : nat := ((page - 1) * limit)%nat.

(** [.skip(skip).limit(parseInt(limit))] on the sorted matches, for a
    limit from 1 on. *)
Definition paginate {A} (page limit : nat) (sorted : list A) : list A :=
  firstn limit (skipn (skip page limit) sorted).

(** [Math.ceil(total / limit)] *)
Definition Math_ceil_div (total limit : nat) : nat :=
  Z.to_nat (Qceiling (inject_Z (Z.of_nat total) / inject_Z (Z.of_nat limit))).

Definition pagination (page limit total : nat) : Pagination :=
  {| currentPage := page;
     totalPages := Math_ceil_div total limit;
     totalItems := total;
     hasNextPage := Nat.ltb (page * limit) total;
     hasPrevPage := Nat.ltb 1 page |}.
End Paging.

(** ** The reading routes of routes/transaction.js *)

Module TransactionQueries.
Import Transaction.

(** [router.get('/:id')].  The two [populate] calls put the sender's and
    the receiver's user document in place of their ids; reading [._id] of
    a missing one throws, which the handler answers with 500.  The
    receiver's is read only when the sender is not the caller, as [&&]
    evaluates its second operand only then. *)
Definition get (userId id : nat)
    : Handler Transaction.t (Response Transaction.t) :=
  let! req_user := authenticateToken userId in
  let! transaction := Transaction_findById id in
  match transaction with
  | None => respond 404 "Transaction not found" None
  | Some transaction =>
      let! populated_sender := User_findById (sender transaction) in
      let! populated_receiver := User_findById (receiver transaction) in
      match populated_sender with
      | None =>
          respond 500 "Internal server error while fetching transaction" None
      | Some _ =>
          if negb (Nat.eqb (sender transaction) userId) then
            match populated_receiver with
            | None =>
                respond 500 "Internal server error while fetching transaction" None
            | Some _ =>
                if negb (Nat.eqb (receiver transaction) userId)
                then respond 403 "Access denied to this transaction" None
                else ret (mkResponse 200 EmptyString (Some transaction))
            end
          else ret (mkResponse 200 EmptyString (Some transaction))
      end
  end.

Record HistoryQuery : Type := mkHistoryQuery {
  q_page : nat;
  q_limit : nat;
  q_type : option TxType;
  q_status : option Status
}.

(** The [query] object built by [/history]. *)
Definition history_match (userId : nat) (q : HistoryQuery) (x : Transaction.t) : bool :=
  (Nat.eqb (sender x) userId || Nat.eqb (receiver x) userId)
  && match q_type q with
     | Some ty => TxType_eqb (type x) ty
     | None => true
     end
  && match q_status q with
     | Some s => Status_eqb (status x) s
     | None => true
     end.

(** [.sort({ createdAt: -1 })]; documents of the same date keep the order
    of the collection. *)
Fixpoint insert_by_createdAt (x : Transaction.t) (l : list Transaction.t)
    : list Transaction.t :=
  match l with
  | [] => [x]
  | y :: rest =>
      if Nat.ltb (createdAt y) (createdAt x)
      then x :: y :: rest
      else y :: insert_by_createdAt x rest
  end.

Definition sort_createdAt_desc (l : list Transaction.t) : list Transaction.t :=
  fold_right insert_by_createdAt [] l.

(** Each transaction is at least as recent as the one listed after it. *)
Fixpoint newest_first (l : list Transaction.t) : Prop :=
  match l with
  | x :: (y :: _) as rest => (createdAt y <= createdAt x)%nat /\ newest_first rest
  | _ => True
  end.

Record History : Type := mkHistory {
  h_transactions : list Transaction.t;
  h_pagination : Paging.Pagination
}.

(** [router.get('/history')].  The two [populate] calls only add the name
    and account number of the sender and the receiver to what is shown. *)
Definition history (userId : nat) (q : HistoryQuery)
    : Handler History (Response History) :=
  let! req_user := authenticateToken userId in
  fun st =>
    let found := List.filter (history_match userId q) (transactions st) in
    let transactions :=
      Paging.paginate (q_page q) (q_limit q) (sort_createdAt_desc found) in
    let total := length found in
    (inr (mkResponse 200 EmptyString
            (Some {| h_transactions := transactions;
                     h_pagination := Paging.pagination (q_page q) (q_limit q) total |})),
     st).

(** [{ $sum: '$amount' }] *)
Definition sum_amounts (l : list Transaction.t) : Q :=
  fold_right (fun x acc => amount x + acc) 0 l.

(** [aggregate([{ $match }, { $group: { _id: null, total: { $sum } } }])]:
    one group when something matches, none otherwise. *)
Definition aggregate_total (matching : Transaction.t -> bool)
    (l : list Transaction.t) : list Q :=
  match List.filter matching l with
  | [] => []
  | found => [sum_amounts found]
  end.

(** [groups[0]?.total || 0] *)
Definition total_or_0 (groups : list Q) : Q :=
  match groups with
  | total :: _ => if Qeq_bool total 0 then 0 else total
  | [] => 0
  end.

(** The [summary] object of [/stats/summary]. *)
Record Summary : Type := mkSummary {
  totalTransactions : nat;
  totalSent : Q;
  totalReceived : Q;
  currentBalance : Q
}.

(** [router.get('/stats/summary')], its [summary] object. *)
Definition stats_summary (userId : nat) : Handler Summary (Response Summary) :=
  let! req_user := authenticateToken userId in
  fun st =>
    let totalTransactions :=
      length (List.filter
                (fun x => Nat.eqb (sender x) userId || Nat.eqb (receiver x) userId)
                (transactions st)) in
    let totalSent :=
      aggregate_total
        (fun x => Nat.eqb (sender x) userId && Status_eqb (status x) completed)
        (transactions st) in
    let totalReceived :=
      aggregate_total
        (fun x => Nat.eqb (receiver x) userId && Status_eqb (status x) completed)
        (transactions st) in
    (inr (mkResponse 200 EmptyString
            (Some {| totalTransactions := totalTransactions;
                     totalSent := total_or_0 totalSent;
                     totalReceived := total_or_0 totalReceived;
                     currentBalance := User.accountBalance req_user |})),
     st).
End TransactionQueries.

(** ** More sample requests *)

(** Alice sends all she has to her own account. *)
Definition transfer_all_to_self : TransactionRoutes.Body :=
  TransactionRoutes.mkBody 1 100 Transaction.transfer None.

(** Alice deposits 25, naming bob as the receiver. *)
Definition deposit_25 : TransactionRoutes.Body :=
  TransactionRoutes.mkBody 2 25 Transaction.deposit None.

(** Alice withdraws 40 of her 100. *)
Definition withdraw_40 : TransactionRoutes.Body :=
  TransactionRoutes.mkBody 2 40 Transaction.withdrawal None.

(** Alice tries to send 101 to a user who does not exist. *)
Definition transfer_too_much : TransactionRoutes.Body :=
  TransactionRoutes.mkBody 9 101 Transaction.transfer None.

(** Alice deposits 25, naming a receiver who does not exist. *)
Definition deposit_unknown_receiver : TransactionRoutes.Body :=
  TransactionRoutes.mkBody 9 25 Transaction.deposit None.


(** Carol's account is inactive. *)
Definition carol : User.t := User.mk false 70.

Definition store_with_carol : Store :=
  mkStore (<[3%nat := carol]> (users Samples.store)) [] [].

(** Alice sends bob 100, withdraws what is left, pays carol, and bob
    cancels a transaction that is not his. *)
Definition busy_day : list TransactionRoutes.Request :=
  [ TransactionRoutes.Create 1 Samples.transfer_all Samples.env;
    TransactionRoutes.Create 1 withdraw_40 Samples.env;
    TransactionRoutes.Create 1
      (TransactionRoutes.mkBody 3 10 Transaction.transfer None) Samples.env;
    TransactionRoutes.Create 2
      (TransactionRoutes.mkBody 1 30 Transaction.payment None) Samples.env;
    TransactionRoutes.Cancel 2 0 ].

(** ** The card documents and the writing routes of routes/card.js *)

Module CardDoc.
(** The five values of the schema's enum, and [cancelled], which the
    cancel route assigns although the enum does not list it. *)
Inductive Status : Type :=
  pending | approved | active | blocked | expired | cancelled.

(** The paths the card router reads or writes and the paths the schema
    requires; a string path is [None] while undefined.  The balances and
    the dates are left out. *)
Record t : Type := mk {
  user : nat;
  cardType : Card.CardType;
  cardNumber : option string;
  cardHolder : option string;
  expiryDate : option string;
  cvv : option string;
  status : Status;
  creditLimit : Q;
  availableCredit : Q;
  cardNetwork : Card.Network;
  cardCategory : Card.Category;
  annualFee : Z;
  rewardsProgram : Card.Rewards;
  isContactless : bool;
  isInternational : bool;
  pin : string
}.

Definition Status_eqb (a b : Status) : bool :=
  match a, b with
  | pending, pending | approved, approved | active, active
  | blocked, blocked | expired, expired | cancelled, cancelled => true
  | _, _ => false
  end.

Definition CardType_eqb (a b : Card.CardType) : bool :=
  match a, b with
  | Card.credit, Card.credit | Card.debit, Card.debit => true
  | _, _ => false
  end.

(** [status: { $in: ['pending', 'approved', 'active'] }] *)
Definition in_pending_approved_active (s : Status) : bool :=
  match s with
  | pending | approved | active => true
  | _ => false
  end.

(** [enum: ['pending', 'approved', 'active', 'blocked', 'expired']] *)
Definition status_in_enum (s : Status) : bool :=
  match s with
  | cancelled => false
  | _ => true
  end.

(** [[0-9]] *)
Definition is_digit (c : ascii) : bool :=
  Nat.leb 48 (nat_of_ascii c) && Nat.leb (nat_of_ascii c) 57.

Definition all_digits (s : string) : bool :=
  forallb is_digit (list_ascii_of_string s).

(** [/^[0-9]{16}$/] *)
Definition matches_cardNumber (s : string) : bool :=
  Nat.eqb (String.length s) 16 && all_digits s.

(** [/^(0[1-9]|1[0-2])\/([0-9]{2})$/] *)
Definition matches_expiryDate (s : string) : bool :=
  match list_ascii_of_string s with
  | [m1; m2; slash; y1; y2] =>
      ((Nat.eqb (nat_of_ascii m1) 48
        && Nat.leb 49 (nat_of_ascii m2) && Nat.leb (nat_of_ascii m2) 57)
       || (Nat.eqb (nat_of_ascii m1) 49
           && Nat.leb 48 (nat_of_ascii m2) && Nat.leb (nat_of_ascii m2) 50))
      && Nat.eqb (nat_of_ascii slash) 47
      && is_digit y1 && is_digit y2
  | _ => false
  end.

(** [/^[0-9]{3,4}$/] *)
Definition matches_cvv (s : string) : bool :=
  (Nat.eqb (String.length s) 3 || Nat.eqb (String.length s) 4) && all_digits s.

(** [/^[0-9]{4}$/] *)
Definition matches_pin (s : string) : bool :=
  Nat.eqb (String.length s) 4 && all_digits s.

(** A string path with [required: true] and, possibly, a [match]: it must
    be defined, not empty, and match. *)
Definition required (matches : string -> bool) (x : option string) : bool :=
  match x with
  | Some s => negb (String.eqb s EmptyString) && matches s
  | None => false
  end.

(** The validation of a card document against [cardSchema].  The user, the
    card type and the network are always present here. *)
Definition validate (x : t) : bool :=
  required matches_cardNumber (cardNumber x)
  && required (fun _ => true) (cardHolder x)
  && required matches_expiryDate (expiryDate x)
  && required matches_cvv (cvv x)
  && status_in_enum (status x)
  && js_ge (creditLimit x) 0
  && required matches_pin (Some (pin x)).

Definition set_status (x : t) (s : Status) : t :=
  {| user := user x; cardType := cardType x; cardNumber := cardNumber x;
     cardHolder := cardHolder x; expiryDate := expiryDate x; cvv := cvv x;
     status := s; creditLimit := creditLimit x;
     availableCredit := availableCredit x; cardNetwork := cardNetwork x;
     cardCategory := cardCategory x; annualFee := annualFee x;
     rewardsProgram := rewardsProgram x; isContactless := isContactless x;
     isInternational := isInternational x; pin := pin x |}.

Definition set_cardNumber (x : t) (n : string) : t :=
  {| user := user x; cardType := cardType x; cardNumber := Some n;
     cardHolder := cardHolder x; expiryDate := expiryDate x; cvv := cvv x;
     status := status x; creditLimit := creditLimit x;
     availableCredit := availableCredit x; cardNetwork := cardNetwork x;
     cardCategory := cardCategory x; annualFee := annualFee x;
     rewardsProgram := rewardsProgram x; isContactless := isContactless x;
     isInternational := isInternational x; pin := pin x |}.

Definition set_flags (x : t) (contactless international : bool) : t :=
  {| user := user x; cardType := cardType x; cardNumber := cardNumber x;
     cardHolder := cardHolder x; expiryDate := expiryDate x; cvv := cvv x;
     status := status x; creditLimit := creditLimit x;
     availableCredit := availableCredit x; cardNetwork := cardNetwork x;
     cardCategory := cardCategory x; annualFee := annualFee x;
     rewardsProgram := rewardsProgram x; isContactless := contactless;
     isInternational := international; pin := pin x |}.

(** [card.save()]: the document is validated as it stands; if it passes,
    the pre-save hook sees its number, and the result is what is written.
    [None] stands for the error that [save] throws. *)
Definition save (rnd : nat -> nat) (x : t) : option t :=
  if validate x then
    Some (set_cardNumber x (Card.pre_save (cardNumber x) (cardNetwork x) rnd))
  else None.
End CardDoc.

Module CardRouter.
Import CardDoc.

(** The users, read for authentication only, and the card collection,
    whose index is the card's [_id].  A response shows some paths of the
    card it is about; the document is kept whole here. *)
Record Bank : Type := mkBank {
  bank_users : gmap nat User.t;
  cards : list CardDoc.t
}.

Record Body : Type := mkBody {
  b_cardType : Card.CardType;
  b_cardNetwork : Card.Network;
  b_cardCategory : Card.Category;
  b_creditLimit : option Q;
  b_pin : string;
  b_isContactless : option bool;
  b_isInternational : option bool
}.

(** The express-validator chain of [/apply]: the credit limit is checked
    for credit cards only. *)
Definition validationResult (body : Body) : bool :=
  match b_cardType body with
  | Card.credit =>
      match b_creditLimit body with
      | Some limit => js_ge limit 10000 && Qle_bool limit 1000000
      | None => false
      end
  | Card.debit => true
  end
  && matches_pin (b_pin body).

Definition cardType_name (cardType : Card.CardType) : string :=
  match cardType with
  | Card.credit => "credit"
  | Card.debit => "debit"
  end.

(** The card found by
    [Card.findOne({ user, cardType, status: { $in: [...] } })]. *)
Definition findOne_open (userId : nat) (cardType : Card.CardType)
    (l : list CardDoc.t) : option CardDoc.t :=
  List.find
    (fun c => Nat.eqb (user c) userId
              && CardType_eqb (CardDoc.cardType c) cardType
              && in_pending_approved_active (status c))
    l.

Definition unauthorized : Response CardDoc.t :=
  mkResponse 401 "Invalid or inactive user" None.

(** [router.post('/apply')]; [rnd] are the random draws of the pre-save
    hook.  An undefined path takes the default of the schema or of the
    destructuring; the constructor is given no number, holder, expiry date
    or cvv. *)
Definition apply (userId : nat) (body : Body) (rnd : nat -> nat) (bank : Bank)
    : Response CardDoc.t * Bank :=
  match bank_users bank !! userId with
  | None => (unauthorized, bank)
  | Some req_user =>
  if negb (User.isActive req_user) then (unauthorized, bank) else
  if negb (validationResult body) then
    (mkResponse 400 "Validation failed" None, bank)
  else
  let cardType := b_cardType body in
  let cardCategory := b_cardCategory body in
  let isContactless := default true (b_isContactless body) in
  let isInternational := default false (b_isInternational body) in
  match findOne_open userId cardType (cards bank) with
  | Some _ =>
      (mkResponse 400
         (String.append "You already have a "
            (String.append (cardType_name cardType)
               " card application or active card"))
         None,
       bank)
  | None =>
      let annualFee := CardRoutes.annualFee cardType cardCategory in
      let rewardsProgram := CardRoutes.rewardsProgram cardType cardCategory in
      let limit :=
        match cardType with
        | Card.credit => default 0 (b_creditLimit body)
        | Card.debit => 0
        end in
      let card :=
        {| user := userId; cardType := cardType;
           cardNumber := None; cardHolder := None; expiryDate := None;
           cvv := None;
           status := pending; creditLimit := limit; availableCredit := limit;
           cardNetwork := b_cardNetwork body; cardCategory := cardCategory;
           annualFee := annualFee; rewardsProgram := rewardsProgram;
           isContactless := isContactless; isInternational := isInternational;
           pin := b_pin body |} in
      match save rnd card with
      | None =>
          (mkResponse 500
             "Internal server error while submitting card application" None,
           bank)
      | Some card =>
          (mkResponse 201 "Card application submitted successfully" (Some card),
           mkBank (bank_users bank) (cards bank ++ [card]))
      end
  end
  end.

(** [router.patch('/:id')] *)
Definition update (userId id : nat) (contactless international : option bool)
    (rnd : nat -> nat) (bank : Bank) : Response CardDoc.t * Bank :=
  match bank_users bank !! userId with
  | None => (unauthorized, bank)
  | Some req_user =>
  if negb (User.isActive req_user) then (unauthorized, bank) else
  match cards bank !! id with
  | None => (mkResponse 404 "Card not found" None, bank)
  | Some card =>
      if negb (Nat.eqb (user card) userId) then
        (mkResponse 403 "Access denied to this card" None, bank)
      else if negb (Status_eqb (status card) pending) then
        (mkResponse 400 "Only pending cards can be updated" None, bank)
      else
        let card :=
          set_flags card
            (default (isContactless card) contactless)
            (default (isInternational card) international) in
        match save rnd card with
        | None =>
            (mkResponse 500 "Internal server error while updating card" None,
             bank)
        | Some card =>
            (mkResponse 200 "Card updated successfully" (Some card),
             mkBank (bank_users bank) (<[id := card]> (cards bank)))
        end
  end
  end.

(** [router.patch('/:id/cancel')] *)
Definition cancel (userId id : nat) (rnd : nat -> nat) (bank : Bank)
    : Response CardDoc.t * Bank :=
  match bank_users bank !! userId with
  | None => (unauthorized, bank)
  | Some req_user =>
  if negb (User.isActive req_user) then (unauthorized, bank) else
  match cards bank !! id with
  | None => (mkResponse 404 "Card not found" None, bank)
  | Some card =>
      if negb (Nat.eqb (user card) userId) then
        (mkResponse 403 "Access denied to this card" None, bank)
      else if negb (Status_eqb (status card) pending) then
        (mkResponse 400 "Only pending cards can be cancelled" None, bank)
      else
        let card := set_status card cancelled in
        match save rnd card with
        | None =>
            (mkResponse 500 "Internal server error while cancelling card" None,
             bank)
        | Some card =>
            (mkResponse 200 "Card application cancelled successfully" (Some card),
             mkBank (bank_users bank) (<[id := card]> (cards bank)))
        end
  end
  end.

Inductive Action : Type := block | unblock.

Definition action_name (action : Action) : string :=
  match action with
  | block => "block"
  | unblock => "unblock"
  end.

(** [router.patch('/:id/toggle-status')] *)
Definition toggle_status (userId id : nat) (action : Action)
    (rnd : nat -> nat) (bank : Bank) : Response CardDoc.t * Bank :=
  match bank_users bank !! userId with
  | None => (unauthorized, bank)
  | Some req_user =>
  if negb (User.isActive req_user) then (unauthorized, bank) else
  match cards bank !! id with
  | None => (mkResponse 404 "Card not found" None, bank)
  | Some card =>
      if negb (Nat.eqb (user card) userId) then
        (mkResponse 403 "Access denied to this card" None, bank)
      else if negb (Status_eqb (status card) active) then
        (mkResponse 400 "Only active cards can be blocked/unblocked" None, bank)
      else
        let card :=
          set_status card
            match action with
            | block => blocked
            | unblock => active
            end in
        match save rnd card with
        | None =>
            (mkResponse 500
               "Internal server error while updating card status" None,
             bank)
        | Some card =>
            (mkResponse 200
               (String.append "Card "
                  (String.append (action_name action) "ed successfully"))
               (Some card),
             mkBank (bank_users bank) (<[id := card]> (cards bank)))
        end
  end
  end.

(** The requests of this router that write to the card collection. *)
Inductive Request : Type :=
| Apply (userId : nat) (body : Body) (rnd : nat -> nat)
| Update (userId id : nat) (contactless international : option bool)
    (rnd : nat -> nat)
| Cancel (userId id : nat) (rnd : nat -> nat)
| Toggle (userId id : nat) (action : Action) (rnd : nat -> nat).

Definition handle (rq : Request) (bank : Bank) : Response CardDoc.t * Bank :=
  match rq with
  | Apply userId body rnd => apply userId body rnd bank
  | Update userId id c i rnd => update userId id c i rnd bank
  | Cancel userId id rnd => cancel userId id rnd bank
  | Toggle userId id action rnd => toggle_status userId id action rnd bank
  end.

(** Serve a sequence of requests, one after the other. *)
Fixpoint serve (rqs : list Request) (bank : Bank) : Bank :=
  match rqs with
  | [] => bank
  | rq :: rest => serve rest (snd (handle rq bank))
  end.

(** What no request may change of a stored card: its user, type, number,
    holder, expiry date, cvv, network, category, limits, fee, rewards
    program and PIN. *)
Definition same_terms (c c' : CardDoc.t) : Prop :=
  user c' = user c /\ cardType c' = cardType c
  /\ cardNumber c' = cardNumber c /\ cardHolder c' = cardHolder c
  /\ expiryDate c' = expiryDate c /\ cvv c' = cvv c
  /\ cardNetwork c' = cardNetwork c /\ cardCategory c' = cardCategory c
  /\ creditLimit c' = creditLimit c /\ availableCredit c' = availableCredit c
  /\ annualFee c' = annualFee c /\ rewardsProgram c' = rewardsProgram c
  /\ pin c' = pin c.

(** The moves of a card's status that the router makes. *)
Definition status_step (s s' : Status) : Prop :=
  s' = s \/ (s = active /\ s' = blocked).

(** No user has two cards of one type that are pending, approved or
    active. *)
Definition at_most_one_open_card (l : list CardDoc.t) : Prop :=
  forall (i j : nat) (ci cj : CardDoc.t),
    l !! i = Some ci -> l !! j = Some cj ->
    user ci = user cj -> cardType ci = cardType cj ->
    in_pending_approved_active (status ci) = true ->
    in_pending_approved_active (status cj) = true ->
    i = j.
End CardRouter.

(** ** Sample cards *)

Definition zero_draws : nat -> nat := fun _ => 0%nat.

Definition gold_credit : CardRouter.Body :=
  CardRouter.mkBody Card.credit Card.Visa Card.gold (Some 50000) "1234" None None.

Definition classic_debit : CardRouter.Body :=
  CardRouter.mkBody Card.debit Card.RuPay Card.classic (Some 50000) "4321"
    None (Some true).

Definition sample_bank : CardRouter.Bank :=
  CardRouter.mkBank (users Samples.store) [].

(** Alice holds an active credit card and a pending debit card, both issued
    outside the router with all the paths the schema requires. *)
Definition alice_active_card : CardDoc.t :=
  CardDoc.mk 1 Card.credit (Some "4000000000000002") (Some "ALICE")
    (Some "12/30") (Some "123") CardDoc.active 50000 50000
    Card.Visa Card.gold 1000 Card.cashback true false "1234".

Definition alice_pending_card : CardDoc.t :=
  CardDoc.mk 1 Card.debit (Some "6000000000000007") (Some "ALICE")
    (Some "01/31") (Some "4567") CardDoc.pending 0 0
    Card.RuPay Card.classic 0 Card.none true false "4321".

Definition bank_with_cards : CardRouter.Bank :=
  CardRouter.mkBank (users Samples.store) [alice_active_card; alice_pending_card].

(** Bob's active card carries the seventeen characters that the generator
    yields for Visa when every draw is 0. *)
Definition bob_generated_card : CardDoc.t :=
  CardDoc.mk 2 Card.credit (Some "40000000000000002") (Some "BOB")
    (Some "12/30") (Some "123") CardDoc.active 50000 50000
    Card.Visa Card.gold 1000 Card.cashback true false "1234".

Definition bank_with_generated_card : CardRouter.Bank :=
  CardRouter.mkBank (users Samples.store) [bob_generated_card].

(** Alice applies for a second debit card, changes a flag of her pending
    card and cancels it. *)
Definition open_card_requests : list CardRouter.Request :=
  [ CardRouter.Apply 1 classic_debit zero_draws;
    CardRouter.Update 1 1 (Some false) None zero_draws;
    CardRouter.Cancel 1 1 zero_draws ].

(** She does the same after blocking her credit card and trying to unblock
    it. *)
Definition card_requests : list CardRouter.Request :=
  [ CardRouter.Toggle 1 0 CardRouter.block zero_draws;
    CardRouter.Toggle 1 0 CardRouter.unblock zero_draws;
    CardRouter.Apply 1 classic_debit zero_draws;
    CardRouter.Update 1 1 (Some false) None zero_draws;
    CardRouter.Cancel 1 1 zero_draws ].

(** * Properties *)

(** ** Comparisons *)

Lemma js_ge_true (a b : Q) : js_ge a b = true <-> b <= a.
Proof. unfold js_ge. apply Qle_bool_iff. Qed.

Lemma js_ge_false (a b : Q) : js_ge a b = false <-> a < b.
Proof.
  unfold js_ge. split; intros H.
  - apply Qnot_le_lt. intros Hle. apply Qle_bool_iff in Hle. congruence.
  - destruct (Qle_bool b a) eqn:E; [|reflexivity].
    apply Qle_bool_iff in E. exfalso. exact (Qlt_not_le _ _ H E).
Qed.

Lemma js_lt_true (a b : Q) : js_lt a b = true <-> a < b.
Proof.
  unfold js_lt. rewrite <- js_ge_false. unfold js_ge.
  destruct (Qle_bool b a); simpl; split; congruence.
Qed.

Lemma js_lt_false (a b : Q) : js_lt a b = false <-> b <= a.
Proof.
  unfold js_lt. rewrite <- js_ge_true. unfold js_ge.
  destruct (Qle_bool b a); simpl; split; congruence.
Qed.

Lemma js_gt_true (a b : Q) : js_gt a b = true <-> b < a.
Proof. unfold js_gt. apply (js_lt_true b a). Qed.

Lemma js_gt_false (a b : Q) : js_gt a b = false <-> a <= b.
Proof. unfold js_gt. apply (js_lt_false b a). Qed.

(** ** The interest-rate tiers *)

(** C5. The interest rate derived by the application route reproduces the
    tier table for every loan type and amount: personal 10.5 from 50,000
    and 12.5 below; home 8.5 from 1,000,000 and 9.5 below; business 11.5
    from 200,000 and 13.5 below; education 9.5 always; vehicle 9.0 from
    500,000 and 10.5 below; in particular personal gives 10.5 at exactly
    50,000 and 12.5 at 49,999. *)
Theorem interestRate_of_table (amount : Q) :
  (50000 <= amount -> LoanRoutes.interestRate_of Loan.personal amount = 21 # 2) /\
  (amount < 50000 -> LoanRoutes.interestRate_of Loan.personal amount = 25 # 2) /\
  (1000000 <= amount -> LoanRoutes.interestRate_of Loan.home amount = 17 # 2) /\
  (amount < 1000000 -> LoanRoutes.interestRate_of Loan.home amount = 19 # 2) /\
  (200000 <= amount -> LoanRoutes.interestRate_of Loan.business amount = 23 # 2) /\
  (amount < 200000 -> LoanRoutes.interestRate_of Loan.business amount = 27 # 2) /\
  LoanRoutes.interestRate_of Loan.education amount = 19 # 2 /\
  (500000 <= amount -> LoanRoutes.interestRate_of Loan.vehicle amount = 9) /\
  (amount < 500000 -> LoanRoutes.interestRate_of Loan.vehicle amount = 21 # 2) /\
  LoanRoutes.interestRate_of Loan.personal 50000 = 21 # 2 /\
  LoanRoutes.interestRate_of Loan.personal 49999 = 25 # 2.
Proof.
  unfold LoanRoutes.interestRate_of.
  repeat split; try reflexivity; intros H;
    first [ apply js_ge_true in H | apply js_ge_false in H ];
    rewrite H; reflexivity.
Qed.

Lemma interestRate_of_table_witness :
  LoanRoutes.interestRate_of Loan.home 1000000 = 17 # 2 /\
  LoanRoutes.interestRate_of Loan.vehicle (4999999 # 10) = 21 # 2.
Proof.
  split.
  - destruct (interestRate_of_table 1000000) as (_ & _ & H & _).
    apply H. unfold Qle; simpl; lia.
  - destruct (interestRate_of_table (4999999 # 10)) as (_ & _ & _ & _ & _ & _ & _ & _ & H & _).
    apply H. unfold Qlt; simpl; lia.
Defined.

(** ** The fee schedule *)

(** C7. For every card type and category the annual fee and the rewards
    program derived by the application route are the ones of the fee table
    (credit 500/1000/2500/5000/10000, debit 0/250/500/1000/2000, credit
    rewards none/cashback/points/miles/miles), and a debit card always has
    the rewards program none. *)
Theorem feeSchedule_table (cardType : Card.CardType) (cardCategory : Card.Category) :
  Spec.feeSchedule cardType cardCategory
    = Some (CardRoutes.annualFee cardType cardCategory,
            CardRoutes.rewardsProgram cardType cardCategory)
  /\ CardRoutes.rewardsProgram Card.debit cardCategory = Card.none.
Proof. destruct cardType, cardCategory; split; reflexivity. Qed.

(** ** The card-number generator *)

Lemma String_length_append (s t : string) :
  String.length (String.append s t) = (String.length s + String.length t)%nat.
Proof. induction s as [|c s IH]; simpl; [reflexivity | now rewrite IH]. Qed.

Lemma append_random_length (rnd : nat -> nat) (n k : nat) (s : string) :
  String.length (Card.append_random rnd k n s) = (String.length s + n)%nat.
Proof.
  revert k s. induction n as [|n IH]; intros k s; simpl.
  - lia.
  - rewrite IH, String_length_append. simpl. lia.
Qed.

Lemma append_random_head (rnd : nat -> nat) (n k : nat) (c : ascii) (s : string) :
  Card.append_random rnd k n (String c s)
    = String c (Card.append_random rnd k n s).
Proof.
  revert k s. induction n as [|n IH]; intros k s; simpl; [reflexivity|].
  apply IH.
Qed.

Lemma generateCardNumber_length (net : Card.Network) (rnd : nat -> nat) :
  String.length (Card.generateCardNumber net rnd) = 17%nat.
Proof.
  unfold Card.generateCardNumber.
  rewrite String_length_append, append_random_length.
  destruct net; reflexivity.
Qed.

Lemma generateCardNumber_prefix (net : Card.Network) (rnd : nat -> nat) :
  substring 0 1 (Card.generateCardNumber net rnd) = Card.prefix net.
Proof.
  unfold Card.generateCardNumber.
  destruct net; simpl Card.prefix; rewrite append_random_head; reflexivity.
Qed.

(** C3, on the code as written.  For every network and every sequence of
    random draws the generated number has 17 characters, not 16: the prefix,
    fifteen random digits and a check digit computed over those sixteen.
    Its first digit is the network's.  With Visa and all draws 0 the result
    is 40000000000000002, which Luhn validation rejects. *)
Theorem generateCardNumber_17_digits :
  (forall (net : Card.Network) (rnd : nat -> nat),
      String.length (Card.generateCardNumber net rnd) = 17%nat
      /\ substring 0 1 (Card.generateCardNumber net rnd) = Card.prefix net
      /\ Spec.card_number_ok net (Card.generateCardNumber net rnd) = false)
  /\ Card.generateCardNumber Card.Visa (fun _ => 0%nat) = "40000000000000002"%string
  /\ Spec.luhn_valid (Spec.digits_of "40000000000000002") = false.
Proof.
  split; [|split; reflexivity].
  intros net rnd. split; [apply generateCardNumber_length|].
  split; [apply generateCardNumber_prefix|].
  unfold Spec.card_number_ok. rewrite generateCardNumber_length. reflexivity.
Qed.

(** ** Amortization *)

Lemma calculate_amortize (A : Arith.t) (amount term interestRate : Arith.num A) :
  Amortization.calculate A amount term interestRate
    = Spec.amortize A amount interestRate term.
Proof. reflexivity. Qed.

Lemma pre_save_amortize (A : Arith.t) (this : Amortization.Paths A) :
  Amortization.pre_save A true this
  = Amortization.mkPaths
      (Amortization.amount this) (Amortization.interestRate this)
      (Amortization.term this)
      (Some (fst (fst (Spec.amortize A (Amortization.amount this)
                         (Amortization.interestRate this)
                         (Amortization.term this)))))
      (Some (snd (fst (Spec.amortize A (Amortization.amount this)
                         (Amortization.interestRate this)
                         (Amortization.term this)))))
      (Amortization.amount this).
Proof. reflexivity. Qed.

Lemma calculator_payload (A : Arith.t) (body : Amortization.CalculatorBody A) :
  Amortization.validationResult A body = true ->
  Amortization.calculator A body
  = mkResponse 200 EmptyString
      (Some (Amortization.mkCalculation
               (Amortization.c_amount body) (Amortization.c_term body)
               (Amortization.c_interestRate body)
               (Amortization.round2 A
                  (fst (fst (Spec.amortize A (Amortization.c_amount body)
                               (Amortization.c_interestRate body)
                               (Amortization.c_term body)))))
               (Amortization.round2 A
                  (snd (fst (Spec.amortize A (Amortization.c_amount body)
                               (Amortization.c_interestRate body)
                               (Amortization.c_term body)))))
               (Amortization.round2 A
                  (snd (Spec.amortize A (Amortization.c_amount body)
                          (Amortization.c_interestRate body)
                          (Amortization.c_term body)))))).
Proof.
  intros Hv. unfold Amortization.calculator. rewrite Hv. reflexivity.
Qed.

(** The hook on the loan documents of the store is the hook at the exact
    rationals. *)
Lemma pre_save_exact (m : Loan.Modified) (l : Loan.t) :
  Amortization.paths_of (Loan.pre_save m l)
  = Amortization.pre_save Arith.exact
      (Loan.mod_amount m || Loan.mod_interestRate m || Loan.mod_term m)
      (Amortization.paths_of l).
Proof.
  unfold Loan.pre_save, Amortization.pre_save, Amortization.paths_of.
  destruct (Loan.mod_amount m || Loan.mod_interestRate m || Loan.mod_term m);
    [|reflexivity].
  cbn [Amortization.amount Amortization.interestRate Amortization.term
       Arith.pow Arith.exact Arith.lit Arith.add Arith.sub Arith.mul Arith.div
       Arith.gt Loan.amount Loan.interestRate Loan.term Loan.monthlyPayment
       Loan.totalAmount Loan.remainingBalance].
  rewrite Qfloor_Z. reflexivity.
Qed.

(** So is the calculation of [LoanRoutes.calculate]. *)
Lemma calculate_exact (amount : Q) (term : Z) (interestRate : Q) :
  LoanRoutes.calculate amount term interestRate
  = Amortization.calculate Arith.exact amount (inject_Z term) interestRate.
Proof.
  unfold LoanRoutes.calculate, Amortization.calculate.
  cbn [Arith.pow Arith.exact Arith.lit Arith.add Arith.sub Arith.mul Arith.div
       Arith.gt].
  rewrite Qfloor_Z. reflexivity.
Qed.


(** ** The ledger *)

Lemma insert_app_last {A} (l : list A) (x y : A) :
  <[length l := y]> (l ++ [x]) = l ++ [y].
Proof. induction l as [|a l IH]; simpl; [reflexivity | now rewrite IH]. Qed.

Ltac unfold_handler :=
  unfold run, TransactionRoutes.create, TransactionRoutes.cancel,
    LoanRoutes.apply, LoanRoutes.update, LoanRoutes.cancel,
    authenticateToken, bind, respond, ret,
    User_findById, User_save, Transaction_findById, Transaction_insert,
    Transaction_save, Loan_findOne_open, Loan_findById, Loan_insert, Loan_save,
    or_500.

(** A transfer between two different accounts whose sender holds at least
    the amount (in particular exactly the amount): the sender's stored
    balance is the old one minus the amount (zero in the case of equality),
    the receiver's is the old one plus the amount, no other account
    changes, and the transaction is stored and answered as completed, with
    completedAt set. *)
Lemma create_transfer_between_accounts
    (st : Store) (userId : nat) (body : TransactionRoutes.Body)
    (env : TransactionRoutes.Env) (sender receiver : User.t) :
  users st !! userId = Some sender ->
  User.isActive sender = true ->
  users st !! TransactionRoutes.receiverId body = Some receiver ->
  User.isActive receiver = true ->
  userId <> TransactionRoutes.receiverId body ->
  TransactionRoutes.validationResult body = true ->
  TransactionRoutes.b_type body = Transaction.transfer ->
  TransactionRoutes.b_amount body <= User.accountBalance sender ->
  let amount := TransactionRoutes.b_amount body in
  let res := fst (run (TransactionRoutes.create userId body env) st) in
  let st' := snd (run (TransactionRoutes.create userId body env) st) in
  code res = 201%nat
  /\ users st' !! userId
     = Some {| User.isActive := User.isActive sender;
               User.accountBalance := User.accountBalance sender - amount |}
  /\ (User.accountBalance sender == amount ->
      User.accountBalance sender - amount == 0)
  /\ users st' !! TransactionRoutes.receiverId body
     = Some {| User.isActive := User.isActive receiver;
               User.accountBalance := User.accountBalance receiver + amount |}
  /\ (forall k, k <> userId -> k <> TransactionRoutes.receiverId body ->
      users st' !! k = users st !! k)
  /\ exists tx,
       transactions st' = transactions st ++ [tx]
       /\ Transaction.status tx = Transaction.completed
       /\ Transaction.completedAt tx = Some (TransactionRoutes.date_completed env)
       /\ Transaction.type tx = Transaction.transfer
       /\ Transaction.amount tx = amount
       /\ Transaction.sender tx = userId
       /\ Transaction.receiver tx = TransactionRoutes.receiverId body
       /\ payload res
          = Some (TransactionRoutes.Created
                    (TransactionRoutes.view (length (transactions st)) tx)).
Proof.
  destruct body as [rid amt ty desc]. simpl.
  intros Hs Has Hr Har Hne Hv -> Hbal.
  unfold_handler. rewrite Hs, Has, Hv. simpl.
  apply js_lt_false in Hbal. rewrite Hbal, Hr, Har. simpl.
  rewrite insert_app_last.
  split; [reflexivity|].
  split; [rewrite lookup_insert_ne by (intros E; apply Hne; symmetry; exact E);
          rewrite lookup_insert_eq; unfold User.set_accountBalance;
          rewrite Has; reflexivity|].
  split; [intros E; rewrite E; ring|].
  split; [rewrite lookup_insert_eq; unfold User.set_accountBalance;
          rewrite Har; reflexivity|].
  split; [intros k H1 H2; rewrite !lookup_insert_ne by congruence; reflexivity|].
  eexists. split; [reflexivity|]. repeat split; reflexivity.
Qed.

(** C1, on the code as written.  The route accepts a transfer that names
    the sender's own account as the receiver.  The account is then loaded
    twice, and the two copies are saved one after the other: the debited
    copy first, the credited copy over it.  Whenever the sender holds at
    least the amount, the request is answered 201, the transaction is
    stored as completed, and the sender's stored balance is the old one
    plus the amount, which is neither the old balance minus the amount nor
    the old balance; no other account changes. *)
Theorem create_transfer_to_own_account
    (st : Store) (userId : nat) (body : TransactionRoutes.Body)
    (env : TransactionRoutes.Env) (sender : User.t) :
  users st !! userId = Some sender ->
  User.isActive sender = true ->
  TransactionRoutes.receiverId body = userId ->
  TransactionRoutes.validationResult body = true ->
  TransactionRoutes.b_type body = Transaction.transfer ->
  TransactionRoutes.b_amount body <= User.accountBalance sender ->
  let amount := TransactionRoutes.b_amount body in
  let res := fst (run (TransactionRoutes.create userId body env) st) in
  let st' := snd (run (TransactionRoutes.create userId body env) st) in
  code res = 201%nat
  /\ users st' !! userId
     = Some {| User.isActive := User.isActive sender;
               User.accountBalance := User.accountBalance sender + amount |}
  /\ ~ User.accountBalance sender + amount == User.accountBalance sender - amount
  /\ ~ User.accountBalance sender + amount == User.accountBalance sender
  /\ (forall k, k <> userId -> users st' !! k = users st !! k)
  /\ exists tx,
       transactions st' = transactions st ++ [tx]
       /\ Transaction.status tx = Transaction.completed
       /\ Transaction.completedAt tx = Some (TransactionRoutes.date_completed env)
       /\ Transaction.type tx = Transaction.transfer
       /\ Transaction.amount tx = amount
       /\ Transaction.sender tx = userId
       /\ Transaction.receiver tx = userId.
Proof.
  destruct body as [rid amt ty desc]. simpl.
  intros Hs Has -> Hv -> Hbal.
  assert (Hpos : 1 # 100 <= amt).
  { unfold TransactionRoutes.validationResult in Hv. simpl in Hv.
    apply andb_prop in Hv. destruct Hv as [Hv _].
    apply js_ge_true in Hv. exact Hv. }
  unfold_handler. rewrite Hs, Has, Hv. simpl.
  apply js_lt_false in Hbal. rewrite Hbal, Hs, Has. simpl.
  rewrite insert_app_last.
  split; [reflexivity|].
  split; [rewrite lookup_insert_eq; unfold User.set_accountBalance;
          rewrite Has; reflexivity|].
  split; [intros E; lra|].
  split; [intros E; lra|].
  split; [intros k Hk; rewrite !lookup_insert_ne by congruence; reflexivity|].
  eexists. split; [reflexivity|]. repeat split; reflexivity.
Qed.

(** A withdrawal beyond the balance never succeeds and never touches an
    account, whatever the receiver. *)
Lemma create_withdrawal_insufficient_fails
    (st : Store) (userId : nat) (body : TransactionRoutes.Body)
    (env : TransactionRoutes.Env) (sender : User.t) :
  users st !! userId = Some sender ->
  TransactionRoutes.b_type body = Transaction.withdrawal ->
  User.accountBalance sender < TransactionRoutes.b_amount body ->
  Spec.succeeded (fst (run (TransactionRoutes.create userId body env) st)) = false
  /\ users (snd (run (TransactionRoutes.create userId body env) st)) = users st.
Proof.
  destruct body as [rid amt ty desc]. simpl. intros Hs -> Hbal.
  apply js_lt_true in Hbal.
  unfold_handler. rewrite Hs.
  destruct (User.isActive sender); simpl; [|split; reflexivity].
  destruct (TransactionRoutes.validationResult _); simpl; [|split; reflexivity].
  destruct (users st !! rid) as [r|]; simpl; [|split; reflexivity].
  destruct (User.isActive r); simpl; [|split; reflexivity].
  rewrite Hbal. simpl. split; reflexivity.
Qed.

(** The whole outcome of a withdrawal beyond the balance once the receiver
    is found: the pending record is stored, then the request is refused. *)
Lemma create_withdrawal_insufficient_run
    (st : Store) (userId : nat) (body : TransactionRoutes.Body)
    (env : TransactionRoutes.Env) (sender receiver : User.t) :
  users st !! userId = Some sender ->
  User.isActive sender = true ->
  users st !! TransactionRoutes.receiverId body = Some receiver ->
  User.isActive receiver = true ->
  TransactionRoutes.validationResult body = true ->
  TransactionRoutes.b_type body = Transaction.withdrawal ->
  User.accountBalance sender < TransactionRoutes.b_amount body ->
  run (TransactionRoutes.create userId body env) st
    = (mkResponse 400 "Insufficient balance for withdrawal" None,
       set_transactions st
         (transactions st ++ [pending_transaction userId body env])).
Proof.
  destruct body as [rid amt ty desc]. simpl. intros Hs Has Hr Har Hv -> Hbal.
  apply js_lt_true in Hbal.
  unfold_handler. rewrite Hs, Has, Hv. simpl. rewrite Hr, Har. simpl.
  rewrite Hbal. reflexivity.
Qed.

(** The whole outcome of a payment once the receiver is found. *)
Lemma create_payment_run
    (st : Store) (userId : nat) (body : TransactionRoutes.Body)
    (env : TransactionRoutes.Env) (sender receiver : User.t) :
  users st !! userId = Some sender ->
  User.isActive sender = true ->
  users st !! TransactionRoutes.receiverId body = Some receiver ->
  User.isActive receiver = true ->
  TransactionRoutes.validationResult body = true ->
  TransactionRoutes.b_type body = Transaction.payment ->
  run (TransactionRoutes.create userId body env) st
    = (mkResponse 201 "Transaction created successfully"
         (Some (TransactionRoutes.Created
                  (TransactionRoutes.view (length (transactions st))
                     (pending_transaction userId body env)))),
       set_transactions st
         (transactions st ++ [pending_transaction userId body env])).
Proof.
  destruct body as [rid amt ty desc]. simpl. intros Hs Has Hr Har Hv ->.
  unfold_handler. rewrite Hs, Has, Hv. simpl. rewrite Hr, Har. reflexivity.
Qed.

(** C4. A withdrawal whose sender holds strictly less than the amount is
    not carried out: the answer is not a success and no account balance
    changes; once the receiver named in the request is found and active,
    the answer is the insufficient-balance error. *)
Theorem create_withdrawal_insufficient_balance
    (st : Store) (userId : nat) (body : TransactionRoutes.Body)
    (env : TransactionRoutes.Env) (sender : User.t) :
  users st !! userId = Some sender ->
  User.isActive sender = true ->
  TransactionRoutes.validationResult body = true ->
  TransactionRoutes.b_type body = Transaction.withdrawal ->
  User.accountBalance sender < TransactionRoutes.b_amount body ->
  let res := fst (run (TransactionRoutes.create userId body env) st) in
  let st' := snd (run (TransactionRoutes.create userId body env) st) in
  Spec.succeeded res = false
  /\ users st' = users st
  /\ (forall receiver,
        users st !! TransactionRoutes.receiverId body = Some receiver ->
        User.isActive receiver = true ->
        Spec.InsufficientBalance res).
Proof.
  intros Hs Has Hv Ht Hbal res st'. subst res st'.
  destruct (create_withdrawal_insufficient_fails st userId body env sender Hs Ht Hbal)
    as [Hf Hu].
  split; [exact Hf|]. split; [exact Hu|].
  intros receiver Hr Har.
  rewrite (create_withdrawal_insufficient_run st userId body env sender receiver)
    by assumption.
  split; [reflexivity|right; reflexivity].
Qed.

(** C10. The create operation stores the new transaction as pending before
    the withdrawal's balance check and before any balance changes: after a
    withdrawal refused for insufficient balance, and after any payment, the
    transaction collection has grown by that pending record while every
    account is as it was. *)
Theorem create_persists_pending_first
    (st : Store) (userId : nat) (body : TransactionRoutes.Body)
    (env : TransactionRoutes.Env) (sender receiver : User.t) :
  users st !! userId = Some sender ->
  User.isActive sender = true ->
  users st !! TransactionRoutes.receiverId body = Some receiver ->
  User.isActive receiver = true ->
  TransactionRoutes.validationResult body = true ->
  (TransactionRoutes.b_type body = Transaction.withdrawal
   /\ User.accountBalance sender < TransactionRoutes.b_amount body)
  \/ TransactionRoutes.b_type body = Transaction.payment ->
  let res := fst (run (TransactionRoutes.create userId body env) st) in
  let st' := snd (run (TransactionRoutes.create userId body env) st) in
  transactions st' = transactions st ++ [pending_transaction userId body env]
  /\ Transaction.status (pending_transaction userId body env) = Transaction.pending
  /\ transactions st' <> transactions st
  /\ users st' = users st
  /\ (TransactionRoutes.b_type body = Transaction.withdrawal ->
      Spec.InsufficientBalance res)
  /\ (TransactionRoutes.b_type body = Transaction.payment ->
      code res = 201%nat).
Proof.
  intros Hs Has Hr Har Hv Hcase res st'. subst res st'.
  assert (Hgrow : forall (l : list Transaction.t) x, l ++ [x] <> l).
  { intros l x E. apply (f_equal (@length _)) in E.
    rewrite length_app in E. simpl in E. lia. }
  destruct Hcase as [[Ht Hbal] | Ht].
  - rewrite (create_withdrawal_insufficient_run st userId body env sender receiver)
      by assumption.
    simpl. split; [reflexivity|]. split; [reflexivity|].
    split; [apply Hgrow|]. split; [reflexivity|]. split.
    + intros _. split; [reflexivity|right; reflexivity].
    + intros E. congruence.
  - rewrite (create_payment_run st userId body env sender receiver) by assumption.
    simpl. split; [reflexivity|]. split; [reflexivity|].
    split; [apply Hgrow|]. split; [reflexivity|]. split.
    + intros E. congruence.
    + reflexivity.
Qed.

(** A transfer either stores nothing or stores a completed transaction. *)
Lemma create_transfer_transactions
    (st : Store) (userId : nat) (body : TransactionRoutes.Body)
    (env : TransactionRoutes.Env) :
  TransactionRoutes.b_type body = Transaction.transfer ->
  let st' := snd (run (TransactionRoutes.create userId body env) st) in
  transactions st' = transactions st
  \/ exists tx, transactions st' = transactions st ++ [tx]
                /\ Transaction.status tx = Transaction.completed.
Proof.
  destruct body as [rid amt ty desc]. simpl. intros ->.
  unfold_handler.
  destruct (users st !! userId) as [u|]; simpl; [|left; reflexivity].
  destruct (User.isActive u); simpl; [|left; reflexivity].
  destruct (TransactionRoutes.validationResult _); simpl; [|left; reflexivity].
  destruct (js_lt (User.accountBalance u) amt); simpl; [left; reflexivity|].
  destruct (users st !! rid) as [r|]; simpl; [|left; reflexivity].
  destruct (User.isActive r); simpl; [|left; reflexivity].
  right. rewrite insert_app_last. eexists. split; reflexivity.
Qed.

(** C6, as the code has it.  A payment is only recorded: the request is
    answered 201, no balance changes, and the stored transaction stays
    pending with completedAt unset.  Its outcome is never that of the
    transfer with the same sender, receiver and amount, which either is
    refused before anything is stored or ends completed. *)
Theorem create_payment_records_only
    (st : Store) (userId receiverId : nat) (amount : Q)
    (description : option string) (env : TransactionRoutes.Env)
    (sender receiver : User.t) :
  users st !! userId = Some sender ->
  User.isActive sender = true ->
  users st !! receiverId = Some receiver ->
  User.isActive receiver = true ->
  let body :=
    TransactionRoutes.mkBody receiverId amount Transaction.payment description in
  TransactionRoutes.validationResult body = true ->
  let res := fst (run (TransactionRoutes.create userId body env) st) in
  let st' := snd (run (TransactionRoutes.create userId body env) st) in
  code res = 201%nat
  /\ users st' = users st
  /\ transactions st' = transactions st ++ [pending_transaction userId body env]
  /\ Transaction.status (pending_transaction userId body env) = Transaction.pending
  /\ Transaction.completedAt (pending_transaction userId body env) = None
  /\ ~ Spec.payment_as_transfer st userId receiverId amount description env.
Proof.
  intros Hs Has Hr Har body Hv res st'. subst res st'.
  pose proof (create_payment_run st userId body env sender receiver
                Hs Has Hr Har Hv eq_refl) as Hrun.
  rewrite Hrun. simpl.
  repeat (split; [reflexivity|]).
  unfold Spec.payment_as_transfer. fold body. rewrite Hrun. simpl.
  intros [_ Hmap].
  destruct (create_transfer_transactions st userId
              (TransactionRoutes.mkBody receiverId amount Transaction.transfer
                 description) env eq_refl) as [E | (tx & E & Hc)];
    rewrite E in Hmap.
  - apply (f_equal (@length _)) in Hmap.
    rewrite !length_map, length_app in Hmap. simpl in Hmap. lia.
  - rewrite !map_app in Hmap. apply app_inj_tail in Hmap.
    destruct Hmap as [_ Hlast]. simpl in Hlast. rewrite Hc in Hlast.
    discriminate.
Qed.

(** ** The life of a transaction's status *)

Lemma Status_eqb_eq (a b : Transaction.Status) :
  Transaction.Status_eqb a b = true <-> a = b.
Proof. destruct a, b; simpl; split; congruence. Qed.

(** What [/create] does to the transaction collection. *)
Lemma create_transactions_cases
    (st : Store) (userId : nat) (body : TransactionRoutes.Body)
    (env : TransactionRoutes.Env) :
  let st' := snd (run (TransactionRoutes.create userId body env) st) in
  transactions st' = transactions st
  \/ exists tx, transactions st' = transactions st ++ [tx]
                /\ (Transaction.status tx = Transaction.pending
                    \/ Transaction.status tx = Transaction.completed).
Proof.
  destruct body as [rid amt ty desc]. unfold_handler. simpl.
  destruct (users st !! userId) as [u|]; simpl; [|left; reflexivity].
  destruct (User.isActive u); simpl; [|left; reflexivity].
  destruct (TransactionRoutes.validationResult _); simpl; [|left; reflexivity].
  destruct (Transaction.TxType_eqb ty Transaction.transfer
            && js_lt (User.accountBalance u) amt); simpl; [left; reflexivity|].
  destruct (users st !! rid) as [r|]; simpl; [|left; reflexivity].
  destruct (User.isActive r); simpl; [|left; reflexivity].
  right. destruct ty; simpl.
  - rewrite insert_app_last. eexists. split; [reflexivity|right; reflexivity].
  - rewrite insert_app_last. eexists. split; [reflexivity|right; reflexivity].
  - destruct (js_lt (User.accountBalance u) amt); simpl.
    + eexists. split; [reflexivity|left; reflexivity].
    + rewrite insert_app_last. eexists. split; [reflexivity|right; reflexivity].
  - eexists. split; [reflexivity|left; reflexivity].
Qed.

(** What [/:id/cancel] does: it either cancels a pending transaction of
    the caller or refuses and leaves the store alone. *)
Lemma cancel_cases (st : Store) (userId id : nat) :
  let res := fst (run (TransactionRoutes.cancel userId id) st) in
  let st' := snd (run (TransactionRoutes.cancel userId id) st) in
  (code res = 200%nat
   /\ exists t, transactions st !! id = Some t
                /\ Transaction.status t = Transaction.pending
                /\ Transaction.sender t = userId
                /\ st' = set_transactions st
                           (<[id := Transaction.set_status t Transaction.cancelled]>
                              (transactions st)))
  \/ (Spec.succeeded res = false /\ code res <> 200%nat /\ st' = st).
Proof.
  unfold_handler. simpl.
  destruct (users st !! userId) as [u|]; simpl;
    [|right; split; [reflexivity | split; [discriminate | reflexivity]]].
  destruct (User.isActive u); simpl;
    [|right; split; [reflexivity | split; [discriminate | reflexivity]]].
  destruct (transactions st !! id) as [t|] eqn:Ht; simpl;
    [|right; split; [reflexivity | split; [discriminate | reflexivity]]].
  destruct (Nat.eqb (Transaction.sender t) userId) eqn:Hsender; simpl;
    [|right; split; [reflexivity | split; [discriminate | reflexivity]]].
  destruct (Transaction.Status_eqb (Transaction.status t) Transaction.pending)
    eqn:Hstatus; simpl;
    [|right; split; [reflexivity | split; [discriminate | reflexivity]]].
  left. split; [reflexivity|]. exists t.
  apply Status_eqb_eq in Hstatus. apply Nat.eqb_eq in Hsender. auto.
Qed.

(** One request, seen from a transaction that is already stored. *)
Lemma handle_stored (rq : TransactionRoutes.Request) (st : Store)
    (id : nat) (t : Transaction.t) :
  transactions st !! id = Some t ->
  transactions (snd (TransactionRoutes.handle rq st)) !! id = Some t
  \/ (Transaction.status t = Transaction.pending
      /\ transactions (snd (TransactionRoutes.handle rq st)) !! id
         = Some (Transaction.set_status t Transaction.cancelled)).
Proof.
  intros Ht. destruct rq as [userId body env | userId id']; simpl.
  - left.
    destruct (create_transactions_cases st userId body env) as [E | (tx & E & _)];
      rewrite E; [exact Ht|].
    rewrite lookup_app_l; [exact Ht|]. eapply lookup_lt_Some; exact Ht.
  - destruct (cancel_cases st userId id')
      as [(_ & t0 & Ht0 & Hp & _ & E) | (_ & _ & E)]; rewrite E; [|left; exact Ht].
    simpl. destruct (decide (id' = id)) as [->|Hne].
    + right. rewrite Ht in Ht0. injection Ht0 as <-. split; [exact Hp|].
      apply list_lookup_insert_eq. eapply lookup_lt_Some; exact Ht.
    + left. rewrite list_lookup_insert_ne by exact Hne. exact Ht.
Qed.

(** One request, seen from a transaction that it creates. *)
Lemma handle_new (rq : TransactionRoutes.Request) (st : Store)
    (id : nat) (t' : Transaction.t) :
  transactions st !! id = None ->
  transactions (snd (TransactionRoutes.handle rq st)) !! id = Some t' ->
  Transaction.status t' = Transaction.pending
  \/ Transaction.status t' = Transaction.completed.
Proof.
  intros Hnone Hsome. destruct rq as [userId body env | userId id']; simpl in Hsome.
  - destruct (create_transactions_cases st userId body env) as [E | (tx & E & Hst)];
      rewrite E in Hsome; [congruence|].
    apply lookup_ge_None in Hnone.
    rewrite lookup_app_r in Hsome by exact Hnone.
    destruct (id - length (transactions st))%nat; simpl in Hsome; [|discriminate].
    injection Hsome as <-. exact Hst.
  - destruct (cancel_cases st userId id')
      as [(_ & t0 & Ht0 & _ & _ & E) | (_ & _ & E)]; rewrite E in Hsome;
      [|congruence].
    simpl in Hsome. apply lookup_ge_None in Hnone.
    apply lookup_lt_Some in Hsome. rewrite length_insert in Hsome. lia.
Qed.

(** A status other than pending survives every sequence of requests. *)
Lemma serve_keeps_settled (rqs : list TransactionRoutes.Request) (st : Store)
    (id : nat) (t : Transaction.t) :
  transactions st !! id = Some t ->
  Transaction.status t <> Transaction.pending ->
  transactions (TransactionRoutes.serve rqs st) !! id = Some t.
Proof.
  revert st. induction rqs as [|rq rqs IH]; intros st Ht Hnp; simpl.
  - exact Ht.
  - apply IH; [|exact Hnp].
    destruct (handle_stored rq st id t Ht) as [E | [Hp _]]; [exact E|].
    contradiction.
Qed.


(** ** Loan applications *)

Lemma find_open_loan_None (userId : nat) (ls : list Loan.t) :
  List.find
    (fun l => Nat.eqb (Loan.user l) userId
              && Loan.in_pending_approved_active (Loan.status l)) ls = None ->
  forall i l, ls !! i = Some l -> Loan.user l = userId ->
              Loan.in_pending_approved_active (Loan.status l) = false.
Proof.
  intros Hfind i l Hl Hu.
  apply list_elem_of_lookup_2, list_elem_of_In in Hl.
  pose proof (find_none _ _ Hfind l Hl) as H. simpl in H.
  rewrite Hu, Nat.eqb_refl in H. exact H.
Qed.

Lemma find_open_loan_Some (userId : nat) (ls : list Loan.t) (i : nat) (l : Loan.t) :
  ls !! i = Some l -> Loan.user l = userId ->
  Loan.in_pending_approved_active (Loan.status l) = true ->
  exists l',
    List.find
      (fun l => Nat.eqb (Loan.user l) userId
                && Loan.in_pending_approved_active (Loan.status l)) ls = Some l'.
Proof.
  intros Hl Hu Hopen.
  destruct (List.find _ ls) as [l'|] eqn:Hfind; [eauto|].
  pose proof (find_open_loan_None userId ls Hfind i l Hl Hu). congruence.
Qed.

Lemma pre_save_none_modified (l : Loan.t) :
  Loan.pre_save Loan.none_modified l = l.
Proof. reflexivity. Qed.

(** A loan without a monthly payment does not pass the validation. *)
Lemma validate_undefined_payment (l : Loan.t) :
  Loan.monthlyPayment l = None -> Loan.validate l = false.
Proof.
  unfold Loan.validate. intros ->. simpl Loan.is_defined.
  rewrite andb_false_r. reflexivity.
Qed.

(** Nor does a cancelled loan. *)
Lemma validate_cancelled (l : Loan.t) :
  Loan.status l = Loan.cancelled -> Loan.validate l = false.
Proof.
  unfold Loan.validate. intros ->. simpl Loan.status_in_enum.
  rewrite andb_false_r. reflexivity.
Qed.

(** What [/apply] does: it never succeeds and leaves the store alone. *)
Lemma apply_cases (st : Store) (userId : nat) (body : LoanRoutes.Body) :
  Spec.succeeded (fst (run (LoanRoutes.apply userId body) st)) = false
  /\ snd (run (LoanRoutes.apply userId body) st) = st.
Proof.
  unfold_handler. simpl.
  destruct (users st !! userId) as [u|]; simpl; [|split; reflexivity].
  destruct (User.isActive u); simpl; [|split; reflexivity].
  destruct (LoanRoutes.validationResult body); simpl; [|split; reflexivity].
  destruct (List.find _ (loans st)) as [l0|] eqn:Hfind; simpl;
    [split; reflexivity|].
  rewrite validate_undefined_payment by reflexivity. split; reflexivity.
Qed.

(** The application of a user who already has an open loan. *)
Lemma apply_duplicate_run (st : Store) (userId : nat) (body : LoanRoutes.Body)
    (u : User.t) (i : nat) (l : Loan.t) :
  users st !! userId = Some u ->
  User.isActive u = true ->
  LoanRoutes.validationResult body = true ->
  loans st !! i = Some l ->
  Loan.user l = userId ->
  Loan.in_pending_approved_active (Loan.status l) = true ->
  run (LoanRoutes.apply userId body) st
    = (mkResponse 400 "You already have an active loan application or loan" None,
       st).
Proof.
  intros Hu Ha Hv Hl Huser Hopen.
  destruct (find_open_loan_Some userId (loans st) i l Hl Huser Hopen) as [l' Hfind].
  unfold_handler. simpl. rewrite Hu. simpl. rewrite Ha, Hv. simpl.
  rewrite Hfind. reflexivity.
Qed.

(** What [/:id] does to the loans: nothing, or it replaces a pending loan
    of the caller that passes the validation by the same loan with another
    purpose. *)
Lemma update_cases (st : Store) (userId id : nat) (p : option string) :
  let st' := snd (run (LoanRoutes.update userId id p) st) in
  st' = st
  \/ exists l np, loans st !! id = Some l
                  /\ Loan.user l = userId
                  /\ Loan.status l = Loan.pending
                  /\ p = Some np /\ np <> EmptyString
                  /\ Loan.validate (Loan.set_purpose l np) = true
                  /\ st' = set_loans st
                             (<[id := Loan.set_purpose l np]> (loans st)).
Proof.
  unfold_handler. simpl.
  destruct (users st !! userId) as [u|]; simpl; [|left; reflexivity].
  destruct (User.isActive u); simpl; [|left; reflexivity].
  destruct (optional_isLength_max 200 p); simpl; [|left; reflexivity].
  destruct (loans st !! id) as [l|] eqn:Hl; simpl; [|left; reflexivity].
  destruct (Nat.eqb (Loan.user l) userId) eqn:Eu; simpl; [|left; reflexivity].
  destruct (Loan.Status_eqb (Loan.status l) Loan.pending) eqn:Es; simpl;
    [|left; reflexivity].
  apply Nat.eqb_eq in Eu.
  assert (Hs : Loan.status l = Loan.pending)
    by (destruct (Loan.status l); simpl in Es; congruence).
  destruct p as [np|].
  - destruct (String.eqb np EmptyString) eqn:Enp.
    + destruct (Loan.validate l); simpl; [|left; reflexivity].
      left. destruct st as [us ts ls]. unfold set_loans. simpl in *.
      rewrite pre_save_none_modified, (list_insert_id ls id l Hl). reflexivity.
    + destruct (Loan.validate (Loan.set_purpose l np)) eqn:Ev; simpl;
        [|left; reflexivity].
      right. exists l, np. apply String.eqb_neq in Enp.
      repeat (split; [assumption || reflexivity|]). reflexivity.
  - destruct (Loan.validate l); simpl; [|left; reflexivity].
    left. destruct st as [us ts ls]. unfold set_loans. simpl in *.
    rewrite pre_save_none_modified, (list_insert_id ls id l Hl). reflexivity.
Qed.

(** What [/:id/cancel] does: it never succeeds and leaves the store
    alone. *)
Lemma loan_cancel_cases (st : Store) (userId id : nat) :
  Spec.succeeded (fst (run (LoanRoutes.cancel userId id) st)) = false
  /\ snd (run (LoanRoutes.cancel userId id) st) = st.
Proof.
  unfold_handler. simpl.
  destruct (users st !! userId) as [u|]; simpl; [|split; reflexivity].
  destruct (User.isActive u); simpl; [|split; reflexivity].
  destruct (loans st !! id) as [l|] eqn:Hl; simpl; [|split; reflexivity].
  destruct (Nat.eqb (Loan.user l) userId); simpl; [|split; reflexivity].
  destruct (Loan.Status_eqb (Loan.status l) Loan.pending); simpl;
    [|split; reflexivity].
  rewrite validate_cancelled by reflexivity. split; reflexivity.
Qed.

(** Storing a loan for a user without an open loan keeps the invariant. *)
Lemma at_most_one_open_loan_app (ls : list Loan.t) (l : Loan.t) :
  Spec.at_most_one_open_loan ls ->
  (forall i l0, ls !! i = Some l0 -> Loan.user l0 = Loan.user l ->
                Loan.in_pending_approved_active (Loan.status l0) = false) ->
  Spec.at_most_one_open_loan (ls ++ [l]).
Proof.
  intros Hinv Hnone i j li lj Hi Hj Hu Hoi Hoj.
  apply lookup_app_Some in Hi. apply lookup_app_Some in Hj.
  destruct Hi as [Hi | [Hge_i Hi]], Hj as [Hj | [Hge_j Hj]].
  - exact (Hinv i j li lj Hi Hj Hu Hoi Hoj).
  - apply list_lookup_singleton_Some in Hj. destruct Hj as [_ <-].
    rewrite (Hnone i li Hi Hu) in Hoi. discriminate.
  - apply list_lookup_singleton_Some in Hi. destruct Hi as [_ <-].
    rewrite (Hnone j lj Hj (eq_sym Hu)) in Hoj. discriminate.
  - apply list_lookup_singleton_Some in Hi, Hj.
    destruct Hi as [Hi _], Hj as [Hj _]. lia.
Qed.

(** Replacing a loan by one of the same user that is open only if the
    replaced one was keeps the invariant. *)
Lemma at_most_one_open_loan_insert (ls : list Loan.t) (id : nat) (l l' : Loan.t) :
  Spec.at_most_one_open_loan ls ->
  ls !! id = Some l ->
  Loan.user l' = Loan.user l ->
  (Loan.in_pending_approved_active (Loan.status l') = true ->
   Loan.in_pending_approved_active (Loan.status l) = true) ->
  Spec.at_most_one_open_loan (<[id := l']> ls).
Proof.
  intros Hinv Hl Hu Hopen i j li lj Hi Hj Huser Hoi Hoj.
  apply list_lookup_insert_Some in Hi. apply list_lookup_insert_Some in Hj.
  destruct Hi as [(<- & <- & _) | [Hne_i Hi]], Hj as [(<- & <- & _) | [Hne_j Hj]].
  - reflexivity.
  - apply (Hinv id j l lj Hl Hj); [congruence | auto | exact Hoj].
  - apply (Hinv i id li l Hi Hl); [congruence | exact Hoi | auto].
  - exact (Hinv i j li lj Hi Hj Huser Hoi Hoj).
Qed.

Lemma handle_at_most_one_open_loan (rq : LoanRoutes.Request) (st : Store) :
  Spec.at_most_one_open_loan (loans st) ->
  Spec.at_most_one_open_loan (loans (snd (LoanRoutes.handle rq st))).
Proof.
  intros Hinv. destruct rq as [userId body | userId id p | userId id]; simpl.
  - destruct (apply_cases st userId body) as [_ E]. rewrite E. exact Hinv.
  - destruct (update_cases st userId id p)
      as [E | (l & np & Hl & _ & _ & _ & _ & _ & E)];
      rewrite E; [exact Hinv|].
    simpl. apply (at_most_one_open_loan_insert _ _ l); auto.
  - destruct (loan_cancel_cases st userId id) as [_ E]. rewrite E. exact Hinv.
Qed.

Lemma serve_at_most_one_open_loan (rqs : list LoanRoutes.Request) (st : Store) :
  Spec.at_most_one_open_loan (loans st) ->
  Spec.at_most_one_open_loan (loans (LoanRoutes.serve rqs st)).
Proof.
  revert st. induction rqs as [|rq rqs IH]; intros st Hinv; simpl; [exact Hinv|].
  apply IH, handle_at_most_one_open_loan, Hinv.
Qed.

(** C8. When the applicant already holds a loan that is pending, approved
    or active, a new application is refused and the store, so the loan
    collection, is left as it was; for an authenticated applicant with a
    valid request the refusal is the duplicate-loan error.  Hence, over any
    sequence of loan requests served on a store where every user has at
    most one open loan (the empty one, for instance), every user still has
    at most one. *)
Theorem apply_refuses_second_open_loan :
  (forall (st : Store) (userId : nat) (body : LoanRoutes.Body) (i : nat) (l : Loan.t),
      loans st !! i = Some l ->
      Loan.user l = userId ->
      Loan.in_pending_approved_active (Loan.status l) = true ->
      Spec.succeeded (fst (run (LoanRoutes.apply userId body) st)) = false
      /\ snd (run (LoanRoutes.apply userId body) st) = st
      /\ (forall u, users st !! userId = Some u ->
                    User.isActive u = true ->
                    LoanRoutes.validationResult body = true ->
                    Spec.DuplicateActiveLoan
                      (fst (run (LoanRoutes.apply userId body) st))))
  /\ (forall (rqs : list LoanRoutes.Request) (st : Store),
      Spec.at_most_one_open_loan (loans st) ->
      Spec.at_most_one_open_loan (loans (LoanRoutes.serve rqs st)))
  /\ (forall (rqs : list LoanRoutes.Request) (us : gmap nat User.t)
             (ts : list Transaction.t),
      Spec.at_most_one_open_loan (loans (LoanRoutes.serve rqs (mkStore us ts [])))).
Proof.
  split; [|split].
  - intros st userId body i l Hl Hu Hopen.
    destruct (apply_cases st userId body) as [Hf E].
    split; [exact Hf|]. split; [exact E|].
    intros u Hu' Ha Hv.
    rewrite (apply_duplicate_run st userId body u i l) by assumption.
    split; reflexivity.
  - exact serve_at_most_one_open_loan.
  - intros rqs us ts. apply serve_at_most_one_open_loan. simpl.
    intros i j li lj Hi. rewrite lookup_nil in Hi. discriminate.
Qed.

(** ** The theorems at the sample data *)

Lemma create_transfer_between_accounts_example :
  code (fst (run (TransactionRoutes.create 1 Samples.transfer_all Samples.env)
               Samples.store)) = 201%nat
  /\ users Samples.store_after_transfer !! 1%nat = Some (User.mk true (100 - 100))
  /\ users Samples.store_after_transfer !! 2%nat = Some (User.mk true (50 + 100)).
Proof.
  assert (Hle : TransactionRoutes.b_amount Samples.transfer_all
                <= User.accountBalance Samples.alice)
    by (unfold Qle; simpl; lia).
  assert (Hne : 1%nat <> TransactionRoutes.receiverId Samples.transfer_all)
    by (simpl; lia).
  pose proof (create_transfer_between_accounts Samples.store 1
                Samples.transfer_all Samples.env Samples.alice Samples.bob
                eq_refl eq_refl eq_refl eq_refl Hne eq_refl eq_refl Hle) as H.
  destruct H as (Hcode & Hsender & _ & Hreceiver & _).
  split; [exact Hcode|]. split; [exact Hsender | exact Hreceiver].
Qed.

Lemma create_transfer_to_own_account_witness :
  code (fst (run (TransactionRoutes.create 1 transfer_all_to_self Samples.env)
               Samples.store)) = 201%nat
  /\ users (snd (run (TransactionRoutes.create 1 transfer_all_to_self Samples.env)
                   Samples.store)) !! 1%nat
     = Some (User.mk true (100 + 100)).
Proof.
  assert (Hle : TransactionRoutes.b_amount transfer_all_to_self
                <= User.accountBalance Samples.alice)
    by (unfold Qle; simpl; lia).
  pose proof (create_transfer_to_own_account Samples.store 1
                transfer_all_to_self Samples.env Samples.alice
                eq_refl eq_refl eq_refl eq_refl eq_refl Hle) as H.
  destruct H as (Hcode & Hsender & _). split; [exact Hcode | exact Hsender].
Defined.


Lemma create_withdrawal_insufficient_balance_witness :
  Spec.succeeded
    (fst (run (TransactionRoutes.create 1 Samples.withdraw_too_much Samples.env)
            Samples.store)) = false
  /\ users (snd (run (TransactionRoutes.create 1 Samples.withdraw_too_much
                        Samples.env) Samples.store))
     = users Samples.store
  /\ Spec.InsufficientBalance
       (fst (run (TransactionRoutes.create 1 Samples.withdraw_too_much Samples.env)
               Samples.store)).
Proof.
  assert (Hlt : User.accountBalance Samples.alice
                < TransactionRoutes.b_amount Samples.withdraw_too_much)
    by (unfold Qlt; simpl; lia).
  pose proof (create_withdrawal_insufficient_balance Samples.store 1
                Samples.withdraw_too_much Samples.env Samples.alice
                eq_refl eq_refl eq_refl eq_refl Hlt) as H.
  destruct H as (Hf & Hu & Herr).
  split; [exact Hf|]. split; [exact Hu|].
  exact (Herr Samples.bob eq_refl eq_refl).
Defined.

Lemma create_persists_pending_first_witness :
  transactions (snd (run (TransactionRoutes.create 1 Samples.withdraw_too_much
                            Samples.env) Samples.store))
  = [pending_transaction 1 Samples.withdraw_too_much Samples.env].
Proof.
  assert (Hlt : User.accountBalance Samples.alice
                < TransactionRoutes.b_amount Samples.withdraw_too_much)
    by (unfold Qlt; simpl; lia).
  pose proof (create_persists_pending_first Samples.store 1
                Samples.withdraw_too_much Samples.env Samples.alice Samples.bob
                eq_refl eq_refl eq_refl eq_refl eq_refl
                (or_introl (conj eq_refl Hlt))) as H.
  destruct H as (Htx & _). exact Htx.
Defined.

Lemma create_payment_records_only_witness :
  users (snd (run (TransactionRoutes.create 1 Samples.pay_30 Samples.env)
                Samples.store))
  = users Samples.store
  /\ transactions (snd (run (TransactionRoutes.create 1 Samples.pay_30 Samples.env)
                          Samples.store))
     = [pending_transaction 1 Samples.pay_30 Samples.env].
Proof.
  pose proof (create_payment_records_only Samples.store 1 2 30 None Samples.env
                Samples.alice Samples.bob eq_refl eq_refl eq_refl eq_refl eq_refl)
    as H.
  destruct H as (_ & Hu & Htx & _).
  split; [exact Hu | exact Htx].
Defined.

(** Alice pays bob 30: her balance stays 100, while the transfer of 30
    leaves her 70; the payment is not a transfer under another tag. *)
Lemma payment_not_as_transfer :
  ~ Spec.payment_as_transfer Samples.store 1 2 30 None Samples.env.
Proof.
  unfold Spec.payment_as_transfer. intros [Husers _].
  apply (f_equal (fun us => User.accountBalance <$> us !! 1%nat)) in Husers.
  vm_compute in Husers. discriminate.
Qed.


Lemma apply_refuses_second_open_loan_witness :
  Spec.DuplicateActiveLoan
    (fst (run (LoanRoutes.apply 1 Samples.personal_loan) Samples.store_with_loan))
  /\ snd (run (LoanRoutes.apply 1 Samples.personal_loan) Samples.store_with_loan)
     = Samples.store_with_loan.
Proof.
  destruct apply_refuses_second_open_loan as (H & _).
  destruct (H Samples.store_with_loan 1%nat Samples.personal_loan 0%nat
              (Loan.pre_save Loan.all_modified
                 (Loan.mk 1 Loan.personal 50000 (21 # 2) 12 None None
                    Loan.pending None 0))
              eq_refl eq_refl eq_refl) as (_ & Hst & Herr).
  split; [|exact Hst].
  exact (Herr Samples.alice eq_refl eq_refl eq_refl).
Defined.

(** * Further properties of the routers *)

(** ** Who may call: [authenticateToken] *)

Lemma authenticateToken_refuses {R} (userId : nat)
    (k : User.t -> Handler R (Response R)) (st : Store) :
  (forall u, users st !! userId = Some u -> User.isActive u = false) ->
  run (bind (authenticateToken userId) k) st
  = (mkResponse 401 "Invalid or inactive user" None, st).
Proof.
  intros H. unfold run, authenticateToken, bind, User_findById, respond, ret.
  destruct (users st !! userId) as [u|] eqn:Hu; [|reflexivity].
  rewrite (H u eq_refl). reflexivity.
Qed.

(** X1. When the user the token decodes to is missing or inactive, every
    protected route of the transaction and loan routers answers 401 and
    leaves the whole store as it was. *)
Theorem protected_routes_refuse_inactive (st : Store) (userId : nat) :
  (forall u, users st !! userId = Some u -> User.isActive u = false) ->
  let refused {R} (out : Response R * Store) :=
    out = (mkResponse 401 "Invalid or inactive user" None, st) in
  (forall body env, refused (run (TransactionRoutes.create userId body env) st))
  /\ (forall id, refused (run (TransactionRoutes.cancel userId id) st))
  /\ (forall id, refused (run (TransactionQueries.get userId id) st))
  /\ (forall q, refused (run (TransactionQueries.history userId q) st))
  /\ refused (run (TransactionQueries.stats_summary userId) st)
  /\ (forall body, refused (run (LoanRoutes.apply userId body) st))
  /\ (forall id p, refused (run (LoanRoutes.update userId id p) st))
  /\ (forall id, refused (run (LoanRoutes.cancel userId id) st)).
Proof.
  intros H refused. unfold refused.
  repeat split; intros; apply authenticateToken_refuses; exact H.
Qed.

Lemma protected_routes_refuse_inactive_witness :
  run (TransactionRoutes.create 7 Samples.transfer_all Samples.env) Samples.store
  = (mkResponse 401 "Invalid or inactive user" None, Samples.store).
Proof.
  assert (H : forall u, users Samples.store !! 7%nat = Some u ->
                        User.isActive u = false)
    by (intros u Hu; vm_compute in Hu; discriminate).
  destruct (protected_routes_refuse_inactive Samples.store 7 H) as (Hc & _).
  exact (Hc Samples.transfer_all Samples.env).
Defined.

(** ** The other outcomes of [/create] *)

(** X2. The receiver that a deposit must name is recorded on the completed
    transaction but is never credited: an accepted deposit is answered 201,
    stores one completed transaction with the requester as sender and the
    named user as receiver, and changes no account other than the
    requester's own. *)
Theorem create_deposit_never_credits_receiver
    (st : Store) (userId : nat) (body : TransactionRoutes.Body)
    (env : TransactionRoutes.Env) (sender receiver : User.t) :
  users st !! userId = Some sender ->
  User.isActive sender = true ->
  users st !! TransactionRoutes.receiverId body = Some receiver ->
  User.isActive receiver = true ->
  TransactionRoutes.validationResult body = true ->
  TransactionRoutes.b_type body = Transaction.deposit ->
  let res := fst (run (TransactionRoutes.create userId body env) st) in
  let st' := snd (run (TransactionRoutes.create userId body env) st) in
  code res = 201%nat
  /\ (TransactionRoutes.receiverId body <> userId ->
      users st' !! TransactionRoutes.receiverId body = Some receiver)
  /\ (forall k, k <> userId -> users st' !! k = users st !! k)
  /\ exists tx,
       transactions st' = transactions st ++ [tx]
       /\ Transaction.type tx = Transaction.deposit
       /\ Transaction.status tx = Transaction.completed
       /\ Transaction.completedAt tx = Some (TransactionRoutes.date_completed env)
       /\ Transaction.sender tx = userId
       /\ Transaction.receiver tx = TransactionRoutes.receiverId body
       /\ Transaction.amount tx = TransactionRoutes.b_amount body.
Proof.
  destruct body as [rid amt ty desc]. simpl.
  intros Hs Has Hr Har Hv ->.
  unfold_handler. rewrite Hs, Has, Hv. simpl. rewrite Hr, Har. simpl.
  rewrite insert_app_last.
  split; [reflexivity|].
  split; [intros Hne; rewrite lookup_insert_ne by congruence; exact Hr|].
  split; [intros k Hk; rewrite lookup_insert_ne by congruence; reflexivity|].
  eexists. split; [reflexivity|]. repeat split; reflexivity.
Qed.

Lemma create_deposit_never_credits_receiver_witness :
  code (fst (run (TransactionRoutes.create 1 deposit_25 Samples.env)
               Samples.store)) = 201%nat
  /\ users (snd (run (TransactionRoutes.create 1 deposit_25 Samples.env)
                   Samples.store)) !! 2%nat
     = Some (User.mk true 50).
Proof.
  pose proof (create_deposit_never_credits_receiver Samples.store 1 deposit_25
                Samples.env Samples.alice Samples.bob
                eq_refl eq_refl eq_refl eq_refl eq_refl eq_refl) as H.
  destruct H as (Hc & Hr & _).
  split; [exact Hc|]. apply Hr. simpl. lia.
Defined.



(** X4. A transfer beyond the sender's balance is refused with 400
    "Insufficient balance" before the receiver is looked up and before
    anything is stored: the whole store, transactions included, is as it
    was. *)
Theorem create_transfer_insufficient_refused
    (st : Store) (userId : nat) (body : TransactionRoutes.Body)
    (env : TransactionRoutes.Env) (sender : User.t) :
  users st !! userId = Some sender ->
  User.isActive sender = true ->
  TransactionRoutes.validationResult body = true ->
  TransactionRoutes.b_type body = Transaction.transfer ->
  User.accountBalance sender < TransactionRoutes.b_amount body ->
  run (TransactionRoutes.create userId body env) st
  = (mkResponse 400 "Insufficient balance" None, st).
Proof.
  destruct body as [rid amt ty desc]. simpl.
  intros Hs Has Hv -> Hbal. apply js_lt_true in Hbal.
  unfold_handler. rewrite Hs, Has, Hv. simpl. rewrite Hbal. reflexivity.
Qed.

Lemma create_transfer_insufficient_refused_witness :
  run (TransactionRoutes.create 1 transfer_too_much Samples.env) Samples.store
  = (mkResponse 400 "Insufficient balance" None, Samples.store).
Proof.
  apply (create_transfer_insufficient_refused Samples.store 1 transfer_too_much
           Samples.env Samples.alice); try reflexivity.
Defined.

(** X5. Whatever the type of the transaction, a request that names a
    receiver who does not exist or is inactive is answered 404 "Receiver
    not found" and stores nothing, provided it got past the transfer's
    balance check. *)
Theorem create_receiver_not_found
    (st : Store) (userId : nat) (body : TransactionRoutes.Body)
    (env : TransactionRoutes.Env) (sender : User.t) :
  users st !! userId = Some sender ->
  User.isActive sender = true ->
  TransactionRoutes.validationResult body = true ->
  (TransactionRoutes.b_type body = Transaction.transfer ->
   TransactionRoutes.b_amount body <= User.accountBalance sender) ->
  (forall r, users st !! TransactionRoutes.receiverId body = Some r ->
             User.isActive r = false) ->
  run (TransactionRoutes.create userId body env) st
  = (mkResponse 404 "Receiver not found" None, st).
Proof.
  destruct body as [rid amt ty desc]. simpl.
  intros Hs Has Hv Hbal Hr.
  unfold_handler. rewrite Hs, Has, Hv. simpl.
  assert (Hcheck : Transaction.TxType_eqb ty Transaction.transfer
                   && js_lt (User.accountBalance sender) amt = false).
  { destruct ty; simpl; try reflexivity.
    apply js_lt_false. apply Hbal. reflexivity. }
  rewrite Hcheck.
  destruct (users st !! rid) as [r|] eqn:E; [|reflexivity].
  rewrite (Hr r eq_refl). reflexivity.
Qed.

Lemma create_receiver_not_found_witness :
  run (TransactionRoutes.create 1 deposit_unknown_receiver Samples.env)
      Samples.store
  = (mkResponse 404 "Receiver not found" None, Samples.store).
Proof.
  apply (create_receiver_not_found Samples.store 1 deposit_unknown_receiver
           Samples.env Samples.alice); try reflexivity.
  - intros H. discriminate H.
  - intros r Hr. vm_compute in Hr. discriminate Hr.
Defined.

(** ** What the transaction router keeps true *)

(** The four shapes the user collection can have after [/create]. *)
Lemma create_users_shape
    (st : Store) (userId : nat) (body : TransactionRoutes.Body)
    (env : TransactionRoutes.Env) :
  let amount := TransactionRoutes.b_amount body in
  let rid := TransactionRoutes.receiverId body in
  let us' := users (snd (run (TransactionRoutes.create userId body env) st)) in
  us' = users st
  \/ exists s r,
       users st !! userId = Some s /\ User.isActive s = true
       /\ users st !! rid = Some r /\ User.isActive r = true
       /\ 1 # 100 <= amount
       /\ (us' = <[userId := User.set_accountBalance s (User.accountBalance s + amount)]>
                   (users st)
           \/ (amount <= User.accountBalance s
               /\ us' = <[userId := User.set_accountBalance s
                                       (User.accountBalance s - amount)]> (users st))
           \/ (amount <= User.accountBalance s
               /\ us' = <[rid := User.set_accountBalance r
                                    (User.accountBalance r + amount)]>
                          (<[userId := User.set_accountBalance s
                                         (User.accountBalance s - amount)]>
                             (users st)))).
Proof.
  destruct body as [rid amt ty desc]. simpl. unfold_handler. simpl.
  destruct (users st !! userId) as [s|] eqn:Hs; simpl; [|left; reflexivity].
  destruct (User.isActive s) eqn:Has; simpl; [|left; reflexivity].
  destruct (TransactionRoutes.validationResult _) eqn:Hv; simpl;
    [|left; reflexivity].
  assert (Hamt : 1 # 100 <= amt).
  { unfold TransactionRoutes.validationResult in Hv. simpl in Hv.
    apply andb_prop in Hv. destruct Hv as [Hv _]. apply js_ge_true in Hv.
    exact Hv. }
  destruct ty; simpl.
  - destruct (js_lt (User.accountBalance s) amt) eqn:Hlt; simpl;
      [left; reflexivity|].
    apply js_lt_false in Hlt.
    destruct (users st !! rid) as [r|] eqn:Hr; simpl; [|left; reflexivity].
    destruct (User.isActive r) eqn:Har; simpl; [|left; reflexivity].
    right. exists s, r. repeat (split; [assumption || reflexivity|]).
    right. right. split; [exact Hlt | reflexivity].
  - destruct (users st !! rid) as [r|] eqn:Hr; simpl; [|left; reflexivity].
    destruct (User.isActive r) eqn:Har; simpl; [|left; reflexivity].
    right. exists s, r. repeat (split; [assumption || reflexivity|]).
    left. reflexivity.
  - destruct (users st !! rid) as [r|] eqn:Hr; simpl; [|left; reflexivity].
    destruct (User.isActive r) eqn:Har; simpl; [|left; reflexivity].
    destruct (js_lt (User.accountBalance s) amt) eqn:Hlt; simpl;
      [left; reflexivity|].
    apply js_lt_false in Hlt.
    right. exists s, r. repeat (split; [assumption || reflexivity|]).
    right. left. split; [exact Hlt | reflexivity].
  - destruct (users st !! rid) as [r|] eqn:Hr; simpl; [|left; reflexivity].
    destruct (User.isActive r) eqn:Har; simpl; [|left; reflexivity].
    left. reflexivity.
Qed.

(** What one request does to one user document. *)
Lemma handle_user_effect (rq : TransactionRoutes.Request) (st : Store) (k : nat) :
  match users st !! k with
  | None => users (snd (TransactionRoutes.handle rq st)) !! k = None
  | Some u =>
      exists u',
        users (snd (TransactionRoutes.handle rq st)) !! k = Some u'
        /\ User.isActive u' = User.isActive u
        /\ (u' = u
            \/ (User.isActive u = true
                /\ exists amount,
                     0 <= amount
                     /\ (User.accountBalance u' = User.accountBalance u + amount
                         \/ (amount <= User.accountBalance u
                             /\ User.accountBalance u'
                                = User.accountBalance u - amount))))
  end.
Proof.
  assert (Hsame : forall us : gmap nat User.t,
             match us !! k with
             | None => us !! k = None
             | Some u => exists u', us !! k = Some u'
                         /\ User.isActive u' = User.isActive u
                         /\ (u' = u \/ (User.isActive u = true /\ exists amount : Q,
                               0 <= amount
                               /\ (User.accountBalance u' = User.accountBalance u + amount
                                   \/ (amount <= User.accountBalance u
                                       /\ User.accountBalance u'
                                          = User.accountBalance u - amount))))
             end).
  { intros us. destruct (us !! k) as [u|] eqn:E; [|reflexivity].
    exists u. auto. }
  destruct rq as [userId body env | userId id]; simpl.
  2:{ destruct (cancel_cases st userId id) as [(_ & t & _ & _ & _ & E) | (_ & _ & E)];
        rewrite E; apply Hsame. }
  destruct (create_users_shape st userId body env)
    as [E | (s & r & Hs & Has & Hr & Har & Hamt & Hshape)].
  { rewrite E. apply Hsame. }
  assert (Hpos : 0 <= TransactionRoutes.b_amount body) by lra.
  destruct Hshape as [E | [[Hle E] | [Hle E]]]; rewrite E; clear E.
  - destruct (decide (k = userId)) as [->|Hne].
    + rewrite Hs, lookup_insert_eq. eexists. split; [reflexivity|].
      split; [reflexivity|]. right. split; [exact Has|].
      eexists. split; [exact Hpos|]. left. reflexivity.
    + rewrite lookup_insert_ne by congruence. apply Hsame.
  - destruct (decide (k = userId)) as [->|Hne].
    + rewrite Hs, lookup_insert_eq. eexists. split; [reflexivity|].
      split; [reflexivity|]. right. split; [exact Has|].
      eexists. split; [exact Hpos|]. right. split; [exact Hle | reflexivity].
    + rewrite lookup_insert_ne by congruence. apply Hsame.
  - destruct (decide (k = TransactionRoutes.receiverId body)) as [->|Hner].
    + rewrite Hr, lookup_insert_eq. eexists. split; [reflexivity|].
      split; [reflexivity|]. right. split; [exact Har|].
      eexists. split; [exact Hpos|]. left. reflexivity.
    + rewrite lookup_insert_ne by congruence.
      destruct (decide (k = userId)) as [->|Hne].
      * rewrite Hs, lookup_insert_eq. eexists. split; [reflexivity|].
        split; [reflexivity|]. right. split; [exact Has|].
        eexists. split; [exact Hpos|]. right. split; [exact Hle | reflexivity].
      * rewrite lookup_insert_ne by congruence. apply Hsame.
Qed.

(** X6. Served one after the other, the create and cancel requests never
    drive a balance below zero: if no stored balance is negative, none is
    after any sequence of them. *)
Theorem serve_balances_nonnegative
    (rqs : list TransactionRoutes.Request) (st : Store) :
  (forall k u, users st !! k = Some u -> 0 <= User.accountBalance u) ->
  forall k u, users (TransactionRoutes.serve rqs st) !! k = Some u ->
              0 <= User.accountBalance u.
Proof.
  revert st. induction rqs as [|rq rqs IH]; intros st Hinv; simpl; [exact Hinv|].
  apply IH. intros k u' Hu'.
  pose proof (handle_user_effect rq st k) as H.
  destruct (users st !! k) as [u|] eqn:Hu; [|congruence].
  destruct H as (u'' & E & _ & Hcase). rewrite E in Hu'. injection Hu' as <-.
  pose proof (Hinv k u Hu) as Hnn.
  destruct Hcase as [-> | (_ & amount & Hpos & [Eb | [Hle Eb]])];
    [exact Hnn | rewrite Eb; lra | rewrite Eb; lra].
Qed.

Lemma serve_balances_nonnegative_witness :
  exists u, users (TransactionRoutes.serve busy_day store_with_carol) !! 1%nat = Some u
            /\ 0 <= User.accountBalance u.
Proof.
  assert (Hinv : forall k u, users store_with_carol !! k = Some u ->
                             0 <= User.accountBalance u).
  { intros k u Hu. unfold store_with_carol, Samples.store in Hu. simpl in Hu.
    apply lookup_insert_Some in Hu. destruct Hu as [[_ <-] | [_ Hu]]; [simpl; lra|].
    apply lookup_insert_Some in Hu. destruct Hu as [[_ <-] | [_ Hu]]; [simpl; lra|].
    apply lookup_insert_Some in Hu. destruct Hu as [[_ <-] | [_ Hu]]; [simpl; lra|].
    rewrite lookup_empty in Hu. discriminate Hu. }
  eexists. split; [reflexivity|].
  exact (serve_balances_nonnegative busy_day store_with_carol Hinv 1%nat _ eq_refl).
Defined.

(** X7. The create and cancel requests open and close no account: over
    any sequence of them the set of user ids and every account's active
    flag stay what they were, and the document of an inactive account,
    balance included, is never changed. *)
Theorem serve_accounts_fixed
    (rqs : list TransactionRoutes.Request) (st : Store) (k : nat) :
  match users st !! k with
  | None => users (TransactionRoutes.serve rqs st) !! k = None
  | Some u =>
      exists u', users (TransactionRoutes.serve rqs st) !! k = Some u'
                 /\ User.isActive u' = User.isActive u
                 /\ (User.isActive u = false -> u' = u)
  end.
Proof.
  revert st. induction rqs as [|rq rqs IH]; intros st; simpl.
  - destruct (users st !! k) as [u|] eqn:E; [|reflexivity]. exists u. auto.
  - pose proof (handle_user_effect rq st k) as H.
    pose proof (IH (snd (TransactionRoutes.handle rq st))) as IH'.
    destruct (users st !! k) as [u|] eqn:Hu.
    + destruct H as (u1 & E1 & Hact & Hcase). rewrite E1 in IH'.
      destruct IH' as (u' & E' & Hact' & Hfrozen).
      exists u'. split; [exact E'|]. split; [congruence|].
      intros Hinactive.
      rewrite Hfrozen by congruence.
      destruct Hcase as [-> | (Hactive & _)]; [reflexivity | congruence].
    + rewrite H in IH'. exact IH'.
Qed.

Lemma serve_accounts_fixed_witness :
  users (TransactionRoutes.serve busy_day store_with_carol) !! 3%nat = Some carol.
Proof.
  pose proof (serve_accounts_fixed busy_day store_with_carol 3) as H.
  assert (E : users store_with_carol !! 3%nat = Some carol) by reflexivity.
  rewrite E in H. destruct H as (u' & Hu' & _ & Hfrozen).
  rewrite Hu'. f_equal. apply Hfrozen. reflexivity.
Defined.

Lemma handle_transactions_length (rq : TransactionRoutes.Request) (st : Store) :
  (length (transactions st)
   <= length (transactions (snd (TransactionRoutes.handle rq st))))%nat.
Proof.
  destruct rq as [userId body env | userId id]; simpl.
  - destruct (create_transactions_cases st userId body env) as [E | (tx & E & _)];
      rewrite E; [lia|]. rewrite length_app. simpl. lia.
  - destruct (cancel_cases st userId id) as [(_ & t & _ & _ & _ & E) | (_ & _ & E)];
      rewrite E; [|lia]. simpl. rewrite length_insert. lia.
Qed.



(** X9. Cancelling never moves money: whatever the outcome, every account
    and every loan is as before.  A caller who is not the sender of the
    transaction is answered 403, and an unknown transaction id 404, with
    the store untouched. *)
Theorem cancel_moves_no_money (st : Store) (userId id : nat) :
  users (snd (run (TransactionRoutes.cancel userId id) st)) = users st
  /\ loans (snd (run (TransactionRoutes.cancel userId id) st)) = loans st
  /\ (forall u, users st !! userId = Some u -> User.isActive u = true ->
        (forall t, transactions st !! id = Some t ->
                   Transaction.sender t <> userId ->
                   run (TransactionRoutes.cancel userId id) st
                   = (mkResponse 403 "Only sender can cancel transaction" None, st))
        /\ (transactions st !! id = None ->
            run (TransactionRoutes.cancel userId id) st
            = (mkResponse 404 "Transaction not found" None, st))).
Proof.
  split; [|split].
  - destruct (cancel_cases st userId id) as [(_ & t & _ & _ & _ & E) | (_ & _ & E)];
      rewrite E; reflexivity.
  - destruct (cancel_cases st userId id) as [(_ & t & _ & _ & _ & E) | (_ & _ & E)];
      rewrite E; reflexivity.
  - intros u Hu Ha. split.
    + intros t Ht Hne. unfold_handler. rewrite Hu, Ha. simpl. rewrite Ht.
      apply Nat.eqb_neq in Hne. rewrite Hne. reflexivity.
    + intros Ht. unfold_handler. rewrite Hu, Ha. simpl. rewrite Ht. reflexivity.
Qed.

Lemma cancel_moves_no_money_witness :
  run (TransactionRoutes.cancel 2 0) Samples.store_after_transfer
  = (mkResponse 403 "Only sender can cancel transaction" None,
     Samples.store_after_transfer).
Proof.
  destruct (cancel_moves_no_money Samples.store_after_transfer 2 0) as (_ & _ & H).
  destruct (H (User.set_accountBalance Samples.bob (50 + 100)) eq_refl eq_refl)
    as [H403 _].
  apply (H403 _ eq_refl). simpl. lia.
Defined.

(** ** How create and cancel compose *)

(** X10. The pending record left by a payment, or by a withdrawal refused
    for insufficient balance, can afterwards be cancelled by the user who
    created it: the cancel is answered 200, the record becomes cancelled,
    and the accounts are still as they were before the create. *)
Theorem create_pending_then_cancel
    (st : Store) (userId : nat) (body : TransactionRoutes.Body)
    (env : TransactionRoutes.Env) (sender receiver : User.t) :
  users st !! userId = Some sender ->
  User.isActive sender = true ->
  users st !! TransactionRoutes.receiverId body = Some receiver ->
  User.isActive receiver = true ->
  TransactionRoutes.validationResult body = true ->
  (TransactionRoutes.b_type body = Transaction.withdrawal
   /\ User.accountBalance sender < TransactionRoutes.b_amount body)
  \/ TransactionRoutes.b_type body = Transaction.payment ->
  let st1 := snd (run (TransactionRoutes.create userId body env) st) in
  let id := length (transactions st) in
  let res2 := fst (run (TransactionRoutes.cancel userId id) st1) in
  let st2 := snd (run (TransactionRoutes.cancel userId id) st1) in
  code res2 = 200%nat
  /\ payload res2 = Some (TransactionRoutes.Cancelled id Transaction.cancelled)
  /\ transactions st2
     = transactions st
       ++ [Transaction.set_status (pending_transaction userId body env)
             Transaction.cancelled]
  /\ users st2 = users st.
Proof.
  intros Hs Has Hr Har Hv Hcase st1 id res2 st2. subst st1 id res2 st2.
  assert (E : snd (run (TransactionRoutes.create userId body env) st)
              = set_transactions st
                  (transactions st ++ [pending_transaction userId body env])).
  { destruct Hcase as [[Ht Hbal] | Ht].
    - rewrite (create_withdrawal_insufficient_run st userId body env sender receiver)
        by assumption. reflexivity.
    - rewrite (create_payment_run st userId body env sender receiver)
        by assumption. reflexivity. }
  rewrite E. unfold_handler. simpl. rewrite Hs. simpl. rewrite Has. simpl.
  rewrite lookup_app_r by lia. rewrite Nat.sub_diag. simpl.
  rewrite Nat.eqb_refl. simpl. rewrite insert_app_last.
  repeat split; reflexivity.
Qed.

Lemma create_pending_then_cancel_witness :
  code (fst (run (TransactionRoutes.cancel 1 0)
               (snd (run (TransactionRoutes.create 1 Samples.pay_30 Samples.env)
                       Samples.store)))) = 200%nat.
Proof.
  pose proof (create_pending_then_cancel Samples.store 1 Samples.pay_30
                Samples.env Samples.alice Samples.bob
                eq_refl eq_refl eq_refl eq_refl eq_refl (or_intror eq_refl)) as H.
  destruct H as (Hcode & _). exact Hcode.
Defined.

(** X11. A transfer that went through cannot be undone by cancelling it:
    the sender's cancel is answered 400 "Only pending transactions can be
    cancelled" and the store, balances included, stays as the transfer
    left it. *)
Theorem create_transfer_then_cancel_refused
    (st : Store) (userId : nat) (body : TransactionRoutes.Body)
    (env : TransactionRoutes.Env) (sender receiver : User.t) :
  users st !! userId = Some sender ->
  User.isActive sender = true ->
  users st !! TransactionRoutes.receiverId body = Some receiver ->
  User.isActive receiver = true ->
  TransactionRoutes.validationResult body = true ->
  TransactionRoutes.b_type body = Transaction.transfer ->
  TransactionRoutes.b_amount body <= User.accountBalance sender ->
  let st1 := snd (run (TransactionRoutes.create userId body env) st) in
  run (TransactionRoutes.cancel userId (length (transactions st))) st1
  = (mkResponse 400 "Only pending transactions can be cancelled" None, st1).
Proof.
  destruct body as [rid amt ty desc]. simpl.
  intros Hs Has Hr Har Hv -> Hbal.
  unfold_handler. rewrite Hs, Has, Hv. simpl.
  apply js_lt_false in Hbal. rewrite Hbal, Hr, Har. simpl.
  rewrite insert_app_last.
  destruct (decide (rid = userId)) as [->|Hne].
  - rewrite lookup_insert_eq. simpl. rewrite Har. simpl.
    rewrite lookup_app_r by lia. rewrite Nat.sub_diag. simpl.
    rewrite Nat.eqb_refl. reflexivity.
  - rewrite lookup_insert_ne by exact Hne. rewrite lookup_insert_eq. simpl.
    rewrite Has. simpl.
    rewrite lookup_app_r by lia. rewrite Nat.sub_diag. simpl.
    rewrite Nat.eqb_refl. reflexivity.
Qed.

Lemma create_transfer_then_cancel_refused_witness :
  run (TransactionRoutes.cancel 1 0) Samples.store_after_transfer
  = (mkResponse 400 "Only pending transactions can be cancelled" None,
     Samples.store_after_transfer).
Proof.
  assert (Hle : TransactionRoutes.b_amount Samples.transfer_all
                <= User.accountBalance Samples.alice)
    by (unfold Qle; simpl; lia).
  exact (create_transfer_then_cancel_refused Samples.store 1 Samples.transfer_all
           Samples.env Samples.alice Samples.bob
           eq_refl eq_refl eq_refl eq_refl eq_refl eq_refl Hle).
Defined.

(** ** Pages *)

Lemma Math_ceil_div_bounds (total limit : nat) :
  (0 < limit)%nat ->
  (total <= Paging.Math_ceil_div total limit * limit)%nat
  /\ ((Paging.Math_ceil_div total limit - 1) * limit < total
      \/ (total = 0 /\ Paging.Math_ceil_div total limit = 0))%nat.
Proof.
  intros Hl. unfold Paging.Math_ceil_div.
  set (T := inject_Z (Z.of_nat total)). set (L := inject_Z (Z.of_nat limit)).
  assert (HL : 0 < L).
  { unfold L. change 0 with (inject_Z 0). rewrite <- Zlt_Qlt. lia. }
  assert (HT : 0 <= T).
  { unfold T. change 0 with (inject_Z 0). rewrite <- Zle_Qle. lia. }
  assert (Hx : (T / L) * L == T) by (field; lra).
  pose proof (Qle_ceiling (T / L)) as Hup.
  pose proof (Qceiling_lt (T / L)) as Hlow.
  set (C := Qceiling (T / L)) in *.
  assert (H1 : T <= inject_Z C * L).
  { rewrite <- Hx. apply Qmult_le_compat_r; [exact Hup | lra]. }
  assert (H2 : inject_Z (C - 1) * L < T).
  { rewrite <- Hx. apply Qmult_lt_compat_r; [exact HL | exact Hlow]. }
  unfold T, L in H1, H2. rewrite <- inject_Z_mult in H1, H2.
  rewrite <- Zle_Qle in H1. rewrite <- Zlt_Qlt in H2.
  assert (HC : (0 <= C)%Z) by nia.
  assert (Hn : Z.of_nat (Z.to_nat C) = C) by lia.
  fold C. set (n := Z.to_nat C) in *. clearbody n. subst C. clear Hup Hlow Hx.
  split; [nia|].
  destruct n as [|n]; [right; split; [nia | reflexivity]|].
  left. simpl. rewrite Nat.sub_0_r. nia.
Qed.

(** X12. For a page number and a limit from 1 on, a page never holds more
    than [limit] items and, followed by the rest of the listing, gives back
    everything from its first item on, so that no item falls between two
    pages; [hasNextPage] is true exactly when the next page is not empty,
    which is exactly when the page number is below [totalPages]; and
    [totalPages] pages are enough to hold all the items. *)
Theorem paging_consistent {A} (page limit : nat) (l : list A) :
  (1 <= page)%nat -> (1 <= limit)%nat ->
  let p := Paging.pagination page limit (length l) in
  (length (Paging.paginate page limit l) <= limit)%nat
  /\ Paging.paginate page limit l ++ skipn (page * limit) l
     = skipn (Paging.skip page limit) l
  /\ (Paging.hasNextPage p = true <-> Paging.paginate (S page) limit l <> [])
  /\ (Paging.hasNextPage p = true <-> (page < Paging.totalPages p)%nat)
  /\ (length l <= Paging.totalPages p * limit)%nat.
Proof.
  intros Hp Hl p. subst p. unfold Paging.paginate, Paging.skip. simpl.
  destruct (Math_ceil_div_bounds (length l) limit Hl) as [Hup Hlow].
  split; [rewrite length_firstn; lia|].
  split.
  { replace (page * limit)%nat with (limit + (page - 1) * limit)%nat by nia.
    rewrite <- (skipn_skipn limit ((page - 1) * limit) l).
    apply firstn_skipn. }
  split.
  { rewrite Nat.ltb_lt, Nat.sub_0_r. split.
    - intros Hlt E. apply (f_equal (@length _)) in E.
      rewrite length_firstn, length_skipn in E. simpl in E. lia.
    - intros Hne. destruct (Nat.lt_ge_cases (page * limit) (length l)) as [H|H];
        [exact H|].
      exfalso. apply Hne. rewrite skipn_all2 by exact H. apply firstn_nil. }
  split; [|exact Hup].
  rewrite Nat.ltb_lt. split; intros H.
  - destruct (Nat.lt_ge_cases page (Paging.Math_ceil_div (length l) limit))
      as [Hlt|Hge]; [exact Hlt|]. nia.
  - destruct Hlow as [Hlow | [H0 Hc]]; [nia | lia].
Qed.

Lemma paging_consistent_witness :
  Paging.hasNextPage (Paging.pagination 2 2 (length [10; 20; 30; 40; 50]%nat)) = true
  <-> Paging.paginate 3 2 [10; 20; 30; 40; 50]%nat <> [].
Proof.
  assert (H1 : (1 <= 2)%nat) by lia.
  destruct (paging_consistent 2 2 [10; 20; 30; 40; 50]%nat H1 H1)
    as (_ & _ & H & _).
  exact H.
Defined.

(** ** Reading transactions *)

(** X13. Reading a transaction by id changes nothing in the store, and it
    is answered with the transaction only to its sender or its receiver;
    any other authenticated caller is answered 403 "Access denied to this
    transaction". *)
Theorem get_only_for_parties (st : Store) (userId id : nat) :
  snd (run (TransactionQueries.get userId id) st) = st
  /\ (code (fst (run (TransactionQueries.get userId id) st)) = 200%nat ->
      exists t, transactions st !! id = Some t
                /\ payload (fst (run (TransactionQueries.get userId id) st)) = Some t
                /\ (Transaction.sender t = userId \/ Transaction.receiver t = userId))
  /\ (forall u t s r,
        users st !! userId = Some u -> User.isActive u = true ->
        transactions st !! id = Some t ->
        users st !! Transaction.sender t = Some s ->
        users st !! Transaction.receiver t = Some r ->
        Transaction.sender t <> userId -> Transaction.receiver t <> userId ->
        fst (run (TransactionQueries.get userId id) st)
        = mkResponse 403 "Access denied to this transaction" None).
Proof.
  unfold run, TransactionQueries.get, authenticateToken, bind, respond, ret,
    User_findById, Transaction_findById.
  split; [|split].
  - destruct (users st !! userId) as [u|]; simpl; [|reflexivity].
    destruct (User.isActive u); simpl; [|reflexivity].
    destruct (transactions st !! id) as [t|]; simpl; [|reflexivity].
    destruct (users st !! Transaction.sender t); simpl; [|reflexivity].
    destruct (Nat.eqb (Transaction.sender t) userId); simpl; [reflexivity|].
    destruct (users st !! Transaction.receiver t); simpl; [|reflexivity].
    destruct (Nat.eqb (Transaction.receiver t) userId); reflexivity.
  - destruct (users st !! userId) as [u|]; simpl; [|discriminate].
    destruct (User.isActive u); simpl; [|discriminate].
    destruct (transactions st !! id) as [t|]; simpl; [|discriminate].
    destruct (users st !! Transaction.sender t); simpl; [|discriminate].
    destruct (Nat.eqb (Transaction.sender t) userId) eqn:Es; simpl.
    + intros _. exists t. apply Nat.eqb_eq in Es. auto.
    + destruct (users st !! Transaction.receiver t); simpl; [|discriminate].
      destruct (Nat.eqb (Transaction.receiver t) userId) eqn:Er; simpl;
        [|discriminate].
      intros _. exists t. apply Nat.eqb_eq in Er. auto.
  - intros u t s r Hu Ha Ht Hs Hr Hns Hnr.
    rewrite Hu. simpl. rewrite Ha. simpl. rewrite Ht. simpl.
    rewrite Hs, Hr. simpl.
    apply Nat.eqb_neq in Hns, Hnr. rewrite Hns, Hnr. reflexivity.
Qed.

Lemma get_only_for_parties_witness :
  fst (run (TransactionQueries.get 3 0)
         (set_users Samples.store_after_transfer
            (<[3%nat := User.mk true 5]> (users Samples.store_after_transfer))))
  = mkResponse 403 "Access denied to this transaction" None.
Proof.
  destruct (get_only_for_parties
              (set_users Samples.store_after_transfer
                 (<[3%nat := User.mk true 5]> (users Samples.store_after_transfer)))
              3 0) as (_ & _ & H).
  refine (H _ _ _ _ eq_refl eq_refl eq_refl eq_refl eq_refl _ _); simpl; lia.
Defined.

Lemma insert_by_createdAt_In (x y : Transaction.t) (l : list Transaction.t) :
  In y (TransactionQueries.insert_by_createdAt x l) <-> y = x \/ In y l.
Proof.
  induction l as [|z l IH]; simpl; [intuition|].
  destruct (Nat.ltb (Transaction.createdAt z) (Transaction.createdAt x)); simpl;
    [intuition|].
  rewrite IH. intuition.
Qed.

Lemma sort_createdAt_desc_In (y : Transaction.t) (l : list Transaction.t) :
  In y (TransactionQueries.sort_createdAt_desc l) <-> In y l.
Proof.
  unfold TransactionQueries.sort_createdAt_desc.
  induction l as [|x l IH]; simpl; [reflexivity|].
  rewrite insert_by_createdAt_In, IH. intuition.
Qed.

Lemma insert_by_createdAt_newest_first (x : Transaction.t) (l : list Transaction.t) :
  TransactionQueries.newest_first l ->
  TransactionQueries.newest_first (TransactionQueries.insert_by_createdAt x l).
Proof.
  induction l as [|y l IH]; intros Hl; [exact I|].
  simpl TransactionQueries.insert_by_createdAt.
  destruct (Nat.ltb (Transaction.createdAt y) (Transaction.createdAt x)) eqn:E.
  - apply Nat.ltb_lt in E. split; [lia | exact Hl].
  - apply Nat.ltb_ge in E. destruct l as [|z l].
    + simpl. split; [exact E | exact I].
    + destruct Hl as [Hzy Hl]. specialize (IH Hl).
      simpl TransactionQueries.insert_by_createdAt in *.
      destruct (Nat.ltb (Transaction.createdAt z) (Transaction.createdAt x)).
      * split; [exact E | exact IH].
      * split; [exact Hzy | exact IH].
Qed.

Lemma sort_createdAt_desc_newest_first (l : list Transaction.t) :
  TransactionQueries.newest_first (TransactionQueries.sort_createdAt_desc l).
Proof.
  unfold TransactionQueries.sort_createdAt_desc.
  induction l as [|x l IH]; [exact I|].
  simpl. apply insert_by_createdAt_newest_first, IH.
Qed.

Lemma newest_first_tail (x : Transaction.t) (l : list Transaction.t) :
  TransactionQueries.newest_first (x :: l) -> TransactionQueries.newest_first l.
Proof. destruct l as [|y l]; [intros _; exact I | intros [_ H]; exact H]. Qed.

Lemma newest_first_skipn (n : nat) (l : list Transaction.t) :
  TransactionQueries.newest_first l -> TransactionQueries.newest_first (skipn n l).
Proof.
  revert l. induction n as [|n IH]; intros l Hl; [exact Hl|].
  destruct l as [|x l]; [exact I|]. simpl. apply IH.
  exact (newest_first_tail x l Hl).
Qed.

Lemma newest_first_firstn (n : nat) (l : list Transaction.t) :
  TransactionQueries.newest_first l -> TransactionQueries.newest_first (firstn n l).
Proof.
  revert l. induction n as [|n IH]; intros l Hl; [exact I|].
  destruct l as [|x l]; [exact I|].
  pose proof (IH l (newest_first_tail x l Hl)) as Hrest.
  destruct l as [|y l]; [destruct n; exact I|].
  destruct n as [|n]; [exact I|].
  destruct Hl as [Hyx _]. split; [exact Hyx | exact Hrest].
Qed.

Lemma In_paginate {A} (page limit : nat) (l : list A) (x : A) :
  In x (Paging.paginate page limit l) -> In x l.
Proof.
  unfold Paging.paginate. intros H.
  apply list_elem_of_In. apply list_elem_of_In in H.
  apply (subseteq_drop (Paging.skip page limit) l).
  apply (subseteq_take limit _). exact H.
Qed.

(** X14. The history of an authenticated user, asked for with a page
    number and a limit from 1 on, is answered 200 without changing the
    store.  It lists only stored transactions of which the
    user is the sender or the receiver and which have the type and the
    status asked for, if any; it lists at most [limit] of them, the most
    recent first; and the total it reports is the number of all the
    transactions that match. *)
Theorem history_lists_own_transactions
    (st : Store) (userId : nat) (q : TransactionQueries.HistoryQuery) (u : User.t) :
  users st !! userId = Some u ->
  User.isActive u = true ->
  (1 <= TransactionQueries.q_page q)%nat ->
  (1 <= TransactionQueries.q_limit q)%nat ->
  exists h,
    run (TransactionQueries.history userId q) st
    = (mkResponse 200 EmptyString (Some h), st)
    /\ (forall x, In x (TransactionQueries.h_transactions h) ->
          In x (transactions st)
          /\ (Transaction.sender x = userId \/ Transaction.receiver x = userId)
          /\ (forall ty, TransactionQueries.q_type q = Some ty ->
                         Transaction.type x = ty)
          /\ (forall s, TransactionQueries.q_status q = Some s ->
                        Transaction.status x = s))
    /\ (length (TransactionQueries.h_transactions h)
        <= TransactionQueries.q_limit q)%nat
    /\ TransactionQueries.newest_first (TransactionQueries.h_transactions h)
    /\ Paging.totalItems (TransactionQueries.h_pagination h)
       = length (List.filter (TransactionQueries.history_match userId q)
                   (transactions st)).
Proof.
  intros Hu Ha _ _.
  unfold run, TransactionQueries.history, authenticateToken, bind, respond, ret,
    User_findById.
  rewrite Hu. simpl. rewrite Ha. simpl.
  eexists. split; [reflexivity|]. simpl.
  split; [|split; [|split; [|reflexivity]]].
  - intros x Hx. apply In_paginate in Hx.
    apply (proj1 (sort_createdAt_desc_In _ _)) in Hx.
    apply (proj1 (filter_In _ _ _)) in Hx.
    destruct Hx as [Hin Hm]. split; [exact Hin|].
    unfold TransactionQueries.history_match in Hm.
    apply andb_prop in Hm. destruct Hm as [Hm Hstatus].
    apply andb_prop in Hm. destruct Hm as [Hparty Htype].
    split; [|split].
    + apply orb_prop in Hparty.
      destruct Hparty as [H|H]; apply Nat.eqb_eq in H; auto.
    + intros ty Hq. rewrite Hq in Htype.
      destruct (Transaction.type x), ty; simpl in Htype; congruence.
    + intros s Hq. rewrite Hq in Hstatus. apply Status_eqb_eq in Hstatus.
      exact Hstatus.
  - unfold Paging.paginate. rewrite length_firstn. lia.
  - unfold Paging.paginate. apply newest_first_firstn, newest_first_skipn.
    apply sort_createdAt_desc_newest_first.
Qed.

Lemma history_lists_own_transactions_witness :
  exists h,
    run (TransactionQueries.history 2
           (TransactionQueries.mkHistoryQuery 1 10 None None))
        (TransactionRoutes.serve busy_day store_with_carol)
    = (mkResponse 200 EmptyString (Some h),
       TransactionRoutes.serve busy_day store_with_carol)
    /\ length (TransactionQueries.h_transactions h) = 3%nat.
Proof.
  destruct (history_lists_own_transactions
              (TransactionRoutes.serve busy_day store_with_carol) 2
              (TransactionQueries.mkHistoryQuery 1 10 None None)
              (User.set_accountBalance Samples.bob (50 + 100)) eq_refl eq_refl
              (le_n 1) ltac:(simpl; lia))
    as (h & Hrun & _).
  exists h. split; [exact Hrun|].
  vm_compute in Hrun. injection Hrun as <-. reflexivity.
Defined.

(** ** The statistics of [/stats/summary] *)

Lemma sum_amounts_app (l1 l2 : list Transaction.t) :
  TransactionQueries.sum_amounts (l1 ++ l2)
  == TransactionQueries.sum_amounts l1 + TransactionQueries.sum_amounts l2.
Proof.
  unfold TransactionQueries.sum_amounts.
  induction l1 as [|x l1 IH]; simpl; [ring|]. rewrite IH. ring.
Qed.

Lemma total_or_0_aggregate (matching : Transaction.t -> bool)
    (l : list Transaction.t) :
  TransactionQueries.total_or_0 (TransactionQueries.aggregate_total matching l)
  == TransactionQueries.sum_amounts (List.filter matching l).
Proof.
  unfold TransactionQueries.aggregate_total.
  destruct (List.filter matching l) as [|x found] eqn:E; [reflexivity|].
  unfold TransactionQueries.total_or_0.
  destruct (Qeq_bool _ 0) eqn:E0; [|reflexivity].
  apply Qeq_bool_iff in E0. rewrite E0. reflexivity.
Qed.

(** The whole outcome of a deposit once the receiver is found. *)
Lemma create_deposit_run
    (st : Store) (userId : nat) (body : TransactionRoutes.Body)
    (env : TransactionRoutes.Env) (sender receiver : User.t) :
  users st !! userId = Some sender ->
  User.isActive sender = true ->
  users st !! TransactionRoutes.receiverId body = Some receiver ->
  User.isActive receiver = true ->
  TransactionRoutes.validationResult body = true ->
  TransactionRoutes.b_type body = Transaction.deposit ->
  snd (run (TransactionRoutes.create userId body env) st)
  = set_transactions
      (set_users st
         (<[userId := User.set_accountBalance sender
                        (User.accountBalance sender + TransactionRoutes.b_amount body)]>
            (users st)))
      (transactions st
       ++ [Transaction.set_completedAt
             (Transaction.set_status (pending_transaction userId body env)
                Transaction.completed)
             (TransactionRoutes.date_completed env)]).
Proof.
  destruct body as [rid amt ty desc]. simpl.
  intros Hs Has Hr Har Hv ->.
  unfold_handler. rewrite Hs, Has, Hv. simpl. rewrite Hr, Har. simpl.
  rewrite insert_app_last. reflexivity.
Qed.



(** ** What a loan costs *)

(** X16. The rate derived for an application lies between 8.5 and 13.5
    whatever the type and the amount; it is therefore inside the bounds
    0.1 and 25 of the loan schema, and the monthly rate is positive, so
    that the pre-save hook always takes the annuity branch for a loan that
    comes from the application route. *)
Theorem interestRate_of_within_schema (loanType : Loan.LoanType) (amount : Q) :
  let rate := LoanRoutes.interestRate_of loanType amount in
  17 # 2 <= rate /\ rate <= 27 # 2
  /\ 1 # 10 <= rate /\ rate <= 25
  /\ js_gt (rate / 100 / 12) 0 = true.
Proof.
  unfold LoanRoutes.interestRate_of.
  destruct loanType;
    try destruct (js_ge amount _);
    repeat split; try (unfold Qle; simpl; lia); reflexivity.
Qed.

Lemma Qpower_succ_nat (x : Q) (n : nat) :
  ~ x == 0 -> x ^ Z.of_nat (S n) == x * x ^ Z.of_nat n.
Proof.
  intros Hx. rewrite Nat2Z.inj_succ, <- Z.add_1_l.
  rewrite Qpower_plus by exact Hx. reflexivity.
Qed.

(** Compound growth over [n] periods is at most [n] times the last
    period's interest: (1+r)^n - 1 <= n r (1+r)^n. *)
Lemma growth_bound (r : Q) (n : nat) :
  0 <= r ->
  (1 + r) ^ Z.of_nat n - 1 <= inject_Z (Z.of_nat n) * r * (1 + r) ^ Z.of_nat n.
Proof.
  intros Hr. induction n as [|n IH].
  - change (inject_Z (Z.of_nat 0)) with 0. change ((1 + r) ^ Z.of_nat 0) with 1.
    lra.
  - assert (Hx : ~ 1 + r == 0) by lra.
    rewrite (Qpower_succ_nat (1 + r) n Hx).
    rewrite Nat2Z.inj_succ. unfold Z.succ. rewrite inject_Z_plus.
    change (inject_Z 1) with 1.
    assert (Hg : 0 < (1 + r) ^ Z.of_nat n) by (apply Qpower_0_lt; lra).
    set (g := (1 + r) ^ Z.of_nat n) in *.
    assert (HN : 0 <= inject_Z (Z.of_nat n)).
    { change 0 with (inject_Z 0). rewrite <- Zle_Qle. lia. }
    set (N := inject_Z (Z.of_nat n)) in *.
    assert (H1 : 0 <= r * g) by (apply Qmult_le_0_compat; lra).
    assert (H2 : 0 <= (r * g) * r) by (apply Qmult_le_0_compat; lra).
    assert (H3 : 0 <= N * ((r * g) * r)) by (apply Qmult_le_0_compat; lra).
    lra.
Qed.

(** X17. For a principal that is not negative, a positive annual rate and
    a term of at least one month, the annuity formula is well defined (its
    denominator is positive) and the borrower never pays back less than
    was lent: the monthly payment is at least principal/term, the total
    amount at least the principal, and the interest not negative.  The
    interest the calculator reports after rounding is not negative
    either. *)
Theorem amortize_repays_principal (amount : Q) (term : Z) (interestRate : Q) :
  0 <= amount -> 0 < interestRate -> (1 <= term)%Z ->
  let monthlyRate := interestRate / 100 / 12 in
  let monthlyPayment := fst (fst (LoanRoutes.calculate amount term interestRate)) in
  let totalAmount := snd (fst (LoanRoutes.calculate amount term interestRate)) in
  let totalInterest := snd (LoanRoutes.calculate amount term interestRate) in
  0 < (1 + monthlyRate) ^ term - 1
  /\ amount / inject_Z term <= monthlyPayment
  /\ amount <= totalAmount
  /\ 0 <= totalInterest
  /\ 0 <= round2 totalInterest.
Proof.
  intros Ha Hrate Hterm. cbv zeta.
  assert (Hr : 0 < interestRate / 100 / 12).
  { unfold Qdiv. change (/ 100) with (1 # 100). change (/ 12) with (1 # 12). lra. }
  unfold LoanRoutes.calculate.
  pose proof Hr as Hgt. apply js_gt_true in Hgt. rewrite Hgt. cbn [fst snd].
  set (r := interestRate / 100 / 12) in *.
  assert (Hg1 : 1 < (1 + r) ^ term) by (apply Qpower_1_lt; [lra | lia]).
  pose proof (growth_bound r (Z.to_nat term) (Qlt_le_weak _ _ Hr)) as Hb.
  rewrite Z2Nat.id in Hb by lia.
  set (g := (1 + r) ^ term) in *.
  assert (HN : 1 <= inject_Z term).
  { change 1 with (inject_Z 1). rewrite <- Zle_Qle. exact Hterm. }
  set (N := inject_Z term) in *.
  assert (HD : 0 < g - 1) by lra.
  assert (Hkey : amount * (g - 1) <= amount * r * g * N).
  { assert (H0 : 0 <= amount * (N * r * g - (g - 1)))
      by (apply Qmult_le_0_compat; lra).
    lra. }
  assert (Htotal : amount <= amount * r * g / (g - 1) * N).
  { assert (E : amount * r * g / (g - 1) * N == (amount * r * g * N) / (g - 1))
      by (field; lra).
    rewrite E. apply Qle_shift_div_l; [exact HD | exact Hkey]. }
  split; [exact HD|].
  split; [apply Qle_shift_div_r; [lra | exact Htotal]|].
  split; [exact Htotal|].
  assert (Hint : 0 <= amount * r * g / (g - 1) * N - amount) by lra.
  split; [exact Hint|].
  unfold round2, Math_round. unfold Qdiv. change (/ 100) with (1 # 100).
  assert (Hf : (0 <= Qfloor ((amount * r * g * / (g - 1) * N - amount) * 100
                             + (1 # 2)))%Z).
  { change 0%Z with (Qfloor 0). apply Qfloor_resp_le.
    unfold Qdiv in Hint. lra. }
  rewrite Zle_Qle in Hf. change (inject_Z 0) with 0 in Hf. lra.
Qed.

Lemma amortize_repays_principal_witness :
  1000 <= snd (fst (LoanRoutes.calculate 1000 3 12))
  /\ 0 <= round2 (snd (LoanRoutes.calculate 1000 3 12)).
Proof.
  assert (Ha : 0 <= 1000) by (unfold Qle; simpl; lia).
  assert (Hr : 0 < 12) by reflexivity.
  assert (Ht : (1 <= 3)%Z) by lia.
  destruct (amortize_repays_principal 1000 3 12 Ha Hr Ht) as (_ & _ & H1 & _ & H2).
  split; [exact H1 | exact H2].
Defined.

(** ** Loan applications and their upkeep *)

Lemma find_open_loan_None_intro (userId : nat) (ls : list Loan.t) :
  (forall i l, ls !! i = Some l -> Loan.user l = userId ->
               Loan.in_pending_approved_active (Loan.status l) = false) ->
  List.find
    (fun l => Nat.eqb (Loan.user l) userId
              && Loan.in_pending_approved_active (Loan.status l)) ls = None.
Proof.
  induction ls as [|l ls IH]; intros H; simpl; [reflexivity|].
  destruct (Nat.eqb (Loan.user l) userId) eqn:E; simpl.
  - apply Nat.eqb_eq in E. rewrite (H 0%nat l eq_refl E).
    apply IH. intros i l' Hl'. exact (H (S i) l' Hl').
  - apply IH. intros i l' Hl'. exact (H (S i) l' Hl').
Qed.

(** X18. No loan application is ever accepted.  The constructor leaves
    monthlyPayment and totalAmount undefined, the schema requires both, and
    [save] validates the document before the hook that would compute them
    runs.  So, whatever the request, [/apply] answers with no 2xx status
    and leaves the whole store as it was; the application of an active user
    with a valid request and no pending, approved or active loan is
    answered 500 "Internal server error while submitting loan
    application". *)
Theorem apply_never_stores (st : Store) (userId : nat) (body : LoanRoutes.Body) :
  let res := fst (run (LoanRoutes.apply userId body) st) in
  let st' := snd (run (LoanRoutes.apply userId body) st) in
  st' = st
  /\ Spec.succeeded res = false
  /\ (forall u,
        users st !! userId = Some u -> User.isActive u = true ->
        LoanRoutes.validationResult body = true ->
        (forall i l, loans st !! i = Some l -> Loan.user l = userId ->
                     Loan.in_pending_approved_active (Loan.status l) = false) ->
        res = mkResponse 500
                "Internal server error while submitting loan application" None).
Proof.
  cbv zeta. destruct (apply_cases st userId body) as [Hf E].
  split; [exact E|]. split; [exact Hf|].
  intros u Hu Ha Hv Hnone.
  unfold_handler. simpl. rewrite Hu. simpl. rewrite Ha, Hv. simpl.
  rewrite (find_open_loan_None_intro userId (loans st) Hnone). simpl.
  rewrite validate_undefined_payment by reflexivity. reflexivity.
Qed.

Lemma apply_never_stores_witness :
  fst (run (LoanRoutes.apply 2 Samples.personal_loan) Samples.store_with_loan)
  = mkResponse 500 "Internal server error while submitting loan application" None
  /\ snd (run (LoanRoutes.apply 2 Samples.personal_loan) Samples.store_with_loan)
     = Samples.store_with_loan.
Proof.
  destruct (apply_never_stores Samples.store_with_loan 2 Samples.personal_loan)
    as (E & _ & H).
  split; [|exact E].
  apply (H Samples.bob); try reflexivity.
  intros i l Hl Hu. destruct i as [|i]; [|destruct i; discriminate Hl].
  injection Hl as <-. simpl in Hu. discriminate Hu.
Defined.



(** X20. No loan is ever cancelled.  The cancel route assigns the status
    'cancelled', which is not in the enum of the schema, so [save] throws:
    whatever the request, [/:id/cancel] answers with no 2xx status and
    leaves the whole store as it was, and the owner of a pending loan who
    cancels it is answered 500 "Internal server error while cancelling
    loan". *)
Theorem loan_cancel_never_succeeds (st : Store) (userId id : nat) :
  let res := fst (run (LoanRoutes.cancel userId id) st) in
  let st' := snd (run (LoanRoutes.cancel userId id) st) in
  st' = st
  /\ Spec.succeeded res = false
  /\ (forall u l,
        users st !! userId = Some u -> User.isActive u = true ->
        loans st !! id = Some l ->
        Loan.user l = userId -> Loan.status l = Loan.pending ->
        res = mkResponse 500 "Internal server error while cancelling loan" None).
Proof.
  cbv zeta. destruct (loan_cancel_cases st userId id) as [Hf E].
  split; [exact E|]. split; [exact Hf|].
  intros u l Hu Ha Hl Huser Hp.
  unfold_handler. simpl. rewrite Hu. simpl. rewrite Ha. simpl. rewrite Hl. simpl.
  rewrite Huser, Nat.eqb_refl, Hp. simpl.
  rewrite validate_cancelled by reflexivity. reflexivity.
Qed.

Lemma loan_cancel_never_succeeds_witness :
  fst (run (LoanRoutes.cancel 1 0) Samples.store_with_loan)
  = mkResponse 500 "Internal server error while cancelling loan" None
  /\ snd (run (LoanRoutes.cancel 1 0) Samples.store_with_loan)
     = Samples.store_with_loan.
Proof.
  destruct (loan_cancel_never_succeeds Samples.store_with_loan 1 0) as (E & _ & H).
  split; [|exact E].
  exact (H Samples.alice _ eq_refl eq_refl eq_refl eq_refl eq_refl).
Defined.

(** One loan request leaves accounts, transactions and the number of loans
    as they were, and every loan as it was but for its purpose. *)
Lemma handle_loans_fixed_but_purpose (rq : LoanRoutes.Request) (st : Store) :
  let st' := snd (LoanRoutes.handle rq st) in
  users st' = users st
  /\ transactions st' = transactions st
  /\ length (loans st') = length (loans st)
  /\ (forall j l, loans st !! j = Some l ->
        exists l', loans st' !! j = Some l'
                   /\ Loan.set_purpose l' EmptyString
                      = Loan.set_purpose l EmptyString).
Proof.
  assert (Hsame : forall j l, loans st !! j = Some l ->
            exists l', loans st !! j = Some l'
                       /\ Loan.set_purpose l' EmptyString
                          = Loan.set_purpose l EmptyString)
    by (intros j l Hl; exists l; split; [exact Hl | reflexivity]).
  destruct rq as [userId body | userId id p | userId id]; cbv zeta; simpl.
  - destruct (apply_cases st userId body) as [_ E]. rewrite E. auto.
  - destruct (update_cases st userId id p)
      as [E | (l0 & np & Hl0 & _ & _ & _ & _ & _ & E)]; rewrite E; [auto|].
    simpl. split; [reflexivity|]. split; [reflexivity|].
    split; [apply length_insert|].
    intros j l Hl. destruct (decide (j = id)) as [->|Hne].
    + rewrite Hl0 in Hl. injection Hl as <-.
      rewrite list_lookup_insert_eq by (eapply lookup_lt_Some; exact Hl0).
      eexists. split; reflexivity.
    + rewrite list_lookup_insert_ne by congruence. apply Hsame. exact Hl.
  - destruct (loan_cancel_cases st userId id) as [_ E]. rewrite E. auto.
Qed.



(** ** Card applications and the life of a card *)

(** A card that passes the validation has a number, and saving it writes it
    back as it is: the generator of the pre-save hook is not reached. *)
Lemma card_save_Some (rnd : nat -> nat) (c c' : CardDoc.t) :
  CardDoc.save rnd c = Some c' -> c' = c /\ CardDoc.validate c = true.
Proof.
  unfold CardDoc.save. destruct (CardDoc.validate c) eqn:Ev; [|discriminate].
  intros [= <-]. split; [|reflexivity].
  destruct c as [u ty num holder expiry cvv st limit avail net cat fee rew ctl intl pin].
  unfold CardDoc.validate in Ev. simpl in Ev.
  destruct num as [n|]; simpl in Ev; [|discriminate Ev].
  destruct (String.eqb n EmptyString) eqn:En; simpl in Ev; [discriminate Ev|].
  unfold CardDoc.set_cardNumber, Card.pre_save. simpl. rewrite En. reflexivity.
Qed.

(** A cancelled card does not pass the validation. *)
Lemma card_validate_cancelled (c : CardDoc.t) :
  CardDoc.status c = CardDoc.cancelled -> CardDoc.validate c = false.
Proof.
  unfold CardDoc.validate. intros ->. simpl CardDoc.status_in_enum.
  rewrite andb_false_r. reflexivity.
Qed.

Lemma find_open_card_None (userId : nat) (ty : Card.CardType) (l : list CardDoc.t) :
  CardRouter.findOne_open userId ty l = None <->
  (forall i c, l !! i = Some c -> CardDoc.user c = userId ->
               CardDoc.cardType c = ty ->
               CardDoc.in_pending_approved_active (CardDoc.status c) = false).
Proof.
  unfold CardRouter.findOne_open. induction l as [|c l IH]; simpl.
  - split; [|reflexivity]. intros _ i c Hc. rewrite lookup_nil in Hc.
    discriminate Hc.
  - destruct (Nat.eqb (CardDoc.user c) userId) eqn:Eu;
      [destruct (CardDoc.CardType_eqb (CardDoc.cardType c) ty) eqn:Et;
         [destruct (CardDoc.in_pending_approved_active (CardDoc.status c)) eqn:Eo|]|];
      simpl.
    + split; [discriminate|]. intros H. exfalso.
      apply Nat.eqb_eq in Eu.
      assert (Ety : CardDoc.cardType c = ty)
        by (destruct (CardDoc.cardType c), ty; simpl in Et; congruence).
      pose proof (H 0%nat c eq_refl Eu Ety). congruence.
    + rewrite IH. split; intros H i c' Hc'.
      * destruct i as [|i]; [injection Hc' as <-; auto | exact (H i c' Hc')].
      * exact (H (S i) c' Hc').
    + rewrite IH. split; intros H i c' Hc'.
      * destruct i as [|i]; [|exact (H i c' Hc')].
        injection Hc' as <-. intros _ Ety. subst ty.
        destruct (CardDoc.cardType c); simpl in Et; discriminate Et.
      * exact (H (S i) c' Hc').
    + rewrite IH. split; intros H i c' Hc'.
      * destruct i as [|i]; [|exact (H i c' Hc')].
        injection Hc' as <-. intros Hu. apply Nat.eqb_neq in Eu. contradiction.
      * exact (H (S i) c' Hc').
Qed.

(** What [/apply] does: it never succeeds and leaves the bank alone. *)
Lemma card_apply_cases (bank : CardRouter.Bank) (userId : nat)
    (body : CardRouter.Body) (rnd : nat -> nat) :
  Spec.succeeded (fst (CardRouter.apply userId body rnd bank)) = false
  /\ snd (CardRouter.apply userId body rnd bank) = bank.
Proof.
  unfold CardRouter.apply.
  destruct (CardRouter.bank_users bank !! userId) as [u|]; [|split; reflexivity].
  destruct (User.isActive u); simpl; [|split; reflexivity].
  destruct (CardRouter.validationResult body); simpl; [|split; reflexivity].
  destruct (CardRouter.findOne_open userId (CardRouter.b_cardType body)
              (CardRouter.cards bank)); split; reflexivity.
Qed.

(** X22. No card application is ever accepted.  The constructor is given no
    card number, holder, expiry date or cvv, the schema requires all four,
    and [save] validates the document before the hook that would generate
    the number runs.  So, whatever the request, [/apply] answers with no
    2xx status and leaves the users and the cards as they were; the
    application of an active user with a valid request and no pending,
    approved or active card of the same type is answered 500 "Internal
    server error while submitting card application". *)
Theorem card_apply_never_stores
    (bank : CardRouter.Bank) (userId : nat) (body : CardRouter.Body)
    (rnd : nat -> nat) :
  let res := fst (CardRouter.apply userId body rnd bank) in
  let bank' := snd (CardRouter.apply userId body rnd bank) in
  bank' = bank
  /\ Spec.succeeded res = false
  /\ (forall u,
        CardRouter.bank_users bank !! userId = Some u ->
        User.isActive u = true ->
        CardRouter.validationResult body = true ->
        (forall i c, CardRouter.cards bank !! i = Some c ->
                     CardDoc.user c = userId ->
                     CardDoc.cardType c = CardRouter.b_cardType body ->
                     CardDoc.in_pending_approved_active (CardDoc.status c) = false) ->
        res = mkResponse 500
                "Internal server error while submitting card application" None).
Proof.
  cbv zeta. destruct (card_apply_cases bank userId body rnd) as [Hf E].
  split; [exact E|]. split; [exact Hf|].
  intros u Hu Ha Hv Hnone. apply find_open_card_None in Hnone.
  unfold CardRouter.apply. rewrite Hu, Ha, Hv, Hnone. reflexivity.
Qed.

Lemma card_apply_never_stores_witness :
  fst (CardRouter.apply 1 gold_credit zero_draws sample_bank)
  = mkResponse 500 "Internal server error while submitting card application" None
  /\ snd (CardRouter.apply 1 gold_credit zero_draws sample_bank) = sample_bank.
Proof.
  destruct (card_apply_never_stores sample_bank 1 gold_credit zero_draws)
    as (E & _ & H).
  split; [|exact E].
  apply (H Samples.alice); try reflexivity.
  intros i c Hc. simpl in Hc. rewrite lookup_nil in Hc. discriminate Hc.
Defined.

Lemma same_terms_refl (c : CardDoc.t) : CardRouter.same_terms c c.
Proof. unfold CardRouter.same_terms. repeat split; reflexivity. Qed.

(** The two things one card request can do to the collection: nothing, or
    replace a card by one of the same terms whose status is the old one or
    went from active to blocked. *)
Lemma handle_card_shape (rq : CardRouter.Request) (bank : CardRouter.Bank) :
  let bank' := snd (CardRouter.handle rq bank) in
  bank' = bank
  \/ (exists id c c',
        CardRouter.cards bank !! id = Some c
        /\ bank' = CardRouter.mkBank (CardRouter.bank_users bank)
                     (<[id := c']> (CardRouter.cards bank))
        /\ CardDoc.validate c' = true
        /\ CardRouter.same_terms c c'
        /\ CardRouter.status_step (CardDoc.status c) (CardDoc.status c')).
Proof.
  destruct rq as [userId body rnd | userId id ct it rnd | userId id rnd
                 | userId id action rnd]; simpl.
  - left. apply card_apply_cases.
  - unfold CardRouter.update.
    destruct (CardRouter.bank_users bank !! userId) as [u|]; [|left; reflexivity].
    destruct (User.isActive u); simpl; [|left; reflexivity].
    destruct (CardRouter.cards bank !! id) as [c|] eqn:Hc; [|left; reflexivity].
    destruct (Nat.eqb (CardDoc.user c) userId); simpl; [|left; reflexivity].
    destruct (CardDoc.Status_eqb (CardDoc.status c) CardDoc.pending); simpl;
      [|left; reflexivity].
    destruct (CardDoc.save rnd _) as [c'|] eqn:Hsave; simpl; [|left; reflexivity].
    apply card_save_Some in Hsave. destruct Hsave as [-> Hv].
    right. exists id, c. eexists. split; [exact Hc|]. split; [reflexivity|].
    split; [exact Hv|].
    split; [unfold CardRouter.same_terms; repeat split; reflexivity|].
    left. reflexivity.
  - unfold CardRouter.cancel.
    destruct (CardRouter.bank_users bank !! userId) as [u|]; [|left; reflexivity].
    destruct (User.isActive u); simpl; [|left; reflexivity].
    destruct (CardRouter.cards bank !! id) as [c|] eqn:Hc; [|left; reflexivity].
    destruct (Nat.eqb (CardDoc.user c) userId); simpl; [|left; reflexivity].
    destruct (CardDoc.Status_eqb (CardDoc.status c) CardDoc.pending); simpl;
      [|left; reflexivity].
    unfold CardDoc.save. rewrite card_validate_cancelled by reflexivity.
    left. reflexivity.
  - unfold CardRouter.toggle_status.
    destruct (CardRouter.bank_users bank !! userId) as [u|]; [|left; reflexivity].
    destruct (User.isActive u); simpl; [|left; reflexivity].
    destruct (CardRouter.cards bank !! id) as [c|] eqn:Hc; [|left; reflexivity].
    destruct (Nat.eqb (CardDoc.user c) userId); simpl; [|left; reflexivity].
    destruct (CardDoc.Status_eqb (CardDoc.status c) CardDoc.active) eqn:Es; simpl;
      [|left; reflexivity].
    assert (Hact : CardDoc.status c = CardDoc.active)
      by (destruct (CardDoc.status c); simpl in Es; congruence).
    destruct (CardDoc.save rnd _) as [c'|] eqn:Hsave; simpl; [|left; reflexivity].
    apply card_save_Some in Hsave. destruct Hsave as [-> Hv].
    right. exists id, c. eexists. split; [exact Hc|]. split; [reflexivity|].
    split; [exact Hv|].
    split; [unfold CardRouter.same_terms; repeat split; reflexivity|].
    simpl. rewrite Hact. destruct action; [right; auto | left; reflexivity].
Qed.

Lemma status_step_open (s s' : CardDoc.Status) :
  CardRouter.status_step s s' ->
  CardDoc.in_pending_approved_active s' = true ->
  CardDoc.in_pending_approved_active s = true.
Proof.
  intros [-> | [-> ->]]; simpl; auto.
Qed.

Lemma handle_at_most_one_open_card (rq : CardRouter.Request) (bank : CardRouter.Bank) :
  CardRouter.at_most_one_open_card (CardRouter.cards bank) ->
  CardRouter.at_most_one_open_card
    (CardRouter.cards (snd (CardRouter.handle rq bank))).
Proof.
  intros Hinv.
  destruct (handle_card_shape rq bank)
    as [E | (id & c & c' & Hc & E & _ & Hterms & Hstep)];
    rewrite E; clear E; [exact Hinv|].
  destruct Hterms as (Hu' & Hty' & _).
  intros i j ci cj Hi Hj Hu Hty Hoi Hoj. simpl in Hi, Hj.
  apply list_lookup_insert_Some in Hi. apply list_lookup_insert_Some in Hj.
  destruct Hi as [(<- & <- & _) | [Hni Hi]], Hj as [(<- & <- & _) | [Hnj Hj]].
  - reflexivity.
  - apply (Hinv id j c cj Hc Hj); [congruence | congruence | | exact Hoj].
    exact (status_step_open _ _ Hstep Hoi).
  - apply (Hinv i id ci c Hi Hc); [congruence | congruence | exact Hoi |].
    exact (status_step_open _ _ Hstep Hoj).
  - exact (Hinv i j ci cj Hi Hj Hu Hty Hoi Hoj).
Qed.

(** X23. Served one after the other, the card requests (apply, update,
    cancel, block and unblock) keep every user at no more than one pending,
    approved or active card of each type: if that holds of the collection,
    it holds after any sequence of them. *)
Theorem serve_at_most_one_open_card
    (rqs : list CardRouter.Request) (bank : CardRouter.Bank) :
  CardRouter.at_most_one_open_card (CardRouter.cards bank) ->
  CardRouter.at_most_one_open_card (CardRouter.cards (CardRouter.serve rqs bank)).
Proof.
  revert bank. induction rqs as [|rq rqs IH]; intros bank Hinv; simpl; [exact Hinv|].
  apply IH, handle_at_most_one_open_card, Hinv.
Qed.

Lemma serve_at_most_one_open_card_witness :
  exists c0 c1,
    CardRouter.cards (CardRouter.serve open_card_requests bank_with_cards) !! 0%nat
    = Some c0
    /\ CardRouter.cards (CardRouter.serve open_card_requests bank_with_cards) !! 1%nat
       = Some c1
    /\ CardDoc.cardType c0 <> CardDoc.cardType c1.
Proof.
  assert (Hinv : CardRouter.at_most_one_open_card (CardRouter.cards bank_with_cards)).
  { intros i j ci cj Hi Hj _ Hty _ _.
    destruct i as [|[|i]], j as [|[|j]]; try reflexivity; try discriminate;
      simpl in Hi, Hj; injection Hi as <-; injection Hj as <-; discriminate Hty. }
  pose proof (serve_at_most_one_open_card open_card_requests bank_with_cards Hinv)
    as H.
  eexists. eexists. split; [reflexivity|]. split; [reflexivity|].
  intros E.
  pose proof (H 0%nat 1%nat _ _ eq_refl eq_refl eq_refl E eq_refl eq_refl) as H01.
  discriminate H01.
Defined.

Lemma status_step_trans (s1 s2 s3 : CardDoc.Status) :
  CardRouter.status_step s1 s2 -> CardRouter.status_step s2 s3 ->
  CardRouter.status_step s1 s3.
Proof.
  unfold CardRouter.status_step.
  intros [-> | [-> ->]] [-> | [E ->]]; try discriminate E; auto.
Qed.

Lemma same_terms_trans (c1 c2 c3 : CardDoc.t) :
  CardRouter.same_terms c1 c2 -> CardRouter.same_terms c2 c3 ->
  CardRouter.same_terms c1 c3.
Proof.
  unfold CardRouter.same_terms.
  intros (A1 & A2 & A3 & A4 & A5 & A6 & A7 & A8 & A9 & A10 & A11 & A12 & A13)
         (B1 & B2 & B3 & B4 & B5 & B6 & B7 & B8 & B9 & B10 & B11 & B12 & B13).
  repeat split; congruence.
Qed.

(** A stored card over a sequence of requests. *)
Lemma serve_card_effect (rqs : list CardRouter.Request) (bank : CardRouter.Bank) :
  length (CardRouter.cards (CardRouter.serve rqs bank))
  = length (CardRouter.cards bank)
  /\ forall (j : nat) (c : CardDoc.t),
       CardRouter.cards bank !! j = Some c ->
       exists c', CardRouter.cards (CardRouter.serve rqs bank) !! j = Some c'
                  /\ CardRouter.same_terms c c'
                  /\ CardRouter.status_step (CardDoc.status c) (CardDoc.status c').
Proof.
  revert bank. induction rqs as [|rq rqs IH]; intros bank; simpl.
  - split; [reflexivity|]. intros j c Hc. exists c. split; [exact Hc|].
    split; [apply same_terms_refl | left; reflexivity].
  - destruct (IH (snd (CardRouter.handle rq bank))) as [Hlen Heff].
    assert (Hstep : length (CardRouter.cards (snd (CardRouter.handle rq bank)))
                    = length (CardRouter.cards bank)
                    /\ forall j c, CardRouter.cards bank !! j = Some c ->
                         exists c1,
                           CardRouter.cards (snd (CardRouter.handle rq bank)) !! j
                           = Some c1
                           /\ CardRouter.same_terms c c1
                           /\ CardRouter.status_step (CardDoc.status c)
                                (CardDoc.status c1)).
    { destruct (handle_card_shape rq bank)
        as [E | (id & c0 & c' & Hc0 & E & _ & Hterms & Hstep)];
        rewrite E; clear E.
      - split; [reflexivity|]. intros j c Hc. exists c. split; [exact Hc|].
        split; [apply same_terms_refl | left; reflexivity].
      - simpl. split; [apply length_insert|]. intros j c Hc.
        destruct (decide (id = j)) as [->|Hne].
        + rewrite Hc in Hc0. injection Hc0 as <-. exists c'.
          split; [|split; [exact Hterms | exact Hstep]].
          apply list_lookup_insert_eq. eapply lookup_lt_Some; exact Hc.
        + exists c. split; [|split; [apply same_terms_refl | left; reflexivity]].
          rewrite list_lookup_insert_ne by exact Hne. exact Hc. }
    destruct Hstep as [Hlen1 Hstep].
    split; [congruence|]. intros j c Hc.
    destruct (Hstep j c Hc) as (c1 & Hc1 & Ht1 & Hs1).
    destruct (Heff j c1 Hc1) as (c' & Hc' & Ht' & Hs').
    exists c'. split; [exact Hc'|].
    split; [exact (same_terms_trans _ _ _ Ht1 Ht')
           | exact (status_step_trans _ _ _ Hs1 Hs')].
Qed.

(** X24. Over any sequence of card requests the status of a stored card
    changes in one way only, from active to blocked.  A pending card stays
    pending, since its cancellation assigns a status that the schema
    refuses; a blocked card stays blocked, since the unblock action is
    accepted only on a card that is active and leaves it active. *)
Theorem serve_card_status_life
    (rqs : list CardRouter.Request) (bank : CardRouter.Bank)
    (j : nat) (c : CardDoc.t) :
  CardRouter.cards bank !! j = Some c ->
  exists c', CardRouter.cards (CardRouter.serve rqs bank) !! j = Some c'
             /\ (CardDoc.status c' = CardDoc.status c
                 \/ (CardDoc.status c = CardDoc.active
                     /\ CardDoc.status c' = CardDoc.blocked))
             /\ (CardDoc.status c = CardDoc.pending ->
                 CardDoc.status c' = CardDoc.pending)
             /\ (CardDoc.status c = CardDoc.blocked ->
                 CardDoc.status c' = CardDoc.blocked).
Proof.
  intros Hc. destruct (serve_card_effect rqs bank) as [_ H].
  destruct (H j c Hc) as (c' & Hc' & _ & Hs).
  exists c'. split; [exact Hc'|]. split; [exact Hs|].
  split; intros Hb; destruct Hs as [E | [E _]]; congruence.
Qed.

Lemma serve_card_status_life_witness :
  exists c0 c1,
    CardRouter.cards (CardRouter.serve card_requests bank_with_cards) !! 0%nat
    = Some c0
    /\ CardRouter.cards (CardRouter.serve card_requests bank_with_cards) !! 1%nat
       = Some c1
    /\ CardDoc.status c0 = CardDoc.blocked
    /\ CardDoc.status c1 = CardDoc.pending.
Proof.
  destruct (serve_card_status_life card_requests bank_with_cards 1
              alice_pending_card eq_refl) as (c1 & Hc1 & _ & Hp & _).
  eexists. exists c1. split; [reflexivity|]. split; [exact Hc1|].
  split; [reflexivity|]. apply Hp. reflexivity.
Defined.

(** X25. Over any sequence of card requests no card is added to the
    collection or removed from it, and a stored card keeps its place and
    its terms: user, type, number, holder, expiry date, cvv, network,
    category, credit limit, available credit, annual fee, rewards program
    and PIN are never changed.  In particular the pre-save hook never
    replaces the number of a stored card. *)
Theorem serve_card_terms_fixed
    (rqs : list CardRouter.Request) (bank : CardRouter.Bank) :
  length (CardRouter.cards (CardRouter.serve rqs bank))
  = length (CardRouter.cards bank)
  /\ forall (j : nat) (c : CardDoc.t),
       CardRouter.cards bank !! j = Some c ->
       exists c', CardRouter.cards (CardRouter.serve rqs bank) !! j = Some c'
                  /\ CardDoc.user c' = CardDoc.user c
                  /\ CardDoc.cardType c' = CardDoc.cardType c
                  /\ CardDoc.cardNumber c' = CardDoc.cardNumber c
                  /\ CardDoc.cardHolder c' = CardDoc.cardHolder c
                  /\ CardDoc.expiryDate c' = CardDoc.expiryDate c
                  /\ CardDoc.cvv c' = CardDoc.cvv c
                  /\ CardDoc.cardNetwork c' = CardDoc.cardNetwork c
                  /\ CardDoc.cardCategory c' = CardDoc.cardCategory c
                  /\ CardDoc.creditLimit c' = CardDoc.creditLimit c
                  /\ CardDoc.availableCredit c' = CardDoc.availableCredit c
                  /\ CardDoc.annualFee c' = CardDoc.annualFee c
                  /\ CardDoc.rewardsProgram c' = CardDoc.rewardsProgram c
                  /\ CardDoc.pin c' = CardDoc.pin c.
Proof.
  destruct (serve_card_effect rqs bank) as [Hlen H].
  split; [exact Hlen|]. intros j c Hc.
  destruct (H j c Hc) as (c' & Hc' & Ht & _).
  exists c'. split; [exact Hc'|]. exact Ht.
Qed.

Lemma serve_card_terms_fixed_witness :
  exists c',
    CardRouter.cards (CardRouter.serve card_requests bank_with_cards) !! 1%nat
    = Some c'
    /\ CardDoc.cardNumber c' = Some "6000000000000007"%string
    /\ length (CardRouter.cards (CardRouter.serve card_requests bank_with_cards))
       = 2%nat.
Proof.
  destruct (serve_card_terms_fixed card_requests bank_with_cards) as [Hlen H].
  destruct (H 1%nat alice_pending_card eq_refl) as (c' & Hc' & _ & _ & Hn & _).
  exists c'. split; [exact Hc'|]. split; [exact Hn | exact Hlen].
Defined.

(** ** More on the generated number *)

Lemma forallb_append (f : ascii -> bool) (s t : string) :
  forallb f (list_ascii_of_string (String.append s t))
  = forallb f (list_ascii_of_string s) && forallb f (list_ascii_of_string t).
Proof. induction s as [|c s IH]; simpl; [reflexivity | now rewrite IH, andb_assoc]. Qed.

Lemma digit_string_is_digit (d : nat) :
  (d < 10)%nat ->
  forallb Spec.is_digit (list_ascii_of_string (Card.digit_string d)) = true.
Proof.
  intros Hd. do 10 (destruct d as [|d]; [reflexivity|]). lia.
Qed.

Lemma append_random_digits (rnd : nat -> nat) (n k : nat) (s : string) :
  forallb Spec.is_digit (list_ascii_of_string s) = true ->
  forallb Spec.is_digit (list_ascii_of_string (Card.append_random rnd k n s)) = true.
Proof.
  revert k s. induction n as [|n IH]; intros k s Hs; [exact Hs|].
  cbn [Card.append_random].
  apply IH. rewrite forallb_append, Hs, andb_true_l.
  apply digit_string_is_digit. apply Nat.mod_upper_bound. lia.
Qed.

Lemma check_digit_completes (s : nat) :
  ((s + (10 - s mod 10) mod 10) mod 10 = 0)%nat.
Proof.
  rewrite Nat.Div0.add_mod, Nat.Div0.mod_mod.
  pose proof (Nat.mod_upper_bound s 10 ltac:(lia)) as Hr.
  remember (s mod 10)%nat as r eqn:Er. clear Er s.
  do 10 (destruct r as [|r]; [reflexivity|]). lia.
Qed.

(** X26. Whatever the network and the random draws, the generated card
    number is made of decimal digits only, and its last digit is the one
    that brings the sum computed by the generator's own loop over the
    sixteen digits before it to a multiple of 10. *)
Theorem generateCardNumber_digits (net : Card.Network) (rnd : nat -> nat) :
  let payload := Card.append_random rnd 0 15 (Card.prefix net) in
  let sum := Card.luhn_loop (rev (list_ascii_of_string payload)) 0 false in
  forallb Spec.is_digit (list_ascii_of_string (Card.generateCardNumber net rnd))
  = true
  /\ exists check,
       Card.generateCardNumber net rnd
       = String.append payload (Card.digit_string check)
       /\ (check < 10)%nat
       /\ ((sum + check) mod 10 = 0)%nat.
Proof.
  cbv zeta. unfold Card.generateCardNumber.
  set (payload := Card.append_random rnd 0 15 (Card.prefix net)).
  set (sum := Card.luhn_loop _ 0 false). clearbody sum.
  assert (Hc : ((10 - sum mod 10) mod 10 < 10)%nat)
    by (apply Nat.mod_upper_bound; lia).
  split.
  - rewrite forallb_append. rewrite digit_string_is_digit by exact Hc.
    rewrite andb_true_r. apply append_random_digits. destruct net; reflexivity.
  - exists ((10 - sum mod 10) mod 10)%nat. split; [reflexivity|].
    split; [exact Hc | apply check_digit_completes].
Qed.

(** A card whose number does not match the pattern of the schema does not
    pass the validation. *)
Lemma card_validate_unmatched_number (c : CardDoc.t) (n : string) :
  CardDoc.cardNumber c = Some n ->
  CardDoc.matches_cardNumber n = false ->
  CardDoc.validate c = false.
Proof.
  intros Hn Hm. unfold CardDoc.validate. rewrite Hn. unfold CardDoc.required at 1.
  rewrite Hm, andb_false_r. reflexivity.
Qed.

(** X28. A number that the generator yields never matches the pattern that
    the schema itself demands of a card number, sixteen digits, since it
    has seventeen characters.  A card that carries such a number fails the
    validation, so it can no longer be saved, and its owner who blocks or
    unblocks it while it is active is answered 500 "Internal server error
    while updating card status", the card staying as it was. *)
Theorem generated_number_fails_validation
    (c : CardDoc.t) (net : Card.Network) (draws : nat -> nat) :
  CardDoc.cardNumber c = Some (Card.generateCardNumber net draws) ->
  CardDoc.matches_cardNumber (Card.generateCardNumber net draws) = false
  /\ CardDoc.validate c = false
  /\ (forall rnd, CardDoc.save rnd c = None)
  /\ (forall bank userId id action rnd u,
        CardRouter.bank_users bank !! userId = Some u ->
        User.isActive u = true ->
        CardRouter.cards bank !! id = Some c ->
        CardDoc.user c = userId ->
        CardDoc.status c = CardDoc.active ->
        CardRouter.toggle_status userId id action rnd bank
        = (mkResponse 500 "Internal server error while updating card status" None,
           bank)).
Proof.
  intros Hn.
  assert (Hm : CardDoc.matches_cardNumber (Card.generateCardNumber net draws) = false).
  { unfold CardDoc.matches_cardNumber. rewrite generateCardNumber_length.
    reflexivity. }
  split; [exact Hm|].
  split; [exact (card_validate_unmatched_number c _ Hn Hm)|].
  split.
  - intros rnd. unfold CardDoc.save.
    rewrite (card_validate_unmatched_number c _ Hn Hm). reflexivity.
  - intros bank userId id action rnd u Hu Ha Hc Huser Hact.
    unfold CardRouter.toggle_status. rewrite Hu, Ha, Hc. simpl.
    rewrite Huser, Nat.eqb_refl, Hact. simpl.
    unfold CardDoc.save.
    rewrite (card_validate_unmatched_number _ (Card.generateCardNumber net draws))
      by (try exact Hm; simpl; exact Hn).
    reflexivity.
Qed.

Lemma generated_number_fails_validation_witness :
  CardRouter.toggle_status 2 0 CardRouter.block zero_draws bank_with_generated_card
  = (mkResponse 500 "Internal server error while updating card status" None,
     bank_with_generated_card).
Proof.
  destruct (generated_number_fails_validation bob_generated_card Card.Visa
              zero_draws eq_refl) as (_ & _ & _ & H).
  exact (H bank_with_generated_card 2%nat 0%nat CardRouter.block zero_draws
           Samples.bob eq_refl eq_refl eq_refl eq_refl eq_refl).
Defined.
